(** * Risk-zone evaluation, auto-alert gate and alert fan-out

    A shallow embedding of
    - [src/hooks/useLocation.ts]    ([getDistanceFromLatLonInKm], [deg2rad]),
    - [src/hooks/useRiskZones.ts]   ([checkRiskAtLocation]),
    - [supabase/functions/check-risk-zone/index.ts],
    - [supabase/functions/send-sos-alert/index.ts].

    JavaScript numbers are read as real numbers: [+], [-], [*], [/],
    [Math.sin], [Math.cos], [Math.sqrt] and [Math.atan2] are the exact
    operations on [R].  Rounding, [NaN] and the two zeros of IEEE 754 are
    outside this model: what is proved of the two distance functions
    beyond symmetry and the distance of a point to itself is proved of the
    formulas, not of their rounded values.  The wall-clock hour ([new Date().getHours()]) is a
    parameter [hour] of every function that reads it, fixed for the
    duration of one evaluation. *)

From Stdlib Require Import Reals Lra Lia List String ZArith Bool Permutation.
Import ListNotations.

Local Open Scope R_scope.

(** ** Numbers *)

Module JS.

(** [Math.atan2(y, x)] on real arguments. *)
Definition atan2 (y x : R) : R :=
  if Rlt_dec 0 x then atan (y / x)
  else if Rlt_dec x 0 then
    (if Rle_dec 0 y then atan (y / x) + PI else atan (y / x) - PI)
  else if Rlt_dec 0 y then PI / 2
  else if Rlt_dec y 0 then - (PI / 2)
  else 0.

(** [v || d] where [v] is a number or [undefined]: [undefined] and [0]
    are falsy. *)
Definition or_else (v : option R) (d : R) : R :=
  match v with
  | Some x => if Req_dec_T x 0 then d else x
  | None => d
  end.

(** [x <= y] and [x > y] on numbers. *)
Definition leb (x y : R) : bool := if Rle_dec x y then true else false.
Definition gtb (x y : R) : bool := if Rgt_dec x y then true else false.

(** [s || d] where [s] is a string or [null]/[undefined]: the empty
    string is falsy. *)
Definition str_or_else (s : option string) (d : string) : string :=
  match s with
  | Some x => if String.eqb x EmptyString then d else x
  | None => d
  end.

(** [s || null]. *)
Definition str_or_null (s : option string) : option string :=
  match s with
  | Some x => if String.eqb x EmptyString then None else Some x
  | None => None
  end.

(** Truthiness of an optional string ([userId] in a condition). *)
Definition truthy_str (s : option string) : bool :=
  match s with
  | Some x => negb (String.eqb x EmptyString)
  | None => false
  end.

End JS.

(** ** Geodesic distance *)

(** [deg2rad] of useLocation.ts. *)
Definition deg2rad (deg : R) : R := deg * (PI / 180).

(** [getDistanceFromLatLonInKm] of useLocation.ts. *)
Definition getDistanceFromLatLonInKm (lat1 lon1 lat2 lon2 : R) : R :=
  let R_ := 6371 in
  let dLat := deg2rad (lat2 - lat1) in
  let dLon := deg2rad (lon2 - lon1) in
  let a :=
    sin (dLat / 2) * sin (dLat / 2) +
    cos (deg2rad lat1) * cos (deg2rad lat2) *
    sin (dLon / 2) * sin (dLon / 2) in
  let c := 2 * JS.atan2 (sqrt a) (sqrt (1 - a)) in
  R_ * c.

(** [getDistanceInMeters] of check-risk-zone/index.ts. *)
Definition getDistanceInMeters (lat1 lon1 lat2 lon2 : R) : R :=
  let R_ := 6371000 in
  let phi1 := (lat1 * PI) / 180 in
  let phi2 := (lat2 * PI) / 180 in
  let dphi := ((lat2 - lat1) * PI) / 180 in
  let dlam := ((lon2 - lon1) * PI) / 180 in
  let a :=
    sin (dphi / 2) * sin (dphi / 2) +
    cos phi1 * cos phi2 *
    sin (dlam / 2) * sin (dlam / 2) in
  let c := 2 * JS.atan2 (sqrt a) (sqrt (1 - a)) in
  R_ * c.

(** ** Data model *)

(** [RiskLevel] of src/types. *)
Inductive RiskLevel : Set := safe | at_risk | emergency.

Definition RiskLevel_eqb (a b : RiskLevel) : bool :=
  match a, b with
  | safe, safe | at_risk, at_risk | emergency, emergency => true
  | _, _ => false
  end.

(** The string a level is in JavaScript. *)
Definition RiskLevel_string (l : RiskLevel) : string :=
  match l with
  | safe => "safe"
  | at_risk => "at_risk"
  | emergency => "emergency"
  end.

(** A JavaScript object with numeric values, [Record<string, number>]:
    the keys with their values.  [lookup k m] is [m[k]], [None] standing
    for [undefined]. *)
Definition TimeOfDayRisk : Type := list (string * R).

Fixpoint lookup (k : string) (m : TimeOfDayRisk) : option R :=
  match m with
  | [] => None
  | (k', v) :: rest => if String.eqb k k' then Some v else lookup k rest
  end.

(** [RiskZone] of src/types, the zone as the client sees it. *)
Module RiskZone.
Record t : Type := mk {
  id : string;
  name : option string;
  latitude : R;
  longitude : R;
  radius_meters : R;
  risk_score : R;
  risk_level : RiskLevel;
  incident_count : Z;
  time_of_day_risk : TimeOfDayRisk;
  description : option string;
  created_at : string;
  updated_at : string
}.
End RiskZone.

(** A row of the table [risk_zones] as the store returns it to the
    endpoint: [incident_count] and [time_of_day_risk] may be [null].  The
    JSON column is taken to hold an object with numeric values. *)
Module RiskZoneRow.
Record t : Type := mk {
  id : string;
  name : option string;
  latitude : R;
  longitude : R;
  radius_meters : R;
  risk_score : R;
  risk_level : RiskLevel;
  incident_count : option Z;
  time_of_day_risk : option TimeOfDayRisk;
  description : option string;
  created_at : string;
  updated_at : string
}.

(** A client zone read as a row: the same object. *)
Definition of_zone (z : RiskZone.t) : t :=
  mk (RiskZone.id z) (RiskZone.name z) (RiskZone.latitude z)
     (RiskZone.longitude z) (RiskZone.radius_meters z)
     (RiskZone.risk_score z) (RiskZone.risk_level z)
     (Some (RiskZone.incident_count z))
     (Some (RiskZone.time_of_day_risk z))
     (RiskZone.description z) (RiskZone.created_at z)
     (RiskZone.updated_at z).
End RiskZoneRow.

(** ** Time of day *)

(** [hour >= 18 || hour < 6 ? 'night' : 'day']. *)
Definition timeOfDay (hour : Z) : string :=
  if (18 <=? hour)%Z || (hour <? 6)%Z then "night" else "day".

(** ** The client evaluator (useRiskZones.ts) *)

Module Client.

(** The three variables of the loop: [highestRisk], [highestScore],
    [closestZone]; also the object returned. *)
Record Risk : Type := mkRisk {
  level : RiskLevel;
  score : R;
  zone : option RiskZone.t
}.

(** [zone.time_of_day_risk[timeOfDay] || zone.risk_score]. *)
Definition timeRisk (hour : Z) (zone : RiskZone.t) : R :=
  JS.or_else (lookup (timeOfDay hour) (RiskZone.time_of_day_risk zone))
             (RiskZone.risk_score zone).

(** One iteration of [for (const zone of riskZones)]. *)
Definition loop_body (hour : Z) (lat lng : R) (st : Risk)
    (zone : RiskZone.t) : Risk :=
  let distance :=
    getDistanceFromLatLonInKm lat lng
      (RiskZone.latitude zone) (RiskZone.longitude zone) * 1000 in
  if JS.leb distance (RiskZone.radius_meters zone) then
    let timeRisk := timeRisk hour zone in
    if JS.gtb timeRisk (score st) then
      mkRisk (RiskZone.risk_level zone) timeRisk (Some zone)
    else st
  else if JS.leb distance (RiskZone.radius_meters zone * 1.5) then
    let approachingScore := RiskZone.risk_score zone * 0.5 in
    if JS.gtb approachingScore (score st) && RiskLevel_eqb (level st) safe
    then mkRisk at_risk approachingScore (Some zone)
    else st
  else st.

(** [checkRiskAtLocation(lat, lng)] over the hook's state [riskZones]. *)
Definition checkRiskAtLocation (riskZones : list RiskZone.t) (hour : Z)
    (lat lng : R) : Risk :=
  fold_left (loop_body hour lat lng) riskZones (mkRisk safe 0 None).

End Client.

(** ** The client evaluator on the rows of the store

    [fetchRiskZones] hands the rows of [risk_zones] to the hook as
    [data as RiskZone[]], a cast that checks nothing, and the column
    [time_of_day_risk] may hold [null].  On such a row
    [zone.time_of_day_risk[timeOfDay]] throws a TypeError, which nothing
    in [checkRiskAtLocation] catches: [None] below stands for it. *)

Module ClientRows.

Record Risk : Type := mkRisk {
  level : RiskLevel;
  score : R;
  zone : option RiskZoneRow.t
}.

(** [zone.time_of_day_risk[timeOfDay] || zone.risk_score], without the
    [?.] of the endpoint. *)
Definition timeRisk (hour : Z) (zone : RiskZoneRow.t) : option R :=
  match RiskZoneRow.time_of_day_risk zone with
  | Some m =>
    Some (JS.or_else (lookup (timeOfDay hour) m)
                     (RiskZoneRow.risk_score zone))
  | None => None
  end.

(** One iteration of [for (const zone of riskZones)]. *)
Definition loop_body (hour : Z) (lat lng : R) (st : Risk)
    (zone : RiskZoneRow.t) : option Risk :=
  let distance :=
    getDistanceFromLatLonInKm lat lng
      (RiskZoneRow.latitude zone) (RiskZoneRow.longitude zone) * 1000 in
  if JS.leb distance (RiskZoneRow.radius_meters zone) then
    match timeRisk hour zone with
    | None => None
    | Some timeRisk =>
      if JS.gtb timeRisk (score st) then
        Some (mkRisk (RiskZoneRow.risk_level zone) timeRisk (Some zone))
      else Some st
    end
  else if JS.leb distance (RiskZoneRow.radius_meters zone * 1.5) then
    let approachingScore := RiskZoneRow.risk_score zone * 0.5 in
    if JS.gtb approachingScore (score st) && RiskLevel_eqb (level st) safe
    then Some (mkRisk at_risk approachingScore (Some zone))
    else Some st
  else Some st.

(** [checkRiskAtLocation(lat, lng)]: the object returned, or [None] when
    an iteration throws. *)
Definition checkRiskAtLocation (riskZones : list RiskZoneRow.t) (hour : Z)
    (lat lng : R) : option Risk :=
  fold_left (fun st zone =>
               match st with
               | Some st => loop_body hour lat lng st zone
               | None => None
               end)
            riskZones (Some (mkRisk safe 0 None)).

(** A result of the typed client read as a result on rows. *)
Definition of_risk (c : Client.Risk) : Risk :=
  mkRisk (Client.level c) (Client.score c)
         (option_map RiskZoneRow.of_zone (Client.zone c)).

End ClientRows.

(** ** The endpoint's zone loop (check-risk-zone/index.ts) *)

Module Server.

(** The object [highestRisk]. *)
Record HighestRisk : Type := mkRisk {
  level : RiskLevel;
  score : R;
  zone : option RiskZoneRow.t;
  inZone : bool
}.

(** [zone.time_of_day_risk?.[timeOfDay] || zone.risk_score]. *)
Definition timeRisk (hour : Z) (zone : RiskZoneRow.t) : R :=
  JS.or_else
    (match RiskZoneRow.time_of_day_risk zone with
     | Some m => lookup (timeOfDay hour) m
     | None => None
     end)
    (RiskZoneRow.risk_score zone).

(** One iteration of [for (const zone of riskZones || [])]. *)
Definition loop_body (hour : Z) (latitude longitude : R)
    (highestRisk : HighestRisk) (zone : RiskZoneRow.t) : HighestRisk :=
  let distance :=
    getDistanceInMeters latitude longitude
      (RiskZoneRow.latitude zone) (RiskZoneRow.longitude zone) in
  if JS.leb distance (RiskZoneRow.radius_meters zone) then
    let timeRisk := timeRisk hour zone in
    if JS.gtb timeRisk (score highestRisk) then
      mkRisk (RiskZoneRow.risk_level zone) timeRisk (Some zone) true
    else highestRisk
  else if JS.leb distance (RiskZoneRow.radius_meters zone * 1.5) then
    let approachingScore := RiskZoneRow.risk_score zone * 0.5 in
    if JS.gtb approachingScore (score highestRisk)
       && RiskLevel_eqb (level highestRisk) safe
    then mkRisk at_risk approachingScore (Some zone) false
    else highestRisk
  else highestRisk.

(** The loop, from the initial [highestRisk]. *)
Definition evaluate (hour : Z) (latitude longitude : R)
    (riskZones : list RiskZoneRow.t) : HighestRisk :=
  fold_left (loop_body hour latitude longitude) riskZones
            (mkRisk safe 0 None false).

End Server.

(** ** The evaluator as the specification words it *)

Module Spec.

(** EvaluationResult of the specification. *)
Record EvaluationResult (Zone : Type) : Type := mkResult {
  level : RiskLevel;
  score : R;
  zone : option Zone;
  inside : bool
}.
Arguments mkResult {Zone} _ _ _ _.
Arguments level {Zone} _.
Arguments score {Zone} _.
Arguments zone {Zone} _.
Arguments inside {Zone} _.

(** Time-of-day weighting (4.2): the bucket of an hour, and the override
    of the bucket if present, else the base score. *)
Definition bucket (hour : Z) : string :=
  if (18 <=? hour)%Z then "night"
  else if (hour <? 6)%Z then "night"
  else "day".

Definition weighted_score (overrides : option TimeOfDayRisk)
    (base : R) (b : string) : R :=
  match overrides with
  | Some m => match lookup b m with Some v => v | None => base end
  | None => base
  end.

(** Geodesic distance (4.1): the haversine formula on a sphere of radius
    6371000 m, between two points given in degrees. *)
Definition distance (lat1 lon1 lat2 lon2 : R) : R :=
  let rad := fun deg : R => deg * PI / 180 in
  let hav := fun x : R => sin (x / 2) * sin (x / 2) in
  let h := hav (rad lat2 - rad lat1)
           + cos (rad lat1) * cos (rad lat2) * hav (rad lon2 - rad lon1) in
  2 * 6371000 * asin (sqrt h).

Section Evaluator.
Context {Zone : Type}.
(** What the algorithm reads of a zone: the distance from the point to
    its center, its radius, its base score, its time-weighted score and
    its level. *)
Variables (distance radius_meters risk_score weighted : Zone -> R).
Variable risk_level : Zone -> RiskLevel.

(** Steps 3 and 4 of the algorithm (4.3). *)
Definition step (result : EvaluationResult Zone) (z : Zone)
    : EvaluationResult Zone :=
  if Rle_dec (distance z) (radius_meters z) then
    if Rlt_dec (score result) (weighted z) then
      mkResult (risk_level z) (weighted z) (Some z) true
    else result
  else if Rlt_dec (radius_meters z) (distance z) then
    if Rle_dec (distance z) (1.5 * radius_meters z) then
      let approaching_score := risk_score z * 0.5 in
      if Rlt_dec (score result) approaching_score then
        match level result with
        | safe => mkResult at_risk approaching_score (Some z) false
        | _ => result
        end
      else result
    else result
  else result.

(** Steps 1, 2 and 5. *)
Definition run (init : EvaluationResult Zone) (zones : list Zone) :=
  fold_left step zones init.

Definition evaluate (zones : list Zone) : EvaluationResult Zone :=
  run (mkResult safe 0 None false) zones.

(** The two cases, as properties of one zone. *)
Definition contains (z : Zone) : Prop := distance z <= radius_meters z.
Definition approaches (z : Zone) : Prop :=
  radius_meters z < distance z <= 1.5 * radius_meters z.

End Evaluator.

End Spec.

(** ** The store and the two endpoints *)

(** A value thrown and caught by [catch (error: unknown)]: an [Error] with
    its message, or anything else. *)
Inductive Thrown : Type :=
| ErrorObject (message : string)
| OtherValue.

(** [error instanceof Error ? error.message : 'Unknown error']. *)
Definition error_message (e : Thrown) : string :=
  match e with
  | ErrorObject m => m
  | OtherValue => "Unknown error"
  end.

(** The object [{ data, error }] a store query resolves to. *)
Record Reply (A : Type) : Type := mkReply {
  data : option A;
  error : option Thrown
}.
Arguments mkReply {A} _ _.
Arguments data {A} _.
Arguments error {A} _.

Inductive AlertType : Set := sos | risk_zone_entry | auto_alert.
Inductive IncidentStatus : Set := active | resolved | pending.

(** The object passed to [from('incidents').insert]. *)
Module Incident.
Record fields : Type := mkFields {
  user_id : string;
  latitude : R;
  longitude : R;
  alert_type : AlertType;
  risk_level : string;
  status : IncidentStatus;
  description : option string
}.
(** The row the store returns; only its [id] is read. *)
Record row : Type := mkRow { id : string }.
End Incident.

Module Contact.
(** [EmergencyContact] of src/types. *)
Record t : Type := mk {
  id : string;
  user_id : string;
  name : string;
  phone : string
}.
End Contact.

(** The text of an alert, by template and the values put in its holes.
    [riskLevel] of the emergency message is upper-cased when rendered. *)
Inductive Message : Type :=
| emergencyMessage (userName : string) (latitude longitude : R)
                   (riskLevel : string) (timestamp : string)
| policeMessage (userName : string) (latitude longitude : R)
                (riskLevel : string) (timestamp : string)
| alertMessage (profileName : string) (zoneName : string)
               (latitude longitude : R).

Module Alert.
(** An element of [alertsToCreate]. *)
Record fields : Type := mkFields {
  incident_id : string;
  contact_id : option string;
  sent_to_police : bool;
  message : Message;
  latitude : R;
  longitude : R
}.
End Alert.

(** The writes an endpoint sends to the store, in order. *)
Inductive Write : Type :=
| InsertIncident (f : Incident.fields)
| InsertAlerts (batch : list Alert.fields).

(** The store as the endpoints use it, and the clock of
    [new Date().toISOString()] (its n-th reading in a request). *)
Record Store : Type := mkStore {
  select_risk_zones : Reply (list RiskZoneRow.t);
  select_profile_name : string -> Reply string;
  select_auto_alert_on_risk_zone : string -> Reply (option bool);
  insert_incident : Incident.fields -> Reply Incident.row;
  select_emergency_contacts : string -> Reply (list Contact.t);
  insert_alerts : list Alert.fields -> Reply unit;
  toISOString : nat -> string
}.

(** A request: its method and what [await req.json()] gives, a body or an
    exception. *)
Record Request (Body : Type) : Type := mkRequest {
  method : string;
  json : Body + Thrown
}.
Arguments mkRequest {Body} _ _.
Arguments method {Body} _.
Arguments json {Body} _.

Record RiskCheckRequest : Type := mkRiskCheckRequest {
  rc_latitude : R;
  rc_longitude : R;
  rc_userId : option string
}.

Record SOSRequest : Type := mkSOSRequest {
  sos_userId : string;
  sos_latitude : R;
  sos_longitude : R;
  sos_userName : string;
  sos_riskLevel : string
}.

(** The JSON body of the risk check's answer. *)
Record RiskBody : Type := mkRiskBody {
  riskLevel : RiskLevel;
  riskScore : R;
  inRiskZone : bool;
  zoneName : option string;
  zoneDescription : option string;
  nearbyZones : nat
}.

(** The JSON body of the SOS answer. *)
Record SOSBody : Type := mkSOSBody {
  success : bool;
  incidentId : string;
  alertsSent : nat;
  sos_message : string
}.

Inductive Response : Type :=
| Preflight                       (* new Response('ok') *)
| RiskResult (body : RiskBody)    (* status 200 *)
| SOSResult (body : SOSBody)      (* status 200 *)
| Failure (message : string).     (* status 500, { error: message } *)

(** *** check-risk-zone

    Logging ([console.log], [console.error]) is not modelled. *)

Module CheckRiskZone.

(** [highestRisk.zone?.name] and [highestRisk.zone?.description]. *)
Definition zone_name (highestRisk : Server.HighestRisk) : option string :=
  match Server.zone highestRisk with
  | Some z => RiskZoneRow.name z
  | None => None
  end.

Definition zone_description (highestRisk : Server.HighestRisk)
    : option string :=
  match Server.zone highestRisk with
  | Some z => RiskZoneRow.description z
  | None => None
  end.

(** [contacts.map(contact => ({ ... }))]. *)
Definition alertsToCreate (incident : Incident.row)
    (alertMessage : Message) (latitude longitude : R)
    (contacts : list Contact.t) : list Alert.fields :=
  map (fun contact =>
         Alert.mkFields (Incident.id incident) (Some (Contact.id contact))
                        false alertMessage latitude longitude)
      contacts.

(** The block [if (highestRisk.inZone && ...) { ... }]: the writes it
    sends. *)
Definition auto_alert (store : Store) (latitude longitude : R)
    (userId : option string) (highestRisk : Server.HighestRisk)
    : list Write :=
  if Server.inZone highestRisk
     && RiskLevel_eqb (Server.level highestRisk) emergency
     && JS.truthy_str userId
  then
    match userId with
    | None => []
    | Some userId =>
      let profile := data (select_profile_name store userId) in
      let prefs := data (select_auto_alert_on_risk_zone store userId) in
      match prefs with
      | Some (Some true) =>
        let f :=
          Incident.mkFields userId latitude longitude risk_zone_entry
            (RiskLevel_string (Server.level highestRisk)) pending
            (Some ("Auto-alert: Entered " ++
                   JS.str_or_else (zone_name highestRisk)
                                  "high-risk zone")%string) in
        InsertIncident f ::
        match data (insert_incident store f) with
        | Some incident =>
          match data (select_emergency_contacts store userId) with
          | Some ((_ :: _) as contacts) =>
            let alertMessage :=
              alertMessage (JS.str_or_else profile "Your contact")
                           (JS.str_or_else (zone_name highestRisk)
                                           "Unknown")
                           latitude longitude in
            [InsertAlerts
               (alertsToCreate incident alertMessage latitude longitude
                               contacts)]
          | _ => []
          end
        | None => []
        end
      | _ => []
      end
    end
  else [].

(** The handler passed to [serve]: the response and the writes sent. *)
Definition handler (store : Store) (hour : Z)
    (req : Request RiskCheckRequest) : Response * list Write :=
  if String.eqb (method req) "OPTIONS" then (Preflight, [])
  else
    match json req with
    | inr e => (Failure (error_message e), [])
    | inl body =>
      let latitude := rc_latitude body in
      let longitude := rc_longitude body in
      let userId := rc_userId body in
      let riskZones := data (select_risk_zones store) in
      match error (select_risk_zones store) with
      | Some zonesError => (Failure (error_message zonesError), [])
      | None =>
        let highestRisk :=
          Server.evaluate hour latitude longitude
            (match riskZones with Some l => l | None => [] end) in
        let writes :=
          auto_alert store latitude longitude userId highestRisk in
        (RiskResult
           (mkRiskBody (Server.level highestRisk)
                       (Server.score highestRisk)
                       (Server.inZone highestRisk)
                       (JS.str_or_null (zone_name highestRisk))
                       (JS.str_or_null (zone_description highestRisk))
                       (match riskZones with
                        | Some l => List.length l
                        | None => 0%nat
                        end)),
         writes)
      end
    end.

End CheckRiskZone.

(** *** send-sos-alert *)

Module SendSosAlert.

(** The array [alertsToCreate] after the loop over the contacts and the
    push of the police alert. *)
Definition alertsToCreate (incident : Incident.row)
    (emergencyMessage policeMessage : Message) (latitude longitude : R)
    (contacts : option (list Contact.t)) : list Alert.fields :=
  (match contacts with
   | Some ((_ :: _) as contacts) =>
     map (fun contact =>
            Alert.mkFields (Incident.id incident)
                           (Some (Contact.id contact))
                           false emergencyMessage latitude longitude)
         contacts
   | _ => []
   end)
  ++ [Alert.mkFields (Incident.id incident) None true policeMessage
                     latitude longitude].

(** The handler passed to [serve]: the response and the writes sent. *)
Definition handler (store : Store) (req : Request SOSRequest)
    : Response * list Write :=
  if String.eqb (method req) "OPTIONS" then (Preflight, [])
  else
    match json req with
    | inr e => (Failure (error_message e), [])
    | inl body =>
      let userId := sos_userId body in
      let latitude := sos_latitude body in
      let longitude := sos_longitude body in
      let userName := sos_userName body in
      let riskLevel := sos_riskLevel body in
      let f :=
        Incident.mkFields userId latitude longitude sos riskLevel active
                          None in
      let reply := insert_incident store f in
      match error reply with
      | Some incidentError =>
        (Failure (error_message incidentError), [InsertIncident f])
      | None =>
        let contacts := data (select_emergency_contacts store userId) in
        (* [contactsError] is logged and not read again *)
        let contactsError :=
          error (select_emergency_contacts store userId) in
        let emergencyMessage :=
          emergencyMessage userName latitude longitude riskLevel
                           (toISOString store 0) in
        let policeMessage :=
          policeMessage userName latitude longitude riskLevel
                        (toISOString store 1) in
        match data reply with
        | None =>
          (* [incident.id] on [null] throws a TypeError *)
          (Failure "Cannot read properties of null (reading 'id')",
           [InsertIncident f])
        | Some incident =>
          let alertsToCreate :=
            alertsToCreate incident emergencyMessage policeMessage
                           latitude longitude contacts in
          (* [alertsError] is logged and not read again *)
          let alertsError := error (insert_alerts store alertsToCreate) in
          (SOSResult
             (mkSOSBody true (Incident.id incident)
                        (List.length alertsToCreate)
                        "Emergency alerts dispatched successfully"),
           [InsertIncident f; InsertAlerts alertsToCreate])
        end
      end
    end.

End SendSosAlert.

(** ** The evaluators against the specification's algorithm *)

Module Server_spec.

(** The distance the endpoint computes from the point to the centre of a
    row. *)
Definition distance (latitude longitude : R) (z : RiskZoneRow.t) : R :=
  getDistanceInMeters latitude longitude
    (RiskZoneRow.latitude z) (RiskZoneRow.longitude z).

(** The endpoint's loop read as a fold of the algorithm's step over the
    distance and the score the loop itself computes: a device of the
    proofs, not the specification. *)
Definition loop_fold (hour : Z) (latitude longitude : R)
    (zones : list RiskZoneRow.t) : Spec.EvaluationResult RiskZoneRow.t :=
  Spec.evaluate (distance latitude longitude) RiskZoneRow.radius_meters
    RiskZoneRow.risk_score (Server.timeRisk hour) RiskZoneRow.risk_level
    zones.

(** The time-weighted score of a row as 4.2 words it: the override of the
    bucket of the hour if present, else the base score. *)
Definition weighted (hour : Z) (z : RiskZoneRow.t) : R :=
  Spec.weighted_score (RiskZoneRow.time_of_day_risk z)
                      (RiskZoneRow.risk_score z) (Spec.bucket hour).

(** The row holds no override of 0 for the bucket of the hour. *)
Definition no_zero_override (hour : Z) (z : RiskZoneRow.t) : Prop :=
  forall m, RiskZoneRow.time_of_day_risk z = Some m ->
            lookup (Spec.bucket hour) m <> Some 0.

(** The specification's evaluator on rows: the fold of 4.3 over the
    distance of 4.1 and the weighting of 4.2. *)
Definition evaluate (hour : Z) (latitude longitude : R)
    (zones : list RiskZoneRow.t) : Spec.EvaluationResult RiskZoneRow.t :=
  Spec.evaluate
    (fun z => Spec.distance latitude longitude
                (RiskZoneRow.latitude z) (RiskZoneRow.longitude z))
    RiskZoneRow.radius_meters RiskZoneRow.risk_score (weighted hour)
    RiskZoneRow.risk_level zones.

(** [highestRisk] read as an EvaluationResult. *)
Definition result (h : Server.HighestRisk)
    : Spec.EvaluationResult RiskZoneRow.t :=
  Spec.mkResult (Server.level h) (Server.score h) (Server.zone h)
                (Server.inZone h).

End Server_spec.

Module Client_spec.

(** The distance in meters the client computes from the point to the
    centre of a zone. *)
Definition distance (lat lng : R) (z : RiskZone.t) : R :=
  getDistanceFromLatLonInKm lat lng
    (RiskZone.latitude z) (RiskZone.longitude z) * 1000.

(** The client's loop read as a fold of the algorithm's step over the
    distance and the score the loop itself computes: a device of the
    proofs, not the specification. *)
Definition loop_fold (hour : Z) (lat lng : R) (zones : list RiskZone.t)
    : Spec.EvaluationResult RiskZone.t :=
  Spec.evaluate (distance lat lng) RiskZone.radius_meters
    RiskZone.risk_score (Client.timeRisk hour) RiskZone.risk_level zones.

(** The time-weighted score of a client zone as 4.2 words it. *)
Definition weighted (hour : Z) (z : RiskZone.t) : R :=
  Spec.weighted_score (Some (RiskZone.time_of_day_risk z))
                      (RiskZone.risk_score z) (Spec.bucket hour).

(** The zone holds no override of 0 for the bucket of the hour. *)
Definition no_zero_override (hour : Z) (z : RiskZone.t) : Prop :=
  lookup (Spec.bucket hour) (RiskZone.time_of_day_risk z) <> Some 0.

(** The specification's evaluator on client zones. *)
Definition evaluate (hour : Z) (lat lng : R) (zones : list RiskZone.t)
    : Spec.EvaluationResult RiskZone.t :=
  Spec.evaluate
    (fun z => Spec.distance lat lng
                (RiskZone.latitude z) (RiskZone.longitude z))
    RiskZone.radius_meters RiskZone.risk_score (weighted hour)
    RiskZone.risk_level zones.

(** The client returns no [inside] flag: the three fields it has. *)
Definition level_score_zone (r : Spec.EvaluationResult RiskZone.t)
    : Client.Risk :=
  Client.mkRisk (Spec.level r) (Spec.score r) (Spec.zone r).

End Client_spec.

(** A client result and a [highestRisk] that hold the same level, score
    and zone. *)
Definition same_risk (c : Client.Risk) (s : Server.HighestRisk) : Prop :=
  Client.level c = Server.level s /\
  Client.score c = Server.score s /\
  option_map RiskZoneRow.of_zone (Client.zone c) = Server.zone s.

(** Two results with the same level and the same score (the zones may
    differ). *)
Definition same_level_score {Zone : Type}
    (a b : Spec.EvaluationResult Zone) : Prop :=
  Spec.level a = Spec.level b /\ Spec.score a = Spec.score b.

(** ** Conditions on a list of zones *)

Section Conditions.
Context {Zone : Type}.
Variables (distance radius_meters weighted : Zone -> R).
Variable risk_level : Zone -> RiskLevel.

(** No zone of the list is approached. *)
Definition no_approach (zs : list Zone) : Prop :=
  forall z, In z zs -> ~ Spec.approaches distance radius_meters z.

(** Two zones of the list that contain the point with the same weighted
    score have the same level. *)
Definition ties_share_level (zs : list Zone) : Prop :=
  forall x y, In x zs -> In y zs ->
              Spec.contains distance radius_meters x ->
              Spec.contains distance radius_meters y ->
              weighted x = weighted y -> risk_level x = risk_level y.

End Conditions.

(** ** Sample data *)

Module Sample.

(** A row on the equator, named after its id. *)
Definition row (id : string) (longitude radius_meters risk_score : R)
    (risk_level : RiskLevel) (time_of_day_risk : option TimeOfDayRisk)
    : RiskZoneRow.t :=
  RiskZoneRow.mk id (Some id) 0 longitude radius_meters risk_score
    risk_level (Some 0%Z) time_of_day_risk None
    "2026-01-28T03:37:18Z" "2026-01-28T03:37:18Z".

(** Around (0, 0), radius 1000 m, base score 0.3. *)
Definition near : RiskZoneRow.t :=
  row "near" 0 1000 0.3 at_risk (Some []).

(** Around the antipode (0, 180), radius 18000 km, base score 0.8: the
    point (0, 0) is 6371000 * PI m away, between the radius and 1.5
    times the radius. *)
Definition far : RiskZoneRow.t :=
  row "far" 180 18000000 0.8 emergency (Some []).

(** Around the antipode, radius 1000 m: out of reach from (0, 0). *)
Definition remote : RiskZoneRow.t :=
  row "remote" 180 1000 0.9 emergency (Some []).

(** Around (0, 0), base score 0.7, with a night override of 0. *)
Definition quiet_night : RiskZoneRow.t :=
  row "quiet" 0 1000 0.7 at_risk (Some [("night"%string, 0)]).

(** The same zone as the client holds it. *)
Definition quiet_night_zone : RiskZone.t :=
RiskZone.mk "quiet" (Some "quiet"%string) 0 0 1000 0.7 at_risk 0%Z
            [("night"%string, 0)] None
            "2026-01-28T03:37:18Z" "2026-01-28T03:37:18Z".

(** Around (0, 0), level emergency, base score 0.85, night 0.95. *)
Definition industrial : RiskZoneRow.t :=
  row "industrial" 0 800 0.85 emergency
      (Some [("night"%string, 0.95); ("day"%string, 0.6)]).

(** Two zones around (0, 0) with the same score and different levels. *)
Definition tie_at_risk : RiskZoneRow.t :=
  row "tie1" 0 1000 0.5 at_risk None.
Definition tie_emergency : RiskZoneRow.t :=
  row "tie2" 0 1000 0.5 emergency None.

End Sample.

(** ** What the claims about the endpoints speak of *)

(** The zones the risk check evaluates: [riskZones || []]. *)
Definition fetched_zones (store : Store) : list RiskZoneRow.t :=
match data (select_risk_zones store) with
| Some l => l
| None => []
end.

(** The contacts an endpoint reads for a user, none when the query gives
    [null]. *)
Definition fetched_contacts (store : Store) (userId : string)
  : list Contact.t :=
match data (select_emergency_contacts store userId) with
| Some l => l
| None => []
end.

(** An incident is created: an insert into [incidents] is sent. *)
Definition creates_incident (writes : list Write) : Prop :=
exists f, In (InsertIncident f) writes.

(** The request names a user whose stored [auto_alert_on_risk_zone] is
    [true]. *)
Definition preference_is_true (store : Store) (userId : option string)
  : Prop :=
exists u, userId = Some u /\ u <> EmptyString /\
          data (select_auto_alert_on_risk_zone store u) = Some (Some true).

(** The store answers a write with an error. *)
Definition write_failed (store : Store) (w : Write) : Prop :=
match w with
| InsertIncident f => error (insert_incident store f) <> None
| InsertAlerts batch => error (insert_alerts store batch) <> None
end.

(** The fields of the incident the SOS endpoint inserts. *)
Definition sos_incident (body : SOSRequest) : Incident.fields :=
Incident.mkFields (sos_userId body) (sos_latitude body) (sos_longitude body)
                  sos (sos_riskLevel body) active None.

(** The alert of one contact and the alert of the authorities, as the SOS
    endpoint builds them for the incident row the store returned. *)
Definition sos_contact_alert (store : Store) (body : SOSRequest)
    (incident : Incident.row) (contact : Contact.t) : Alert.fields :=
Alert.mkFields (Incident.id incident) (Some (Contact.id contact)) false
  (emergencyMessage (sos_userName body) (sos_latitude body)
                    (sos_longitude body) (sos_riskLevel body)
                    (toISOString store 0))
  (sos_latitude body) (sos_longitude body).

Definition sos_authority_alert (store : Store) (body : SOSRequest)
    (incident : Incident.row) : Alert.fields :=
Alert.mkFields (Incident.id incident) None true
  (policeMessage (sos_userName body) (sos_latitude body)
                 (sos_longitude body) (sos_riskLevel body)
                 (toISOString store 1))
  (sos_latitude body) (sos_longitude body).

(** The fields of the incident the auto-alert block inserts for a user. *)
Definition auto_incident (latitude longitude : R) (userId : string)
    (highestRisk : Server.HighestRisk) : Incident.fields :=
Incident.mkFields userId latitude longitude risk_zone_entry
  (RiskLevel_string (Server.level highestRisk)) pending
  (Some ("Auto-alert: Entered " ++
         JS.str_or_else (CheckRiskZone.zone_name highestRisk)
                        "high-risk zone")%string).

(** The alert of one contact as the auto-alert block builds it for the
    incident row the store returned. *)
Definition auto_contact_alert (store : Store) (latitude longitude : R)
    (userId : string) (highestRisk : Server.HighestRisk)
    (incident : Incident.row) (contact : Contact.t) : Alert.fields :=
Alert.mkFields (Incident.id incident) (Some (Contact.id contact)) false
  (alertMessage
     (JS.str_or_else (data (select_profile_name store userId))
                     "Your contact")
     (JS.str_or_else (CheckRiskZone.zone_name highestRisk) "Unknown")
     latitude longitude)
  latitude longitude.

(** An alert of the authorities: no contact, sent to the police. *)
Definition is_authority_alert (a : Alert.fields) : bool :=
match Alert.contact_id a with
| None => Alert.sent_to_police a
| Some _ => false
end.

(** The batches of alerts among the writes. *)
Definition alert_batches (writes : list Write) : list (list Alert.fields) :=
flat_map (fun w => match w with
                   | InsertAlerts batch => [batch]
                   | InsertIncident _ => []
                   end) writes.

(** A request is answered with a failure (status 500). *)
Definition is_failure (r : Response) : Prop := exists m, r = Failure m.

(** Some write of the request was answered with an error by the store. *)
Definition some_write_failed (store : Store) (writes : list Write) : Prop :=
exists w, In w writes /\ write_failed store w.

(** The store with other answers to its two writes. *)
Definition with_writes (store : Store)
    (incidents : Incident.fields -> Reply Incident.row)
    (alerts : list Alert.fields -> Reply unit) : Store :=
mkStore (select_risk_zones store) (select_profile_name store)
        (select_auto_alert_on_risk_zone store) incidents
        (select_emergency_contacts store) alerts (toISOString store).

(** ** Sample stores and requests *)

Module SampleStore.

Definition user : string := "7b0c5d0e-user".

Definition contacts : list Contact.t :=
[ Contact.mk "c1" user "Asha" "+91-11-5550-0101";
  Contact.mk "c2" user "Ravi" "+91-11-5550-0102" ].

(** A store in which every query and every write succeeds. *)
Definition healthy (zones : list RiskZoneRow.t) : Store :=
mkStore (mkReply (Some zones) None)
        (fun _ => mkReply (Some "Meera"%string) None)
        (fun _ => mkReply (Some (Some true)) None)
        (fun _ => mkReply (Some (Incident.mkRow "incident-1")) None)
        (fun _ => mkReply (Some contacts) None)
        (fun _ => mkReply (Some tt) None)
        (fun n => "2026-01-28T03:37:18.000Z"%string).

(** The same store, except that the insert into [alerts] fails. *)
Definition alerts_down (zones : list RiskZoneRow.t) : Store :=
mkStore (mkReply (Some zones) None)
        (fun _ => mkReply (Some "Meera"%string) None)
        (fun _ => mkReply (Some (Some true)) None)
        (fun _ => mkReply (Some (Incident.mkRow "incident-1")) None)
        (fun _ => mkReply (Some contacts) None)
        (fun _ => mkReply None (Some (ErrorObject "insert failed")))
        (fun n => "2026-01-28T03:37:18.000Z"%string).

(** The same store, except that the insert into [incidents] fails. *)
Definition incidents_down (zones : list RiskZoneRow.t) : Store :=
mkStore (mkReply (Some zones) None)
        (fun _ => mkReply (Some "Meera"%string) None)
        (fun _ => mkReply (Some (Some true)) None)
        (fun _ => mkReply None (Some (ErrorObject "insert failed")))
        (fun _ => mkReply (Some contacts) None)
        (fun _ => mkReply (Some tt) None)
        (fun n => "2026-01-28T03:37:18.000Z"%string).

(** The same store, except that the insert into [incidents] is answered
    with an error that is a plain object, not an [Error]. *)
Definition incidents_rejected (zones : list RiskZoneRow.t) : Store :=
mkStore (mkReply (Some zones) None)
        (fun _ => mkReply (Some "Meera"%string) None)
        (fun _ => mkReply (Some (Some true)) None)
        (fun _ => mkReply None (Some OtherValue))
        (fun _ => mkReply (Some contacts) None)
        (fun _ => mkReply (Some tt) None)
        (fun n => "2026-01-28T03:37:18.000Z"%string).

Definition sos_body : SOSRequest :=
mkSOSRequest user 0 0 "Meera" "emergency".

Definition sos_request : Request SOSRequest :=
mkRequest "POST" (inl sos_body).

Definition risk_body : RiskCheckRequest :=
mkRiskCheckRequest 0 0 (Some user).

Definition risk_request : Request RiskCheckRequest :=
mkRequest "POST" (inl risk_body).

End SampleStore.

(** ** What a result says of its zone *)

Section Result_properties.
Context {Zone : Type}.
Variables (distance radius_meters risk_score weighted : Zone -> R).
Variable risk_level : Zone -> RiskLevel.

(** The result is the initial one, or it carries a positive score with the
    level and the score its zone gives: those of containment when [inside]
    is set, those of approach otherwise. *)
Definition tells_of_zone (r : Spec.EvaluationResult Zone) : Prop :=
  match Spec.zone r with
  | None => Spec.level r = safe /\ Spec.score r = 0 /\ Spec.inside r = false
  | Some z =>
    0 < Spec.score r /\
    if Spec.inside r
    then Spec.contains distance radius_meters z /\
         Spec.level r = risk_level z /\ Spec.score r = weighted z
    else Spec.approaches distance radius_meters z /\
         Spec.level r = at_risk /\ Spec.score r = risk_score z * 0.5
  end.

(** A zone that cannot raise a non-negative score: where it contains the
    point its weighted score is not positive, where it is approached its
    base score is not positive. *)
Definition without_effect (z : Zone) : Prop :=
  (Spec.contains distance radius_meters z -> weighted z <= 0) /\
  (Spec.approaches distance radius_meters z -> risk_score z * 0.5 <= 0).

(** The zone has a radius that is not negative and the point is within
    1.5 times that radius. *)
Definition in_reach (z : Zone) : bool :=
  JS.leb 0 (radius_meters z) && JS.leb (distance z) (radius_meters z * 1.5).


End Result_properties.

(** ** Location tracking (useLocation.ts) *)

Module UseLocation.

(** [GeolocationPosition]: the coordinates, the speed in m/s the device
    reports ([null] when it reports none) and the timestamp in
    milliseconds. *)
Record GeolocationPosition : Type := mkPosition {
  latitude : R;
  longitude : R;
  speed : option R;
  accuracy : R;
  timestamp : R
}.

(** [LocationState] of src/types; [speed] is in km/h. *)
Record LocationState : Type := mkLocation {
  loc_latitude : R;
  loc_longitude : R;
  loc_speed : R;
  loc_accuracy : R;
  loc_timestamp : R
}.

(** [calculateSpeed]; [last] is [lastPositionRef.current]. *)
Definition calculateSpeed (last : option GeolocationPosition)
    (currentPosition : GeolocationPosition) : R :=
  let computed :=
    match last with
    | Some lastPosition =>
      let timeDiff :=
        (timestamp currentPosition - timestamp lastPosition) / 1000 in
      if JS.gtb timeDiff 0 then
        let distance :=
          getDistanceFromLatLonInKm
            (latitude lastPosition) (longitude lastPosition)
            (latitude currentPosition) (longitude currentPosition) in
        (distance / timeDiff) * 3600
      else 0
    | None => 0
    end in
  match speed currentPosition with
  | Some s => if JS.leb 0 s then s * 3.6 else computed
  | None => computed
  end.

(** [handlePosition]: the location it sets and the new
    [lastPositionRef.current]. *)
Definition handlePosition (last : option GeolocationPosition)
    (position : GeolocationPosition)
    : LocationState * option GeolocationPosition :=
  (mkLocation (latitude position) (longitude position)
              (calculateSpeed last position)
              (accuracy position) (timestamp position),
   Some position).

(** The success callback of [getCurrentPosition]: [handlePosition], then
    a second [calculateSpeed] for the location it resolves with.  The
    result is the location set, the location resolved and the new
    [lastPositionRef.current]. *)
Definition getCurrentPosition_success (last : option GeolocationPosition)
    (position : GeolocationPosition)
    : LocationState * LocationState * option GeolocationPosition :=
  let '(location, last') := handlePosition last position in
  let speed := calculateSpeed last' position in
  (location,
   mkLocation (latitude position) (longitude position) speed
              (accuracy position) (timestamp position),
   last').

(** [watchPosition] delivering positions one after the other: the
    locations set, oldest first, and the last reference. *)
Fixpoint track (last : option GeolocationPosition)
    (positions : list GeolocationPosition)
    : list LocationState * option GeolocationPosition :=
  match positions with
  | [] => ([], last)
  | p :: rest =>
    let '(location, last') := handlePosition last p in
    let '(locations, final) := track last' rest in
    (location :: locations, final)
  end.

End UseLocation.

(** ** What the components show *)

(** [Math.round] of a real number: the nearest integer, halves upwards. *)
Definition Math_round (x : R) : Z := Int_part (x + 0.5).

Module SpeedIndicator.

Inductive Label : Set := Stationary | Walking | Vehicle | Fast.

(** [getSpeedStatus], the label (the colour goes with it). *)
Definition getSpeedStatus (speed : R) : Label :=
  if Rlt_dec speed 5 then Stationary
  else if Rlt_dec speed 15 then Walking
  else if Rlt_dec speed 40 then Vehicle
  else Fast.

(** The order of the labels. *)
Definition rank (l : Label) : nat :=
  match l with
  | Stationary => 0
  | Walking => 1
  | Vehicle => 2
  | Fast => 3
  end.

Definition displaySpeed (speed : R) : Z := Math_round speed.

(** The prop Home passes: [location?.speed || 0]. *)
Definition speed_prop (location : option UseLocation.LocationState) : R :=
  JS.or_else (option_map UseLocation.loc_speed location) 0.

End SpeedIndicator.

Module RiskIndicator.

(** [Math.round(score * 100)], shown as text and as the width of the
    bar. *)
Definition percentage (score : R) : Z := Math_round (score * 100).

End RiskIndicator.

(** ** Scores within the conventional range *)

(** The base score of the row and every value of its time-of-day object
    lie between 0 and 1. *)
Definition conventional_scores (z : RiskZoneRow.t) : Prop :=
  0 <= RiskZoneRow.risk_score z <= 1 /\
  forall m, RiskZoneRow.time_of_day_risk z = Some m ->
            Forall (fun kv => 0 <= snd kv <= 1) m.

(** Two positions for the examples: the second one 36 seconds later and
    about 111 m farther north, the device reporting no speed. *)
Module SamplePosition.

Definition first : UseLocation.GeolocationPosition :=
  UseLocation.mkPosition 0 0 None 10 1000.

Definition second : UseLocation.GeolocationPosition :=
  UseLocation.mkPosition 0.001 0 None 10 37000.

End SamplePosition.

(** ** The hook useRiskZones *)

Module UseRiskZones.

(** [sampleRiskZones]; [now] is [new Date().toISOString()] when the module
    is loaded. *)
Definition sampleRiskZones (now : string) : list RiskZone.t :=
  [ RiskZone.mk "1" (Some "Downtown Area"%string) 28.6139 77.2090 1000 0.7
      at_risk 15 [("night"%string, 0.8); ("day"%string, 0.4)]
      (Some "Moderate risk area - stay alert"%string) now now;
    RiskZone.mk "2" (Some "Industrial Zone"%string) 28.6200 77.2150 800 0.85
      emergency 25 [("night"%string, 0.95); ("day"%string, 0.6)]
      (Some "High risk area - avoid if possible"%string) now now ].

(** The state of the hook ([error] is never set and is left out). *)
Record State : Type := mkState {
  riskZones : list RiskZone.t;
  currentRisk : RiskLevel;
  riskScore : R;
  nearbyRiskZone : option RiskZone.t;
  isLoading : bool
}.


(** [fetchRiskZones], given what the query resolved to or the exception
    it raised. *)
Definition fetchRiskZones (now : string)
    (result : Reply (list RiskZone.t) + Thrown) (st : State) : State :=
  let allZones :=
    match result with
    | inl reply =>
      match error reply with
      | Some _ => sampleRiskZones now
      | None =>
        match data reply with
        | Some ((_ :: _) as rows) => rows
        | _ => sampleRiskZones now
        end
      end
    | inr _ => sampleRiskZones now
    end in
  mkState allZones (currentRisk st) (riskScore st) (nearbyRiskZone st) false.


End UseRiskZones.

(** ** The SOS of the client (Home.tsx, SOSButton.tsx) *)

Module Home.

(** The toasts, by the place that shows them. *)
Inductive Toast : Set :=
| LocationNotAvailable   (* handleSOS: "Location not available. ..." *)
| SosAlertSent           (* handleSOS: "SOS Alert Sent!" *)
| ButtonAlertSent        (* SOSButton: "SOS Alert Sent" *)
| ButtonFailed.          (* SOSButton: "Failed to send SOS. ..." *)

(** The two texts of [handleSOS], by the values put in their holes. *)
Inductive Text : Type :=
| contactText (userName : string) (latitude longitude : R)
| policeText (userName : string) (latitude longitude : R).

(** An alert object as [handleSOS] builds it. *)
Record AlertFields : Type := mkAlert {
  incident_id : string;
  contact_id : option string;
  sent_to_police : bool;
  message : Text;
  latitude : R;
  longitude : R
}.

(** The writes of [handleSOS]: the incident, an array of alerts, one
    alert. *)
Inductive ClientWrite : Type :=
| InsertIncident (f : Incident.fields)
| InsertAlerts (batch : list AlertFields)
| InsertAlert (a : AlertFields).

(** What a run of [handleSOS] did: the exception it ended with if any, its
    writes and toasts in order, and whether the fake call was scheduled. *)
Record Outcome : Type := mkOutcome {
  thrown : option Thrown;
  writes : list ClientWrite;
  toasts : list Toast;
  fakeCall : bool
}.

(** [handleSOS]; [user] is [user.id] when there is a user. *)
Definition handleSOS (store : Store) (user : option string)
    (location : option UseLocation.LocationState) (currentRisk : RiskLevel)
    (userName : string) : Outcome :=
  match user, location with
  | Some user_id, Some l =>
    let lat := UseLocation.loc_latitude l in
    let lng := UseLocation.loc_longitude l in
    let f := Incident.mkFields user_id lat lng sos
               (RiskLevel_string currentRisk) active None in
    let reply := insert_incident store f in
    match error reply with
    | Some incidentError =>
      mkOutcome (Some incidentError) [InsertIncident f] [] false
    | None =>
      let contacts := data (select_emergency_contacts store user_id) in
      match data reply with
      | None =>
        (* [incident.id] on [null] throws a TypeError *)
        mkOutcome
          (Some (ErrorObject "Cannot read properties of null (reading 'id')"))
          [InsertIncident f] [] false
      | Some incident =>
        let message :=
          contactText (JS.str_or_else (Some userName) "SHElytics User")
                      lat lng in
        let to_contacts :=
          match contacts with
          | Some ((_ :: _) as contacts) =>
            [InsertAlerts
               (map (fun contact =>
                       mkAlert (Incident.id incident)
                               (Some (Contact.id contact)) false message
                               lat lng)
                    contacts)]
          | _ => []
          end in
        let police :=
          mkAlert (Incident.id incident) None true
                  (policeText (JS.str_or_else (Some userName) "User") lat lng)
                  lat lng in
        mkOutcome None
                  (InsertIncident f :: to_contacts ++ [InsertAlert police])
                  [SosAlertSent] true
      end
    end
  | _, _ => mkOutcome None [] [LocationNotAvailable] false
  end.

(** [handleClick] of SOSButton around [onSOS]: the writes and the toasts
    of the click. *)
Definition handleClick (disabled isLoading : bool) (onSOS : unit -> Outcome)
    : list ClientWrite * list Toast :=
  if disabled || isLoading then ([], [])
  else
    let o := onSOS tt in
    match thrown o with
    | None => (writes o, toasts o ++ [ButtonAlertSent])
    | Some _ => (writes o, toasts o ++ [ButtonFailed])
    end.

(** The alerts of a run, in the order written. *)
Definition alerts (ws : list ClientWrite) : list AlertFields :=
  flat_map (fun w => match w with
                     | InsertIncident _ => []
                     | InsertAlerts batch => batch
                     | InsertAlert a => [a]
                     end) ws.

(** Whom an alert is for and where: what the client's alerts and the
    endpoint's have in common. *)
Definition addressee (a : AlertFields)
    : string * option string * bool * R * R :=
  (incident_id a, contact_id a, sent_to_police a, latitude a, longitude a).

End Home.

Definition server_addressee (a : Alert.fields)
    : string * option string * bool * R * R :=
  (Alert.incident_id a, Alert.contact_id a, Alert.sent_to_police a,
   Alert.latitude a, Alert.longitude a).

(** ** Onboarding: the emergency contacts and the steps *)

Module Onboarding.

(** An element of [state.emergencyContacts]. *)
Record ContactDraft : Type := mkDraft {
  name : string;
  phone : string;
  relationship : string;
  is_primary : bool
}.

(** The fields the form passes to [updateEmergencyContact]. *)
Inductive Field : Set := name_field | phone_field | relationship_field.

(** [state.emergencyContacts] at the start. *)
Definition initialContacts : list ContactDraft :=
  [mkDraft "" "" "" true].

(** [addEmergencyContact]. *)
Definition addEmergencyContact (contacts : list ContactDraft)
    : list ContactDraft :=
  contacts ++ [mkDraft "" "" "" false].

(** [contacts.filter((_, i) => i !== index)]. *)
Fixpoint without_index (index : nat) (contacts : list ContactDraft)
    {struct contacts} : list ContactDraft :=
  match contacts, index with
  | [], _ => []
  | _ :: rest, O => rest
  | c :: rest, S i => c :: without_index i rest
  end.

(** [removeEmergencyContact]. *)
Definition removeEmergencyContact (index : nat)
    (contacts : list ContactDraft) : list ContactDraft :=
  if (1 <? List.length contacts)%nat then without_index index contacts
  else contacts.

(** [{ ...draft, [field]: value }]. *)
Definition set_field (field : Field) (value : string) (c : ContactDraft)
    : ContactDraft :=
  match field with
  | name_field => mkDraft value (phone c) (relationship c) (is_primary c)
  | phone_field => mkDraft (name c) value (relationship c) (is_primary c)
  | relationship_field => mkDraft (name c) (phone c) value (is_primary c)
  end.

Definition get_field (field : Field) (c : ContactDraft) : string :=
  match field with
  | name_field => name c
  | phone_field => phone c
  | relationship_field => relationship c
  end.

(** [updateEmergencyContact] for an index of the list, as the form calls
    it.  Beyond the list JavaScript would store an object holding only
    that field; the model has no value for it and gives [None]. *)
Fixpoint updateEmergencyContact (index : nat) (field : Field)
    (value : string) (contacts : list ContactDraft) {struct contacts}
    : option (list ContactDraft) :=
  match contacts, index with
  | [], _ => None
  | c :: rest, O => Some (set_field field value c :: rest)
  | c :: rest, S i =>
    match updateEmergencyContact i field value rest with
    | Some rest' => Some (c :: rest')
    | None => None
    end
  end.

(** [c.name && c.phone]: both strings are not empty. *)
Definition usable (c : ContactDraft) : bool :=
  negb (String.eqb (name c) "") && negb (String.eqb (phone c) "").

(** [canProceed()] on step 3:
    [state.emergencyContacts.some(c => c.name && c.phone)]. *)
Definition canProceed_contacts (contacts : list ContactDraft) : bool :=
  existsb usable contacts.

(** A row of [contactsToInsert] in [completeOnboarding]. *)
Record ContactRow : Type := mkRow {
  row_user_id : string;
  row_name : string;
  row_phone : string;
  row_relationship : option string;
  row_is_primary : bool
}.

(** [contactsToInsert]. *)
Definition contactsToInsert (user_id : string)
    (contacts : list ContactDraft) : list ContactRow :=
  map (fun c => mkRow user_id (name c) (phone c)
                      (JS.str_or_null (Some (relationship c)))
                      (is_primary c))
      (filter usable contacts).

(** What the user does to the list of contacts. *)
Inductive Edit : Type :=
| Add
| Remove (index : nat)
| Update (index : nat) (field : Field) (value : string).

(** One edit; an update beyond the list, which the form cannot make,
    leaves the list as it is. *)
Definition edit (contacts : list ContactDraft) (e : Edit)
    : list ContactDraft :=
  match e with
  | Add => addEmergencyContact contacts
  | Remove index => removeEmergencyContact index contacts
  | Update index field value =>
    match updateEmergencyContact index field value contacts with
    | Some contacts' => contacts'
    | None => contacts
    end
  end.

(** The step after [handleNext] ([signUpFailed] matters on step 2 only;
    on step 5 the onboarding is completed and the step stays), and after
    the Back button, which is shown from step 2 on. *)
Definition next_step (signUpFailed : bool) (step : Z) : Z :=
  if (step =? 2)%Z && signUpFailed then step
  else if (step <? 5)%Z then (step + 1)%Z
  else step.

Definition back_step (step : Z) : Z :=
  if (1 <? step)%Z then (step - 1)%Z else step.

(** The titles of [steps]; [steps[step - 1]]. *)
Definition steps : list string :=
  ["Personal Details"; "Authentication"; "Emergency Contacts";
   "Location Access"; "Notifications"]%string.

Inductive Press : Set := Next (signUpFailed : bool) | Back.

Definition press (step : Z) (p : Press) : Z :=
  match p with
  | Next failed => next_step failed step
  | Back => back_step step
  end.

End Onboarding.

(** * Properties *)

(** *** Facts about the two distance functions *)

(** The client distance, converted to meters as [checkRiskAtLocation] does,
    is the server distance. *)
Lemma km_times_1000 (lat1 lon1 lat2 lon2 : R) :
  getDistanceFromLatLonInKm lat1 lon1 lat2 lon2 * 1000 =
  getDistanceInMeters lat1 lon1 lat2 lon2.
Proof.
  unfold getDistanceFromLatLonInKm, getDistanceInMeters, deg2rad.
  cbv zeta.
  replace ((lat2 - lat1) * (PI / 180)) with ((lat2 - lat1) * PI / 180) by field.
  replace ((lon2 - lon1) * (PI / 180)) with ((lon2 - lon1) * PI / 180) by field.
  replace (lat1 * (PI / 180)) with (lat1 * PI / 180) by field.
  replace (lat2 * (PI / 180)) with (lat2 * PI / 180) by field.
  ring.
Qed.

Lemma getDistanceInMeters_sym (lat1 lon1 lat2 lon2 : R) :
  getDistanceInMeters lat1 lon1 lat2 lon2 =
  getDistanceInMeters lat2 lon2 lat1 lon1.
Proof.
  unfold getDistanceInMeters. cbv zeta.
  replace ((lat1 - lat2) * PI / 180 / 2)
    with (- ((lat2 - lat1) * PI / 180 / 2)) by field.
  replace ((lon1 - lon2) * PI / 180 / 2)
    with (- ((lon2 - lon1) * PI / 180 / 2)) by field.
  rewrite !sin_neg.
  match goal with
  | |- _ * (2 * JS.atan2 (sqrt ?a) _) = _ * (2 * JS.atan2 (sqrt ?b) _) =>
      replace b with a by ring
  end.
  reflexivity.
Qed.

Lemma getDistanceFromLatLonInKm_sym (lat1 lon1 lat2 lon2 : R) :
  getDistanceFromLatLonInKm lat1 lon1 lat2 lon2 =
  getDistanceFromLatLonInKm lat2 lon2 lat1 lon1.
Proof.
  apply (Rmult_eq_reg_r 1000); [ | lra ].
  rewrite !km_times_1000. apply getDistanceInMeters_sym.
Qed.

(** Distance from a point to itself. *)
Lemma getDistanceInMeters_same (lat lon : R) :
  getDistanceInMeters lat lon lat lon = 0.
Proof.
  unfold getDistanceInMeters. cbv zeta.
  replace ((lat - lat) * PI / 180 / 2) with 0 by field.
  replace ((lon - lon) * PI / 180 / 2) with 0 by field.
  rewrite sin_0.
  replace (0 * 0 + cos (lat * PI / 180) * cos (lat * PI / 180) * 0 * 0)
    with 0 by ring.
  rewrite Rminus_0_r, sqrt_0, sqrt_1.
  unfold JS.atan2.
  destruct (Rlt_dec 0 1) as [_ | H]; [ | exfalso; lra ].
  replace (0 / 1) with 0 by field.
  rewrite atan_0. ring.
Qed.

Lemma getDistanceFromLatLonInKm_same (lat lon : R) :
  getDistanceFromLatLonInKm lat lon lat lon = 0.
Proof.
  pose proof (getDistanceInMeters_same lat lon) as H.
  rewrite <- km_times_1000 in H. lra.
Qed.

(** Distance between two antipodal points of the equator: half the
    circumference. *)
Lemma getDistanceInMeters_antipodal :
  getDistanceInMeters 0 0 0 180 = 6371000 * PI.
Proof.
  unfold getDistanceInMeters. cbv zeta.
  replace ((0 - 0) * PI / 180 / 2) with 0 by field.
  replace ((180 - 0) * PI / 180 / 2) with (PI / 2) by field.
  replace (0 * PI / 180) with 0 by field.
  rewrite sin_0, cos_0, sin_PI2.
  replace (0 * 0 + 1 * 1 * 1 * 1) with 1 by ring.
  replace (1 - 1) with 0 by ring.
  rewrite sqrt_0, sqrt_1.
  unfold JS.atan2.
  destruct (Rlt_dec 0 0) as [H | _]; [ exfalso; lra | ].
  destruct (Rlt_dec 0 1) as [_ | H]; [ | exfalso; lra ].
  field.
Qed.

(** The quantity [a] of the haversine formula lies between 0 and 1, for
    all latitudes, in range or not: both square roots are taken of
    non-negative numbers. *)
Lemma haversine_a_range (p1 p2 l : R) :
  0 <= sin ((p2 - p1) / 2) * sin ((p2 - p1) / 2)
       + cos p1 * cos p2 * sin l * sin l <= 1.
Proof.
  replace (cos p1 * cos p2 * sin l * sin l)
    with (cos p1 * cos p2 * (sin l * sin l)) by ring.
  set (S := sin ((p2 - p1) / 2) * sin ((p2 - p1) / 2)).
  set (t := sin l * sin l).
  set (P := cos p1 * cos p2).
  assert (HS : 0 <= S <= 1).
  { subst S. pose proof (SIN_bound ((p2 - p1) / 2)). nra. }
  assert (Ht : 0 <= t <= 1).
  { subst t. pose proof (SIN_bound l). nra. }
  assert (HSP : 0 <= S + P <= 1).
  { assert (E1 : cos (p2 - p1) = 1 - 2 * S).
    { replace (p2 - p1) with (2 * ((p2 - p1) / 2)) at 1 by field.
      rewrite cos_2a_sin. subst S. ring. }
    assert (E2 : S + P = (1 + cos (p1 + p2)) / 2).
    { rewrite cos_plus. rewrite cos_minus in E1. subst P. lra. }
    rewrite E2. pose proof (COS_bound (p1 + p2)). lra. }
  clearbody S t P.
  assert (H1 : 0 <= (1 - t) * S) by (apply Rmult_le_pos; lra).
  assert (H2 : 0 <= t * (S + P)) by (apply Rmult_le_pos; lra).
  assert (H3 : 0 <= (1 - t) * (1 - S)) by (apply Rmult_le_pos; lra).
  assert (H4 : 0 <= t * (1 - (S + P))) by (apply Rmult_le_pos; lra).
  split; nra.
Qed.

(** On the square root of a number between 0 and 1, the arc sine is the
    [atan2] the code takes. *)
Lemma asin_sqrt_atan2 (a : R) :
  0 <= a <= 1 -> asin (sqrt a) = JS.atan2 (sqrt a) (sqrt (1 - a)).
Proof.
  intros [H0 H1]. unfold JS.atan2.
  destruct H1 as [H1 | ->].
  - assert (Hx : 0 < sqrt (1 - a)) by (apply sqrt_lt_R0; lra).
    destruct (Rlt_dec 0 (sqrt (1 - a))) as [_ | N]; [ | contradiction ].
    rewrite asin_atan.
    + rewrite Rsqr_sqrt by exact H0. reflexivity.
    + split.
      * apply Rlt_le_trans with 0; [ lra | apply sqrt_pos ].
      * rewrite <- sqrt_1. apply sqrt_lt_1; lra.
  - replace (1 - 1) with 0 by ring. rewrite sqrt_0, sqrt_1.
    destruct (Rlt_dec 0 0) as [N | _]; [ lra | ].
    destruct (Rlt_dec 0 1) as [_ | N]; [ | lra ].
    apply asin_1.
Qed.

(** In real arithmetic the endpoint's distance is the haversine distance
    of the specification. *)
Lemma spec_distance_meters (lat1 lon1 lat2 lon2 : R) :
  Spec.distance lat1 lon1 lat2 lon2 =
  getDistanceInMeters lat1 lon1 lat2 lon2.
Proof.
  unfold Spec.distance, getDistanceInMeters. cbv zeta.
  replace ((lat2 * PI / 180 - lat1 * PI / 180) / 2)
    with ((lat2 - lat1) * PI / 180 / 2) by field.
  replace ((lon2 * PI / 180 - lon1 * PI / 180) / 2)
    with ((lon2 - lon1) * PI / 180 / 2) by field.
  replace (cos (lat1 * PI / 180) * cos (lat2 * PI / 180)
           * (sin ((lon2 - lon1) * PI / 180 / 2)
              * sin ((lon2 - lon1) * PI / 180 / 2)))
    with (cos (lat1 * PI / 180) * cos (lat2 * PI / 180)
          * sin ((lon2 - lon1) * PI / 180 / 2)
          * sin ((lon2 - lon1) * PI / 180 / 2)) by ring.
  rewrite asin_sqrt_atan2; [ ring | ].
  replace ((lat2 - lat1) * PI / 180 / 2)
    with ((lat2 * PI / 180 - lat1 * PI / 180) / 2) by field.
  apply haversine_a_range.
Qed.

Lemma PI_gt_3 : 3 < PI.
Proof. pose proof PI2_3_2. lra. Qed.

(** *** Comparisons *)

Lemma leb_true (x y : R) : JS.leb x y = true <-> x <= y.
Proof.
  unfold JS.leb. destruct (Rle_dec x y); split; intros; auto; discriminate.
Qed.

Lemma leb_false (x y : R) : JS.leb x y = false <-> y < x.
Proof.
  unfold JS.leb. destruct (Rle_dec x y); split; intros;
    try discriminate; auto; lra.
Qed.

Lemma gtb_true (x y : R) : JS.gtb x y = true <-> y < x.
Proof.
  unfold JS.gtb. destruct (Rgt_dec x y); split; intros;
    try discriminate; auto; lra.
Qed.

Lemma gtb_false (x y : R) : JS.gtb x y = false <-> x <= y.
Proof.
  unfold JS.gtb. destruct (Rgt_dec x y); split; intros;
    try discriminate; auto; lra.
Qed.

Lemma RiskLevel_eqb_eq (a b : RiskLevel) : RiskLevel_eqb a b = true <-> a = b.
Proof. destruct a, b; simpl; split; intros; congruence. Qed.

(** Decide every comparison of a goal and discard the impossible cases. *)
Ltac compare_all :=
  repeat match goal with
  | |- context [Rle_dec ?x ?y] => destruct (Rle_dec x y)
  | |- context [Rlt_dec ?x ?y] => destruct (Rlt_dec x y)
  | |- context [Rgt_dec ?x ?y] => destruct (Rgt_dec x y)
  end;
  simpl; try reflexivity; try (exfalso; lra).

(** *** Each loop is a fold of the algorithm's step *)

Lemma server_loop_body_step (hour : Z) (lat lng : R)
    (h : Server.HighestRisk) (z : RiskZoneRow.t) :
  Server_spec.result (Server.loop_body hour lat lng h z) =
  Spec.step (Server_spec.distance lat lng) RiskZoneRow.radius_meters
    RiskZoneRow.risk_score (Server.timeRisk hour) RiskZoneRow.risk_level
    (Server_spec.result h) z.
Proof.
  unfold Server.loop_body, Spec.step, Server_spec.distance, JS.leb, JS.gtb.
  destruct h as [l s zo i]; simpl.
  compare_all; destruct l; reflexivity.
Qed.

Lemma server_run_fold (hour : Z) (lat lng : R) (zs : list RiskZoneRow.t) :
  forall h,
    Server_spec.result (fold_left (Server.loop_body hour lat lng) zs h) =
    Spec.run (Server_spec.distance lat lng) RiskZoneRow.radius_meters
      RiskZoneRow.risk_score (Server.timeRisk hour) RiskZoneRow.risk_level
      (Server_spec.result h) zs.
Proof.
  induction zs as [ | z zs IH]; intro h; simpl.
  - reflexivity.
  - rewrite IH, server_loop_body_step. reflexivity.
Qed.

Lemma server_evaluate_fold (hour : Z) (lat lng : R)
    (zs : list RiskZoneRow.t) :
  Server_spec.result (Server.evaluate hour lat lng zs) =
  Server_spec.loop_fold hour lat lng zs.
Proof. apply server_run_fold. Qed.

Lemma client_loop_body_step (hour : Z) (lat lng : R)
    (r : Spec.EvaluationResult RiskZone.t) (z : RiskZone.t) :
  Client.loop_body hour lat lng (Client_spec.level_score_zone r) z =
  Client_spec.level_score_zone
    (Spec.step (Client_spec.distance lat lng) RiskZone.radius_meters
       RiskZone.risk_score (Client.timeRisk hour) RiskZone.risk_level r z).
Proof.
  unfold Client.loop_body, Spec.step, Client_spec.distance,
    Client_spec.level_score_zone, JS.leb, JS.gtb.
  destruct r as [l s zo i]; simpl.
  compare_all; destruct l; reflexivity.
Qed.

Lemma client_run_fold (hour : Z) (lat lng : R) (zs : list RiskZone.t) :
  forall r,
    fold_left (Client.loop_body hour lat lng) zs
              (Client_spec.level_score_zone r) =
    Client_spec.level_score_zone
      (Spec.run (Client_spec.distance lat lng) RiskZone.radius_meters
         RiskZone.risk_score (Client.timeRisk hour) RiskZone.risk_level
         r zs).
Proof.
  induction zs as [ | z zs IH]; intro r; simpl.
  - reflexivity.
  - rewrite client_loop_body_step, IH. reflexivity.
Qed.

Lemma client_evaluate_fold (hour : Z) (lat lng : R) (zs : list RiskZone.t) :
  Client.checkRiskAtLocation zs hour lat lng =
  Client_spec.level_score_zone (Client_spec.loop_fold hour lat lng zs).
Proof.
  exact (client_run_fold hour lat lng zs (Spec.mkResult safe 0 None false)).
Qed.

(** *** Client and endpoint on the same zones *)

Lemma timeRisk_of_zone (hour : Z) (z : RiskZone.t) :
  Server.timeRisk hour (RiskZoneRow.of_zone z) = Client.timeRisk hour z.
Proof. reflexivity. Qed.

Lemma loop_body_same_risk (hour : Z) (lat lng : R) (c : Client.Risk)
    (s : Server.HighestRisk) (z : RiskZone.t) :
  same_risk c s ->
  same_risk (Client.loop_body hour lat lng c z)
            (Server.loop_body hour lat lng s (RiskZoneRow.of_zone z)).
Proof.
  intros (Hl & Hs & Hz).
  unfold Client.loop_body, Server.loop_body.
  rewrite km_times_1000, timeRisk_of_zone.
  cbn [RiskZoneRow.of_zone RiskZoneRow.latitude RiskZoneRow.longitude
       RiskZoneRow.radius_meters RiskZoneRow.risk_score
       RiskZoneRow.risk_level].
  rewrite Hl, Hs.
  repeat match goal with
  | |- context [if ?b then _ else _] => destruct b
  end; unfold same_risk; simpl; auto.
Qed.

Lemma fold_same_risk (hour : Z) (lat lng : R) (zs : list RiskZone.t) :
  forall c s,
    same_risk c s ->
    same_risk (fold_left (Client.loop_body hour lat lng) zs c)
              (fold_left (Server.loop_body hour lat lng)
                         (map RiskZoneRow.of_zone zs) s).
Proof.
  induction zs as [ | z zs IH]; intros c s H; simpl.
  - exact H.
  - apply IH, loop_body_same_risk, H.
Qed.

(** In real arithmetic, on zones of the client's type (no null mapping),
    the two loops give the same level, score and zone.  This says nothing
    of the doubles the code computes with: there the client's
    [6371 * c * 1000] over [deg * (PI / 180)] and the endpoint's
    [6371e3 * c] over [(deg * PI) / 180] round differently. *)
Lemma same_risk_in_real_arithmetic (hour : Z) (lat lng : R)
    (zs : list RiskZone.t) :
  same_risk (Client.checkRiskAtLocation zs hour lat lng)
            (Server.evaluate hour lat lng (map RiskZoneRow.of_zone zs)).
Proof.
  apply fold_same_risk. unfold same_risk; simpl; auto.
Qed.

(** On rows that are zones of the client's type the client never throws:
    the evaluator on rows is the typed one. *)
Lemma clientRows_loop_body_of_zone (hour : Z) (lat lng : R)
    (c : Client.Risk) (z : RiskZone.t) :
  ClientRows.loop_body hour lat lng (ClientRows.of_risk c)
                       (RiskZoneRow.of_zone z) =
  Some (ClientRows.of_risk (Client.loop_body hour lat lng c z)).
Proof.
  unfold ClientRows.loop_body, Client.loop_body, ClientRows.timeRisk,
    Client.timeRisk.
  cbn [RiskZoneRow.of_zone RiskZoneRow.latitude RiskZoneRow.longitude
       RiskZoneRow.radius_meters RiskZoneRow.risk_score
       RiskZoneRow.risk_level RiskZoneRow.time_of_day_risk
       ClientRows.of_risk ClientRows.score ClientRows.level].
  repeat match goal with
  | |- context [if ?b then _ else _] => destruct b
  end; reflexivity.
Qed.

Lemma clientRows_of_zones (hour : Z) (lat lng : R) (zs : list RiskZone.t) :
  ClientRows.checkRiskAtLocation (map RiskZoneRow.of_zone zs) hour lat lng =
  Some (ClientRows.of_risk (Client.checkRiskAtLocation zs hour lat lng)).
Proof.
  unfold ClientRows.checkRiskAtLocation, Client.checkRiskAtLocation.
  change (ClientRows.mkRisk safe 0 None)
    with (ClientRows.of_risk (Client.mkRisk safe 0 None)).
  generalize (Client.mkRisk safe 0 None).
  induction zs as [ | z zs IH]; intro c; simpl.
  - reflexivity.
  - rewrite clientRows_loop_body_of_zone. apply IH.
Qed.

(** *** The selected zone comes from the list *)

Lemma server_loop_body_zone (hour : Z) (lat lng : R)
    (h : Server.HighestRisk) (z : RiskZoneRow.t) :
  Server.zone (Server.loop_body hour lat lng h z) = Server.zone h \/
  Server.zone (Server.loop_body hour lat lng h z) = Some z.
Proof.
  unfold Server.loop_body.
  repeat match goal with
  | |- context [if ?b then _ else _] => destruct b
  end; simpl; auto.
Qed.

Lemma client_loop_body_zone (hour : Z) (lat lng : R)
    (c : Client.Risk) (z : RiskZone.t) :
  Client.zone (Client.loop_body hour lat lng c z) = Client.zone c \/
  Client.zone (Client.loop_body hour lat lng c z) = Some z.
Proof.
  unfold Client.loop_body.
  repeat match goal with
  | |- context [if ?b then _ else _] => destruct b
  end; simpl; auto.
Qed.

(** The loop invariant: the running zone is the initial one or a zone
    already visited. *)
Lemma server_fold_zone (hour : Z) (lat lng : R) (zs : list RiskZoneRow.t) :
  forall h z,
    Server.zone (fold_left (Server.loop_body hour lat lng) zs h) = Some z ->
    Server.zone h = Some z \/ In z zs.
Proof.
  induction zs as [ | x zs IH]; intros h z H; simpl in *.
  - auto.
  - destruct (IH _ _ H) as [H1 | H1]; [ | auto ].
    destruct (server_loop_body_zone hour lat lng h x) as [E | E];
      rewrite E in H1; [ auto | ].
    injection H1 as ->. auto.
Qed.

Lemma client_fold_zone (hour : Z) (lat lng : R) (zs : list RiskZone.t) :
  forall c z,
    Client.zone (fold_left (Client.loop_body hour lat lng) zs c) = Some z ->
    Client.zone c = Some z \/ In z zs.
Proof.
  induction zs as [ | x zs IH]; intros c z H; simpl in *.
  - auto.
  - destruct (IH _ _ H) as [H1 | H1]; [ | auto ].
    destruct (client_loop_body_zone hour lat lng c x) as [E | E];
      rewrite E in H1; [ auto | ].
    injection H1 as ->. auto.
Qed.

(** C8. In both evaluators, after any number of iterations (the zones
    [visited], with [rest] still to come), a selected zone that is present
    is a member of the zone list passed to the evaluator; with [rest]
    empty this is the returned result. *)
Theorem selected_zone_is_member (hour : Z) (lat lng : R) :
  (forall (visited rest : list RiskZoneRow.t) (z : RiskZoneRow.t),
     Server.zone (Server.evaluate hour lat lng visited) = Some z ->
     In z (visited ++ rest)) /\
  (forall (visited rest : list RiskZone.t) (z : RiskZone.t),
     Client.zone (Client.checkRiskAtLocation visited hour lat lng) = Some z ->
     In z (visited ++ rest)).
Proof.
  split; intros visited rest z H; apply in_or_app; left.
  - destruct (server_fold_zone _ _ _ _ _ _ H) as [E | E];
      [ discriminate E | exact E ].
  - destruct (client_fold_zone _ _ _ _ _ _ H) as [E | E];
      [ discriminate E | exact E ].
Qed.

(** C9. Both distance functions are symmetric in their two points. *)
Theorem distance_symmetric (lat1 lon1 lat2 lon2 : R) :
  getDistanceFromLatLonInKm lat1 lon1 lat2 lon2 =
  getDistanceFromLatLonInKm lat2 lon2 lat1 lon1 /\
  getDistanceInMeters lat1 lon1 lat2 lon2 =
  getDistanceInMeters lat2 lon2 lat1 lon1.
Proof.
  split.
  - apply getDistanceFromLatLonInKm_sym.
  - apply getDistanceInMeters_sym.
Qed.

(** *** The cases of one iteration of the endpoint's loop *)

Section Server_cases.
Variables (hour : Z) (lat lng : R).
Variables (h : Server.HighestRisk) (z : RiskZoneRow.t).

Let d := Server_spec.distance lat lng z.
Let r := RiskZoneRow.radius_meters z.

Lemma loop_body_inside_higher :
  d <= r -> Server.score h < Server.timeRisk hour z ->
  Server.loop_body hour lat lng h z =
  Server.mkRisk (RiskZoneRow.risk_level z) (Server.timeRisk hour z)
                (Some z) true.
Proof.
  subst d r. unfold Server_spec.distance, Server.loop_body. intros H1 H2.
  apply leb_true in H1. apply gtb_true in H2. rewrite H1, H2. reflexivity.
Qed.

Lemma loop_body_inside_not_higher :
  d <= r -> Server.timeRisk hour z <= Server.score h ->
  Server.loop_body hour lat lng h z = h.
Proof.
  subst d r. unfold Server_spec.distance, Server.loop_body. intros H1 H2.
  apply leb_true in H1. apply gtb_false in H2. rewrite H1, H2. reflexivity.
Qed.

Lemma loop_body_approach_from_safe :
  r < d -> d <= r * 1.5 ->
  Server.score h < RiskZoneRow.risk_score z * 0.5 ->
  Server.level h = safe ->
  Server.loop_body hour lat lng h z =
  Server.mkRisk at_risk (RiskZoneRow.risk_score z * 0.5) (Some z) false.
Proof.
  subst d r. unfold Server_spec.distance, Server.loop_body.
  intros H1 H2 H3 H4.
  apply leb_false in H1. apply leb_true in H2. apply gtb_true in H3.
  rewrite H1, H2, H3, H4. reflexivity.
Qed.

Lemma loop_body_approach_not_safe :
  r < d -> Server.level h <> safe ->
  Server.loop_body hour lat lng h z = h.
Proof.
  subst d r. unfold Server_spec.distance, Server.loop_body.
  intros H1 H2. apply leb_false in H1. rewrite H1. clear H1.
  destruct (Server.level h); [ congruence | | ];
    simpl; rewrite andb_false_r;
    destruct (JS.leb _ _); reflexivity.
Qed.

Lemma loop_body_approach_not_higher :
  r < d -> RiskZoneRow.risk_score z * 0.5 <= Server.score h ->
  Server.loop_body hour lat lng h z = h.
Proof.
  subst d r. unfold Server_spec.distance, Server.loop_body.
  intros H1 H2. apply leb_false in H1. apply gtb_false in H2.
  rewrite H1, H2. clear H1 H2. simpl. destruct (JS.leb _ _); reflexivity.
Qed.

Lemma loop_body_outside :
  r < d -> r * 1.5 < d ->
  Server.loop_body hour lat lng h z = h.
Proof.
  subst d r. unfold Server_spec.distance, Server.loop_body.
  intros H1 H2. apply leb_false in H1. apply leb_false in H2.
  rewrite H1, H2. reflexivity.
Qed.

End Server_cases.

(** *** [||] on numbers *)

Lemma or_else_nonzero (x d : R) : x <> 0 -> JS.or_else (Some x) d = x.
Proof.
  intro H. unfold JS.or_else. destruct (Req_dec_T x 0); [ contradiction | ].
  reflexivity.
Qed.

Lemma or_else_zero (d : R) : JS.or_else (Some 0) d = d.
Proof.
  unfold JS.or_else. destruct (Req_dec_T 0 0); [ | contradiction ];
    reflexivity.
Qed.

(** *** The sample zones seen from (0, 0) *)

Lemma distance_sample_row (id : string) (radius score : R)
    (l : RiskLevel) (m : option TimeOfDayRisk) :
  Server_spec.distance 0 0 (Sample.row id 0 radius score l m) = 0.
Proof. apply getDistanceInMeters_same. Qed.

Lemma distance_far : Server_spec.distance 0 0 Sample.far = 6371000 * PI.
Proof. apply getDistanceInMeters_antipodal. Qed.

Lemma far_approached :
  RiskZoneRow.radius_meters Sample.far < Server_spec.distance 0 0 Sample.far
  /\ Server_spec.distance 0 0 Sample.far
     <= RiskZoneRow.radius_meters Sample.far * 1.5.
Proof.
  rewrite distance_far. simpl.
  pose proof PI_gt_3. pose proof PI_4. lra.
Qed.

Lemma timeRisk_near (hour : Z) : Server.timeRisk hour Sample.near = 0.3.
Proof. reflexivity. Qed.

Lemma timeRisk_industrial_night :
  Server.timeRisk 22 Sample.industrial = 0.95.
Proof.
  unfold Server.timeRisk. simpl. apply or_else_nonzero. lra.
Qed.

Lemma timeRisk_industrial_day :
  Server.timeRisk 12 Sample.industrial = 0.6.
Proof.
  unfold Server.timeRisk. simpl. apply or_else_nonzero. lra.
Qed.

(** Inside [near] only: scenario A of the specification's tests. *)
Lemma evaluate_near (hour : Z) :
  Server.evaluate hour 0 0 [Sample.near] =
  Server.mkRisk at_risk 0.3 (Some Sample.near) true.
Proof.
  unfold Server.evaluate. cbn [fold_left].
  rewrite loop_body_inside_higher.
  - reflexivity.
  - unfold Sample.near. rewrite distance_sample_row. simpl. lra.
  - rewrite timeRisk_near. simpl. lra.
Qed.

(** Approaching [far] only: scenario B. *)
Lemma evaluate_far (hour : Z) :
  Server.evaluate hour 0 0 [Sample.far] =
  Server.mkRisk at_risk (0.8 * 0.5) (Some Sample.far) false.
Proof.
  unfold Server.evaluate. cbn [fold_left].
  destruct far_approached as [H1 H2].
  rewrite loop_body_approach_from_safe; auto.
  simpl. lra.
Qed.

(** Farther than 1.5 times the radius: scenario C. *)
Lemma evaluate_remote (hour : Z) :
  Server.evaluate hour 0 0 [Sample.remote] =
  Server.mkRisk safe 0 None false.
Proof.
  unfold Server.evaluate. cbn [fold_left].
  assert (D : Server_spec.distance 0 0 Sample.remote = 6371000 * PI)
    by apply getDistanceInMeters_antipodal.
  pose proof PI_gt_3.
  apply loop_body_outside; rewrite D; simpl; lra.
Qed.

Lemma evaluate_near_far (hour : Z) :
  Server.evaluate hour 0 0 [Sample.near; Sample.far] =
  Server.mkRisk at_risk 0.3 (Some Sample.near) true.
Proof.
  change (Server.evaluate hour 0 0 [Sample.near; Sample.far])
    with (Server.loop_body hour 0 0
            (Server.evaluate hour 0 0 [Sample.near]) Sample.far).
  rewrite evaluate_near.
  destruct far_approached as [H1 H2].
  apply loop_body_approach_not_safe; [ exact H1 | simpl; discriminate ].
Qed.

Lemma evaluate_far_near (hour : Z) :
  Server.evaluate hour 0 0 [Sample.far; Sample.near] =
  Server.mkRisk at_risk (0.8 * 0.5) (Some Sample.far) false.
Proof.
  change (Server.evaluate hour 0 0 [Sample.far; Sample.near])
    with (Server.loop_body hour 0 0
            (Server.evaluate hour 0 0 [Sample.far]) Sample.near).
  rewrite evaluate_far.
  apply loop_body_inside_not_higher.
  - unfold Sample.near. rewrite distance_sample_row. simpl. lra.
  - rewrite timeRisk_near. simpl. lra.
Qed.

Lemma evaluate_industrial_night :
  Server.evaluate 22 0 0 [Sample.industrial] =
  Server.mkRisk emergency 0.95 (Some Sample.industrial) true.
Proof.
  unfold Server.evaluate. cbn [fold_left].
  rewrite loop_body_inside_higher.
  - rewrite timeRisk_industrial_night. reflexivity.
  - unfold Sample.industrial. rewrite distance_sample_row. simpl. lra.
  - rewrite timeRisk_industrial_night. simpl. lra.
Qed.

(** *** Order of the zones *)

Section Order.
Context {Zone : Type}.
Variables (distance radius_meters risk_score weighted : Zone -> R).
Variable risk_level : Zone -> RiskLevel.

Let step := Spec.step distance radius_meters risk_score weighted risk_level.
Let run := Spec.run distance radius_meters risk_score weighted risk_level.
Let contains := Spec.contains distance radius_meters.
Let approaches := Spec.approaches distance radius_meters.

Lemma step_same_level_score (a b : Spec.EvaluationResult Zone) (z : Zone) :
  same_level_score a b -> same_level_score (step a z) (step b z).
Proof.
  destruct a as [la sa za ia], b as [lb sb zb ib].
  intros [Hl Hs]. simpl in Hl, Hs. subst la sa.
  subst step. unfold Spec.step, same_level_score. simpl.
  repeat match goal with
  | |- context [if ?c then _ else _] => destruct c
  end; try (destruct lb); simpl; auto.
Qed.

Lemma run_same_level_score (zs : list Zone) :
  forall a b, same_level_score a b ->
              same_level_score (run a zs) (run b zs).
Proof.
  induction zs as [ | z zs IH]; intros a b H; simpl.
  - exact H.
  - apply IH, step_same_level_score, H.
Qed.

(** Without approach a step only looks at containment. *)
Lemma step_without_approach (a : Spec.EvaluationResult Zone) (z : Zone) :
  ~ approaches z ->
  step a z =
  if Rle_dec (distance z) (radius_meters z) then
    if Rlt_dec (Spec.score a) (weighted z) then
      Spec.mkResult (risk_level z) (weighted z) (Some z) true
    else a
  else a.
Proof.
  intro H. subst step approaches. unfold Spec.step, Spec.approaches in *.
  destruct (Rle_dec (distance z) (radius_meters z)); [ reflexivity | ].
  destruct (Rlt_dec (radius_meters z) (distance z)); [ | reflexivity ].
  destruct (Rle_dec (distance z) (1.5 * radius_meters z));
    [ | reflexivity ].
  exfalso. apply H. split; assumption.
Qed.

Lemma step_swap (a : Spec.EvaluationResult Zone) (x y : Zone) :
  ~ approaches x -> ~ approaches y ->
  (contains x -> contains y -> weighted x = weighted y ->
   risk_level x = risk_level y) ->
  same_level_score (step (step a y) x) (step (step a x) y).
Proof.
  intros Hx Hy Htie.
  rewrite !step_without_approach by assumption.
  subst contains. unfold Spec.contains, same_level_score in *.
  destruct (Rle_dec (distance x) (radius_meters x)) as [Cx | Cx];
    destruct (Rle_dec (distance y) (radius_meters y)) as [Cy | Cy];
    try (split; reflexivity).
  destruct (Rlt_dec (Spec.score a) (weighted x)) as [Ax | Ax];
    destruct (Rlt_dec (Spec.score a) (weighted y)) as [Ay | Ay]; simpl;
    repeat match goal with
    | |- context [Rlt_dec ?u ?v] => destruct (Rlt_dec u v)
    end; simpl; try (split; reflexivity); try (exfalso; lra).
  assert (E : weighted x = weighted y) by lra.
  split; [ symmetry; apply Htie; assumption | symmetry; exact E ].
Qed.

Lemma no_approach_perm (zs zs' : list Zone) :
  Permutation zs zs' ->
  no_approach distance radius_meters zs ->
  no_approach distance radius_meters zs'.
Proof.
  intros P H z Hz. apply H.
  apply Permutation_in with (l := zs'); [ apply Permutation_sym, P | exact Hz ].
Qed.

Lemma ties_share_level_perm (zs zs' : list Zone) :
  Permutation zs zs' ->
  ties_share_level distance radius_meters weighted risk_level zs ->
  ties_share_level distance radius_meters weighted risk_level zs'.
Proof.
  intros P H x y Hx Hy. apply Permutation_sym in P.
  apply H; eapply Permutation_in; eassumption.
Qed.

Lemma run_perm (zs zs' : list Zone) :
  Permutation zs zs' ->
  no_approach distance radius_meters zs ->
  ties_share_level distance radius_meters weighted risk_level zs ->
  forall a, same_level_score (run a zs) (run a zs').
Proof.
  induction 1 as [ | x l l' P IH | x y l | l l' l'' P1 IH1 P2 IH2];
    intros Hn Ht a.
  - split; reflexivity.
  - simpl. apply IH.
    + intros z Hz. apply Hn. right. exact Hz.
    + intros u v Hu Hv. apply Ht; right; assumption.
  - simpl. apply run_same_level_score. apply step_swap.
    + apply Hn. right. left. reflexivity.
    + apply Hn. left. reflexivity.
    + apply Ht; [ right; left; reflexivity | left; reflexivity ].
  - destruct (IH1 Hn Ht a) as [L1 S1].
    destruct (IH2 (no_approach_perm _ _ P1 Hn)
                  (ties_share_level_perm _ _ P1 Ht) a) as [L2 S2].
    split; congruence.
Qed.

End Order.

Lemma server_evaluate_perm (hour : Z) (lat lng : R)
    (zs zs' : list RiskZoneRow.t) :
  Permutation zs zs' ->
  no_approach (Server_spec.distance lat lng) RiskZoneRow.radius_meters zs ->
  ties_share_level (Server_spec.distance lat lng) RiskZoneRow.radius_meters
                   (Server.timeRisk hour) RiskZoneRow.risk_level zs ->
  Server.level (Server.evaluate hour lat lng zs) =
  Server.level (Server.evaluate hour lat lng zs') /\
  Server.score (Server.evaluate hour lat lng zs) =
  Server.score (Server.evaluate hour lat lng zs').
Proof.
  intros P Hn Ht.
  change (same_level_score
            (Server_spec.result (Server.evaluate hour lat lng zs))
            (Server_spec.result (Server.evaluate hour lat lng zs'))).
  rewrite !server_evaluate_fold.
  apply (run_perm _ _ RiskZoneRow.risk_score _ _ _ _ P Hn Ht).
Qed.

Lemma client_evaluate_perm (hour : Z) (lat lng : R)
    (zs zs' : list RiskZone.t) :
  Permutation zs zs' ->
  no_approach (Client_spec.distance lat lng) RiskZone.radius_meters zs ->
  ties_share_level (Client_spec.distance lat lng) RiskZone.radius_meters
                   (Client.timeRisk hour) RiskZone.risk_level zs ->
  Client.level (Client.checkRiskAtLocation zs hour lat lng) =
  Client.level (Client.checkRiskAtLocation zs' hour lat lng) /\
  Client.score (Client.checkRiskAtLocation zs hour lat lng) =
  Client.score (Client.checkRiskAtLocation zs' hour lat lng).
Proof.
  intros P Hn Ht.
  rewrite !client_evaluate_fold.
  apply (run_perm _ _ RiskZone.risk_score _ _ _ _ P Hn Ht).
Qed.

(** C2, as stated, fails: the point (0, 0) is inside [near] (score 0.3)
    and approaches [far] (approaching score 0.4).  With [near] first the
    approach is refused, the level being no longer safe, and the score is
    0.3; with [far] first it is 0.4 and [near] does not exceed it. *)
Lemma order_changes_score :
  ~ (forall (hour : Z) (lat lng : R) (zs zs' : list RiskZoneRow.t),
       Permutation zs zs' ->
       Server.level (Server.evaluate hour lat lng zs) =
       Server.level (Server.evaluate hour lat lng zs') /\
       Server.score (Server.evaluate hour lat lng zs) =
       Server.score (Server.evaluate hour lat lng zs')).
Proof.
  intro H.
  destruct (H 12%Z 0 0 [Sample.near; Sample.far] [Sample.far; Sample.near]
              (perm_swap _ _ _)) as [_ Hs].
  rewrite evaluate_near_far, evaluate_far_near in Hs. simpl in Hs. lra.
Qed.

(** Two zones that contain the point with equal scores and different
    levels: the first one of the list gives the level. *)
Lemma order_changes_level :
  Server.level (Server.evaluate 12 0 0
                  [Sample.tie_at_risk; Sample.tie_emergency]) = at_risk /\
  Server.level (Server.evaluate 12 0 0
                  [Sample.tie_emergency; Sample.tie_at_risk]) = emergency.
Proof.
  assert (T1 : Server.timeRisk 12 Sample.tie_at_risk = 0.5) by reflexivity.
  assert (T2 : Server.timeRisk 12 Sample.tie_emergency = 0.5) by reflexivity.
  assert (D1 : Server_spec.distance 0 0 Sample.tie_at_risk = 0)
    by apply distance_sample_row.
  assert (D2 : Server_spec.distance 0 0 Sample.tie_emergency = 0)
    by apply distance_sample_row.
  unfold Server.evaluate. cbn [fold_left].
  split.
  - rewrite (loop_body_inside_higher _ _ _ _ Sample.tie_at_risk);
      [ | rewrite D1; simpl; lra | rewrite T1; simpl; lra ].
    rewrite loop_body_inside_not_higher;
      [ reflexivity | rewrite D2; simpl; lra | rewrite T1, T2; simpl; lra ].
  - rewrite (loop_body_inside_higher _ _ _ _ Sample.tie_emergency);
      [ | rewrite D2; simpl; lra | rewrite T2; simpl; lra ].
    rewrite loop_body_inside_not_higher;
      [ reflexivity | rewrite D1; simpl; lra | rewrite T1, T2; simpl; lra ].
Qed.

(** *** Time-of-day weighting *)

Lemma timeOfDay_bucket (hour : Z) : timeOfDay hour = Spec.bucket hour.
Proof.
  unfold timeOfDay, Spec.bucket.
  destruct (18 <=? hour)%Z, (hour <? 6)%Z; reflexivity.
Qed.

Lemma timeOfDay_night (hour : Z) :
  timeOfDay hour = "night"%string <-> (18 <= hour \/ hour < 6)%Z.
Proof.
  unfold timeOfDay.
  destruct (Z.leb_spec 18 hour), (Z.ltb_spec hour 6); simpl;
    split; intros; try discriminate; auto; lia.
Qed.

(** What the code resolves: the override when it is present and not 0,
    the base score otherwise. *)
Lemma server_timeRisk_cases (hour : Z) (z : RiskZoneRow.t) :
  (exists m v, RiskZoneRow.time_of_day_risk z = Some m /\
               lookup (timeOfDay hour) m = Some v /\ v <> 0 /\
               Server.timeRisk hour z = v) \/
  ((RiskZoneRow.time_of_day_risk z = None \/
    exists m, RiskZoneRow.time_of_day_risk z = Some m /\
              (lookup (timeOfDay hour) m = None \/
               lookup (timeOfDay hour) m = Some 0)) /\
   Server.timeRisk hour z = RiskZoneRow.risk_score z).
Proof.
  unfold Server.timeRisk.
  destruct (RiskZoneRow.time_of_day_risk z) as [m | ].
  - destruct (lookup (timeOfDay hour) m) as [v | ] eqn:E.
    + destruct (Req_dec_T v 0) as [-> | Hv].
      * right. rewrite or_else_zero. split; [ right | reflexivity ].
        exists m. auto.
      * left. exists m, v. rewrite or_else_nonzero by assumption. auto.
    + right. split; [ right | reflexivity ]. exists m. auto.
  - right. split; [ left | ]; reflexivity.
Qed.

(** The code agrees with the specification's weighting on every zone
    whose override for the bucket is not a present 0. *)
Lemma server_timeRisk_weighted (hour : Z) (z : RiskZoneRow.t) :
  (forall m, RiskZoneRow.time_of_day_risk z = Some m ->
             lookup (timeOfDay hour) m <> Some 0) ->
  Server.timeRisk hour z =
  Spec.weighted_score (RiskZoneRow.time_of_day_risk z)
                      (RiskZoneRow.risk_score z) (Spec.bucket hour).
Proof.
  intro H. unfold Server.timeRisk, Spec.weighted_score.
  rewrite <- timeOfDay_bucket.
  destruct (RiskZoneRow.time_of_day_risk z) as [m | ]; [ | reflexivity ].
  specialize (H m eq_refl).
  destruct (lookup (timeOfDay hour) m) as [v | ]; [ | reflexivity ].
  apply or_else_nonzero. congruence.
Qed.

(** The fold only reads the weighted score of the zones of the list. *)
Lemma run_weighted_ext {Zone : Type}
    (distance radius_meters risk_score w1 w2 : Zone -> R)
    (risk_level : Zone -> RiskLevel) (zs : list Zone) :
  (forall z, In z zs -> w1 z = w2 z) ->
  forall init,
    Spec.run distance radius_meters risk_score w1 risk_level init zs =
    Spec.run distance radius_meters risk_score w2 risk_level init zs.
Proof.
  unfold Spec.run.
  induction zs as [ | z zs IH]; intros H init; simpl.
  - reflexivity.
  - rewrite IH by (intros; apply H; right; assumption).
    unfold Spec.step. rewrite (H z) by (left; reflexivity). reflexivity.
Qed.

(** The fold only reads the distance and the weighted score of the
    zones of the list. *)
Lemma run_ext {Zone : Type}
    (d1 d2 radius_meters risk_score w1 w2 : Zone -> R)
    (risk_level : Zone -> RiskLevel) (zs : list Zone) :
  (forall z, In z zs -> d1 z = d2 z /\ w1 z = w2 z) ->
  forall init,
    Spec.run d1 radius_meters risk_score w1 risk_level init zs =
    Spec.run d2 radius_meters risk_score w2 risk_level init zs.
Proof.
  unfold Spec.run.
  induction zs as [ | z zs IH]; intros H init; simpl.
  - reflexivity.
  - rewrite IH by (intros; apply H; right; assumption).
    destruct (H z (or_introl eq_refl)) as [Hd Hw].
    unfold Spec.step. rewrite Hd, Hw. reflexivity.
Qed.

Lemma server_weighted_timeRisk (hour : Z) (z : RiskZoneRow.t) :
  Server_spec.no_zero_override hour z ->
  Server.timeRisk hour z = Server_spec.weighted hour z.
Proof.
  intro H. apply server_timeRisk_weighted.
  rewrite timeOfDay_bucket. exact H.
Qed.

Lemma client_weighted_timeRisk (hour : Z) (z : RiskZone.t) :
  Client_spec.no_zero_override hour z ->
  Client.timeRisk hour z = Client_spec.weighted hour z.
Proof.
  unfold Client_spec.no_zero_override, Client.timeRisk,
    Client_spec.weighted, Spec.weighted_score.
  rewrite timeOfDay_bucket. intro H.
  destruct (lookup (Spec.bucket hour) (RiskZone.time_of_day_risk z))
    as [v | ]; [ | reflexivity ].
  apply or_else_nonzero. congruence.
Qed.

(** In real arithmetic, on rows without a present override of 0 for the
    bucket of the hour, the endpoint's loop returns what the
    specification's evaluator returns. *)
Lemma server_evaluate_weighted (hour : Z) (lat lng : R)
    (zs : list RiskZoneRow.t) :
  (forall z, In z zs -> Server_spec.no_zero_override hour z) ->
  Server_spec.result (Server.evaluate hour lat lng zs) =
  Server_spec.evaluate hour lat lng zs.
Proof.
  intro H. rewrite server_evaluate_fold.
  unfold Server_spec.loop_fold, Server_spec.evaluate, Spec.evaluate.
  apply run_ext. intros z Hz. split.
  - unfold Server_spec.distance. symmetry. apply spec_distance_meters.
  - apply server_weighted_timeRisk, H, Hz.
Qed.

(** The same for the client, on zones of its type: the level, the score
    and the zone of the specification's result. *)
Lemma client_evaluate_weighted (hour : Z) (lat lng : R)
    (zs : list RiskZone.t) :
  (forall z, In z zs -> Client_spec.no_zero_override hour z) ->
  Client.checkRiskAtLocation zs hour lat lng =
  Client_spec.level_score_zone (Client_spec.evaluate hour lat lng zs).
Proof.
  intro H. rewrite client_evaluate_fold. f_equal.
  unfold Client_spec.loop_fold, Client_spec.evaluate, Spec.evaluate.
  apply run_ext. intros z Hz. split.
  - unfold Client_spec.distance. rewrite km_times_1000.
    symmetry. apply spec_distance_meters.
  - apply client_weighted_timeRisk, H, Hz.
Qed.

(** C4, at the failing input: at 22 h a zone of base score 0.7 holds the
    override [night: 0].  The override is present, the specification's
    weighting gives 0, and both evaluators resolve 0.7, the base score. *)
Theorem zero_override_replaced_by_base :
  timeOfDay 22 = "night"%string /\
  lookup "night" [("night"%string, 0)] = Some 0 /\
  Spec.weighted_score (RiskZoneRow.time_of_day_risk Sample.quiet_night)
    (RiskZoneRow.risk_score Sample.quiet_night) (Spec.bucket 22) = 0 /\
  Server.timeRisk 22 Sample.quiet_night = 0.7 /\
  Client.timeRisk 22 Sample.quiet_night_zone = 0.7.
Proof.
  repeat split; try reflexivity.
  - unfold Server.timeRisk. simpl. apply or_else_zero.
  - unfold Client.timeRisk. simpl. apply or_else_zero.
Qed.

(** The whole evaluation at that input: the endpoint reports the zone with
    score 0.7 where the fold over the specification's weighting stays at
    the safe default. *)
Lemma evaluate_quiet_night :
  Server.evaluate 22 0 0 [Sample.quiet_night] =
  Server.mkRisk at_risk 0.7 (Some Sample.quiet_night) true /\
  Spec.evaluate (Server_spec.distance 0 0) RiskZoneRow.radius_meters
    RiskZoneRow.risk_score
    (fun z => Spec.weighted_score (RiskZoneRow.time_of_day_risk z)
                (RiskZoneRow.risk_score z) (Spec.bucket 22))
    RiskZoneRow.risk_level [Sample.quiet_night] =
  Spec.mkResult safe 0 None false.
Proof.
  assert (T : Server.timeRisk 22 Sample.quiet_night = 0.7).
  { unfold Server.timeRisk. simpl. apply or_else_zero. }
  assert (D : Server_spec.distance 0 0 Sample.quiet_night = 0)
    by apply distance_sample_row.
  split.
  - unfold Server.evaluate. cbn [fold_left].
    rewrite loop_body_inside_higher;
      [ rewrite T; reflexivity | rewrite D; simpl; lra
      | rewrite T; simpl; lra ].
  - unfold Spec.evaluate, Spec.run. cbn [fold_left]. unfold Spec.step.
    rewrite D. simpl. compare_all.
Qed.

(** *** The evaluators against the fold of the specification *)

Lemma spec_distance_same (lat lon : R) : Spec.distance lat lon lat lon = 0.
Proof.
  unfold Spec.distance. cbv zeta.
  replace ((lat * PI / 180 - lat * PI / 180) / 2) with 0 by field.
  replace ((lon * PI / 180 - lon * PI / 180) / 2) with 0 by field.
  rewrite sin_0.
  replace (0 * 0 + cos (lat * PI / 180) * cos (lat * PI / 180) * (0 * 0))
    with 0 by ring.
  rewrite sqrt_0, asin_0. ring.
Qed.

(** Without zones both loops return the initial result. *)
Lemma evaluate_nil (hour : Z) (lat lng : R) :
  Server.evaluate hour lat lng [] = Server.mkRisk safe 0 None false /\
  Client.checkRiskAtLocation [] hour lat lng = Client.mkRisk safe 0 None.
Proof. split; reflexivity. Qed.

(** C1, at the failing input: at 22 h the point (0, 0) is the centre of a
    zone of radius 1000 m, level at_risk and base score 0.7 that holds the
    override [night: 0].  The fold of the specification (4.3) over the
    haversine distance (4.1) and the time-weighted score (4.2) reads the
    weighted score 0, not greater than the running score 0, and returns
    the safe default.  The endpoint's loop and the client's
    [checkRiskAtLocation] resolve [0 || 0.7] and return the zone with its
    level and the score 0.7. *)
Theorem evaluators_leave_the_fold_on_zero_override :
  Server_spec.evaluate 22 0 0 [Sample.quiet_night] =
    Spec.mkResult safe 0 None false /\
  Server.evaluate 22 0 0 [Sample.quiet_night] =
    Server.mkRisk at_risk 0.7 (Some Sample.quiet_night) true /\
  Client_spec.evaluate 22 0 0 [Sample.quiet_night_zone] =
    Spec.mkResult safe 0 None false /\
  Client.checkRiskAtLocation [Sample.quiet_night_zone] 22 0 0 =
    Client.mkRisk at_risk 0.7 (Some Sample.quiet_night_zone).
Proof.
  split; [ | split; [ | split ]].
  - unfold Server_spec.evaluate, Spec.evaluate, Spec.run.
    cbn [fold_left]. unfold Spec.step.
    change (RiskZoneRow.latitude Sample.quiet_night) with 0.
    change (RiskZoneRow.longitude Sample.quiet_night) with 0.
    rewrite spec_distance_same.
    change (Server_spec.weighted 22 Sample.quiet_night) with 0.
    simpl. compare_all.
  - assert (T : Server.timeRisk 22 Sample.quiet_night = 0.7).
    { unfold Server.timeRisk. simpl. apply or_else_zero. }
    unfold Server.evaluate. cbn [fold_left].
    rewrite loop_body_inside_higher;
      [ rewrite T; reflexivity
      | unfold Sample.quiet_night; rewrite distance_sample_row; simpl; lra
      | rewrite T; simpl; lra ].
  - unfold Client_spec.evaluate, Spec.evaluate, Spec.run.
    cbn [fold_left]. unfold Spec.step.
    change (RiskZone.latitude Sample.quiet_night_zone) with 0.
    change (RiskZone.longitude Sample.quiet_night_zone) with 0.
    rewrite spec_distance_same.
    change (Client_spec.weighted 22 Sample.quiet_night_zone) with 0.
    simpl. compare_all.
  - assert (T : Client.timeRisk 22 Sample.quiet_night_zone = 0.7).
    { unfold Client.timeRisk. simpl. apply or_else_zero. }
    unfold Client.checkRiskAtLocation. cbn [fold_left].
    unfold Client.loop_body.
    change (RiskZone.latitude Sample.quiet_night_zone) with 0.
    change (RiskZone.longitude Sample.quiet_night_zone) with 0.
    rewrite getDistanceFromLatLonInKm_same, T.
    rewrite (proj2 (leb_true _ _)) by (simpl; lra).
    rewrite (proj2 (gtb_true _ _)) by (simpl; lra).
    reflexivity.
Qed.

(** *** Order of the zones, on the weighting of the specification *)

(** C2, amended.  For every point, hour and list of zones in which no zone
    is approached (outside its radius and within 1.5 times its radius), no
    zone holds an override of 0 for the bucket of the hour, and zones that
    contain the point with equal time-weighted scores (4.2) have equal
    levels, every permutation of the list gives the same level and the
    same score, in the endpoint's loop and in the client's. *)
Theorem order_independent_without_approach (hour : Z) (lat lng : R) :
  (forall zs zs' : list RiskZoneRow.t,
     Permutation zs zs' ->
     no_approach (Server_spec.distance lat lng)
                 RiskZoneRow.radius_meters zs ->
     (forall z, In z zs -> Server_spec.no_zero_override hour z) ->
     ties_share_level (Server_spec.distance lat lng)
                      RiskZoneRow.radius_meters (Server_spec.weighted hour)
                      RiskZoneRow.risk_level zs ->
     Server.level (Server.evaluate hour lat lng zs) =
     Server.level (Server.evaluate hour lat lng zs') /\
     Server.score (Server.evaluate hour lat lng zs) =
     Server.score (Server.evaluate hour lat lng zs')) /\
  (forall zs zs' : list RiskZone.t,
     Permutation zs zs' ->
     no_approach (Client_spec.distance lat lng) RiskZone.radius_meters zs ->
     (forall z, In z zs -> Client_spec.no_zero_override hour z) ->
     ties_share_level (Client_spec.distance lat lng)
                      RiskZone.radius_meters (Client_spec.weighted hour)
                      RiskZone.risk_level zs ->
     Client.level (Client.checkRiskAtLocation zs hour lat lng) =
     Client.level (Client.checkRiskAtLocation zs' hour lat lng) /\
     Client.score (Client.checkRiskAtLocation zs hour lat lng) =
     Client.score (Client.checkRiskAtLocation zs' hour lat lng)).
Proof.
  split; intros zs zs' P Hn Hz Ht.
  - apply server_evaluate_perm; [ exact P | exact Hn | ].
    intros x y Hx Hy Cx Cy E. apply (Ht x y Hx Hy Cx Cy).
    rewrite <- !server_weighted_timeRisk by auto. exact E.
  - apply client_evaluate_perm; [ exact P | exact Hn | ].
    intros x y Hx Hy Cx Cy E. apply (Ht x y Hx Hy Cx Cy).
    rewrite <- !client_weighted_timeRisk by auto. exact E.
Qed.

(** The amended C2 on two zones around the point, by day: [near] holds no
    override and weighs 0.3, [industrial] holds the day override 0.6. *)
Lemma order_independent_without_approach_witness :
  Permutation [Sample.near; Sample.industrial]
              [Sample.industrial; Sample.near] /\
  no_approach (Server_spec.distance 0 0) RiskZoneRow.radius_meters
              [Sample.near; Sample.industrial] /\
  (forall z, In z [Sample.near; Sample.industrial] ->
             Server_spec.no_zero_override 12 z) /\
  ties_share_level (Server_spec.distance 0 0) RiskZoneRow.radius_meters
                   (Server_spec.weighted 12) RiskZoneRow.risk_level
                   [Sample.near; Sample.industrial] /\
  Server.level (Server.evaluate 12 0 0 [Sample.near; Sample.industrial]) =
  Server.level (Server.evaluate 12 0 0 [Sample.industrial; Sample.near]) /\
  Server.score (Server.evaluate 12 0 0 [Sample.near; Sample.industrial]) =
  Server.score (Server.evaluate 12 0 0 [Sample.industrial; Sample.near]).
Proof.
  assert (P : Permutation [Sample.near; Sample.industrial]
                          [Sample.industrial; Sample.near])
    by apply perm_swap.
  assert (Hn : no_approach (Server_spec.distance 0 0)
                 RiskZoneRow.radius_meters
                 [Sample.near; Sample.industrial]).
  { intros z [<- | [<- | []]]; unfold Spec.approaches;
      [ unfold Sample.near | unfold Sample.industrial ];
      rewrite distance_sample_row; simpl; lra. }
  assert (Hz : forall z, In z [Sample.near; Sample.industrial] ->
                         Server_spec.no_zero_override 12 z).
  { intros z [<- | [<- | []]] m Hm; injection Hm as <-; simpl.
    - discriminate.
    - intro E. injection E as E. lra. }
  assert (W1 : Server_spec.weighted 12 Sample.near = 0.3) by reflexivity.
  assert (W2 : Server_spec.weighted 12 Sample.industrial = 0.6)
    by reflexivity.
  assert (Ht : ties_share_level (Server_spec.distance 0 0)
                 RiskZoneRow.radius_meters (Server_spec.weighted 12)
                 RiskZoneRow.risk_level
                 [Sample.near; Sample.industrial]).
  { intros x y [<- | [<- | []]] [<- | [<- | []]] _ _;
      rewrite ?W1, ?W2;
      intro E; try reflexivity; exfalso; lra. }
  split; [ exact P | ]. split; [ exact Hn | ]. split; [ exact Hz | ].
  split; [ exact Ht | ].
  exact (proj1 (order_independent_without_approach 12 0 0) _ _ P Hn Hz Ht).
Defined.

(** *** A row without a time-of-day mapping *)

(** C3, at the failing input: the store holds a row whose
    [time_of_day_risk] is null, around (0, 0) with radius 1000 m, level
    at_risk and base score 0.5, and the point is (0, 0).  The client's
    [checkRiskAtLocation], which receives the rows through an unchecked
    cast, throws on [zone.time_of_day_risk[timeOfDay]]; the endpoint's
    loop, which reads the mapping with [?.], returns the zone with its
    level and its base score. *)
Theorem client_throws_where_endpoint_answers :
  RiskZoneRow.time_of_day_risk Sample.tie_at_risk = None /\
  ClientRows.checkRiskAtLocation [Sample.tie_at_risk] 12 0 0 = None /\
  Server.evaluate 12 0 0 [Sample.tie_at_risk] =
    Server.mkRisk at_risk 0.5 (Some Sample.tie_at_risk) true.
Proof.
  split; [ reflexivity | ]. split.
  - unfold ClientRows.checkRiskAtLocation. cbn [fold_left].
    unfold ClientRows.loop_body.
    change (RiskZoneRow.latitude Sample.tie_at_risk) with 0.
    change (RiskZoneRow.longitude Sample.tie_at_risk) with 0.
    rewrite getDistanceFromLatLonInKm_same.
    rewrite (proj2 (leb_true _ _)) by (simpl; lra).
    reflexivity.
  - assert (T : Server.timeRisk 12 Sample.tie_at_risk = 0.5)
      by reflexivity.
    unfold Server.evaluate. cbn [fold_left].
    rewrite loop_body_inside_higher;
      [ rewrite T; reflexivity
      | unfold Sample.tie_at_risk; rewrite distance_sample_row; simpl; lra
      | rewrite T; simpl; lra ].
Qed.

(** *** The auto-alert gate *)

Lemma truthy_str_true (userId : option string) :
  JS.truthy_str userId = true <->
  exists u, userId = Some u /\ u <> EmptyString.
Proof.
  unfold JS.truthy_str. destruct userId as [u | ].
  - destruct (String.eqb_spec u EmptyString) as [E | E]; simpl; split.
    + discriminate.
    + intros (v & Hv & Hne). injection Hv as <-. contradiction.
    + intros _. exists u. auto.
    + reflexivity.
  - split; [ discriminate | intros (u & Hu & _); discriminate ].
Qed.

(** The block either sends nothing, or the gate is open and the first
    write is the insert of the incident. *)
Lemma auto_alert_cases (store : Store) (latitude longitude : R)
    (userId : option string) (h : Server.HighestRisk) :
  (CheckRiskZone.auto_alert store latitude longitude userId h = [] /\
   ~ (Server.inZone h = true /\ Server.level h = emergency /\
      preference_is_true store userId)) \/
  (Server.inZone h = true /\ Server.level h = emergency /\
   preference_is_true store userId /\
   exists u rest,
     userId = Some u /\
     CheckRiskZone.auto_alert store latitude longitude userId h =
     InsertIncident
       (Incident.mkFields u latitude longitude risk_zone_entry
          (RiskLevel_string (Server.level h)) pending
          (Some ("Auto-alert: Entered " ++
                 JS.str_or_else (CheckRiskZone.zone_name h)
                                "high-risk zone")%string))
     :: rest /\
     forall f, ~ In (InsertIncident f) rest).
Proof.
  unfold CheckRiskZone.auto_alert, preference_is_true.
  destruct (Server.inZone h) eqn:Hin; simpl;
    [ | left; split; [ reflexivity | intros (A & _); discriminate ]].
  destruct (RiskLevel_eqb (Server.level h) emergency) eqn:Hl; simpl.
  2:{ left. split; [ reflexivity | ]. intros (_ & A & _).
      apply RiskLevel_eqb_eq in A. congruence. }
  apply RiskLevel_eqb_eq in Hl.
  destruct (JS.truthy_str userId) eqn:Hu.
  2:{ left. split; [ reflexivity | ]. intros (_ & _ & A).
      assert (T : JS.truthy_str userId = true).
      { apply truthy_str_true.
        destruct A as (u & A1 & A2 & _). exists u. auto. }
      congruence. }
  apply truthy_str_true in Hu. destruct Hu as (u & -> & Hne).
  destruct (data (select_auto_alert_on_risk_zone store u))
    as [[[ | ] | ] | ] eqn:Hp.
  - right. repeat split; auto.
    + exists u. auto.
    + eexists u, _. split; [ reflexivity | ]. split; [ reflexivity | ].
      intros f Hf.
      destruct (data (insert_incident store _)); [ | contradiction ].
      destruct (data (select_emergency_contacts store u)) as [[ | c cs] | ];
        try contradiction.
      destruct Hf as [Hf | []]. discriminate.
  - left. split; [ reflexivity | ]. intros (_ & _ & v & Hv & _ & A).
    injection Hv as <-. congruence.
  - left. split; [ reflexivity | ]. intros (_ & _ & v & Hv & _ & A).
    injection Hv as <-. congruence.
  - left. split; [ reflexivity | ]. intros (_ & _ & v & Hv & _ & A).
    injection Hv as <-. congruence.
Qed.

(** What the risk check answers once the zones are read. *)
Lemma check_risk_zone_handler_ok (store : Store) (hour : Z)
    (m : string) (body : RiskCheckRequest) :
  String.eqb m "OPTIONS" = false ->
  error (select_risk_zones store) = None ->
  let h := Server.evaluate hour (rc_latitude body) (rc_longitude body)
                           (fetched_zones store) in
  CheckRiskZone.handler store hour (mkRequest m (inl body)) =
  (RiskResult
     (mkRiskBody (Server.level h) (Server.score h) (Server.inZone h)
        (JS.str_or_null (CheckRiskZone.zone_name h))
        (JS.str_or_null (CheckRiskZone.zone_description h))
        (List.length (fetched_zones store))),
   CheckRiskZone.auto_alert store (rc_latitude body) (rc_longitude body)
                            (rc_userId body) h).
Proof.
  intros Hm He. unfold CheckRiskZone.handler, fetched_zones. simpl.
  rewrite Hm, He.
  destruct (data (select_risk_zones store)); reflexivity.
Qed.

(** C5. For every request the endpoint evaluates (not a preflight, a body
    that parses, zones fetched without error), an incident is inserted if
    and only if the result is inside a zone, its level is emergency and
    the request names a user whose stored [auto_alert_on_risk_zone] is
    true; otherwise nothing is written and the answer is the evaluation
    result. *)
Theorem auto_alert_gate (store : Store) (hour : Z) (m : string)
    (body : RiskCheckRequest) :
  String.eqb m "OPTIONS" = false ->
  error (select_risk_zones store) = None ->
  let h := Server.evaluate hour (rc_latitude body) (rc_longitude body)
                           (fetched_zones store) in
  let answer := CheckRiskZone.handler store hour (mkRequest m (inl body)) in
  (creates_incident (snd answer) <->
   Server.inZone h = true /\ Server.level h = emergency /\
   preference_is_true store (rc_userId body)) /\
  (~ creates_incident (snd answer) ->
   snd answer = [] /\ exists b, fst answer = RiskResult b).
Proof.
  intros Hm He h answer. subst answer.
  rewrite (check_risk_zone_handler_ok store hour m body Hm He).
  fold h. cbn [fst snd].
  destruct (auto_alert_cases store (rc_latitude body) (rc_longitude body)
              (rc_userId body) h)
    as [[E Hno] | (H1 & H2 & H3 & u & rest & Hu & E & _)];
    rewrite E; unfold creates_incident.
  - split.
    + split; [ intros (f & []) | intro; contradiction ].
    + intros _. split; [ reflexivity | eexists; reflexivity ].
  - split.
    + split; [ auto | ]. intros _. eexists. left. reflexivity.
    + intro Hn. exfalso. apply Hn. eexists. left. reflexivity.
Qed.

(** The gate opens: at 22 h the point (0, 0) is inside [industrial], an
    emergency zone, and the user's stored preference is true. *)
Lemma auto_alert_gate_witness :
  String.eqb "POST" "OPTIONS" = false /\
  error (select_risk_zones (SampleStore.healthy [Sample.industrial])) = None /\
  creates_incident
    (snd (CheckRiskZone.handler (SampleStore.healthy [Sample.industrial]) 22
            SampleStore.risk_request)).
Proof.
  split; [ reflexivity | ]. split; [ reflexivity | ].
  apply (proj1 (auto_alert_gate (SampleStore.healthy [Sample.industrial]) 22
                  "POST" SampleStore.risk_body eq_refl eq_refl)).
  change (fetched_zones (SampleStore.healthy [Sample.industrial]))
    with [Sample.industrial].
  change (rc_latitude SampleStore.risk_body) with 0.
  change (rc_longitude SampleStore.risk_body) with 0.
  rewrite evaluate_industrial_night.
  split; [ reflexivity | ]. split; [ reflexivity | ].
  exists SampleStore.user.
  split; [ reflexivity | ]. split; [ discriminate | reflexivity ].
Defined.

(** *** Alert fan-out *)

Lemma sos_alertsToCreate_map (store : Store) (body : SOSRequest)
    (incident : Incident.row) :
  SendSosAlert.alertsToCreate incident
    (emergencyMessage (sos_userName body) (sos_latitude body)
       (sos_longitude body) (sos_riskLevel body) (toISOString store 0))
    (policeMessage (sos_userName body) (sos_latitude body)
       (sos_longitude body) (sos_riskLevel body) (toISOString store 1))
    (sos_latitude body) (sos_longitude body)
    (data (select_emergency_contacts store (sos_userId body))) =
  map (sos_contact_alert store body incident)
      (fetched_contacts store (sos_userId body))
  ++ [sos_authority_alert store body incident].
Proof.
  unfold SendSosAlert.alertsToCreate, fetched_contacts.
  destruct (data (select_emergency_contacts store (sos_userId body)))
    as [[ | c cs] | ]; reflexivity.
Qed.

(** What the SOS endpoint does once the incident is inserted. *)
Lemma sos_handler_ok (store : Store) (m : string) (body : SOSRequest)
    (incident : Incident.row) :
  String.eqb m "OPTIONS" = false ->
  insert_incident store (sos_incident body) = mkReply (Some incident) None ->
  let batch :=
    map (sos_contact_alert store body incident)
        (fetched_contacts store (sos_userId body))
    ++ [sos_authority_alert store body incident] in
  SendSosAlert.handler store (mkRequest m (inl body)) =
  (SOSResult (mkSOSBody true (Incident.id incident) (List.length batch)
                        "Emergency alerts dispatched successfully"),
   [InsertIncident (sos_incident body); InsertAlerts batch]).
Proof.
  intros Hm Hi. unfold SendSosAlert.handler. simpl. rewrite Hm.
  fold (sos_incident body). rewrite Hi. simpl.
  rewrite sos_alertsToCreate_map. reflexivity.
Qed.

Lemma filter_authority_contacts (store : Store) (body : SOSRequest)
    (incident : Incident.row) (cs : list Contact.t) :
  filter is_authority_alert (map (sos_contact_alert store body incident) cs)
  = [].
Proof. induction cs as [ | c cs IH]; simpl; auto. Qed.

(** A batch sent by the auto-alert block is one alert per contact of the
    user, none of them for the authorities. *)
Lemma auto_alert_batch (store : Store) (latitude longitude : R)
    (userId : option string) (h : Server.HighestRisk)
    (batch : list Alert.fields) :
  In batch
     (alert_batches
        (CheckRiskZone.auto_alert store latitude longitude userId h)) ->
  exists u incident message,
    userId = Some u /\
    alert_batches
      (CheckRiskZone.auto_alert store latitude longitude userId h) = [batch]
    /\ batch =
       map (fun contact =>
              Alert.mkFields (Incident.id incident)
                             (Some (Contact.id contact)) false message
                             latitude longitude)
           (fetched_contacts store u).
Proof.
  unfold CheckRiskZone.auto_alert, fetched_contacts. intro Hb.
  destruct (Server.inZone h && RiskLevel_eqb (Server.level h) emergency
            && JS.truthy_str userId); [ | contradiction ].
  destruct userId as [u | ]; [ | contradiction ].
  destruct (data (select_auto_alert_on_risk_zone store u))
    as [[[ | ] | ] | ]; try contradiction.
  cbn [alert_batches flat_map app] in *.
  destruct (data (insert_incident store _)) as [incident | ];
    [ | contradiction ].
  destruct (data (select_emergency_contacts store u)) as [[ | c cs] | ]
    eqn:Hc; try contradiction.
  cbn [flat_map app] in *. destruct Hb as [<- | Hb]; [ | contradiction ].
  eexists u, incident, _. rewrite Hc. split; [ reflexivity | ].
  split; reflexivity.
Qed.

(** Once the gate is open, the incident row returned and contacts read,
    the block sends the incident and one batch of alerts, one per
    contact. *)
Lemma auto_alert_sends_batch (store : Store) (latitude longitude : R)
    (u : string) (h : Server.HighestRisk) (incident : Incident.row)
    (c : Contact.t) (cs : list Contact.t) :
  Server.inZone h = true ->
  Server.level h = emergency ->
  u <> EmptyString ->
  data (select_auto_alert_on_risk_zone store u) = Some (Some true) ->
  data (insert_incident store (auto_incident latitude longitude u h))
    = Some incident ->
  data (select_emergency_contacts store u) = Some (c :: cs) ->
  CheckRiskZone.auto_alert store latitude longitude (Some u) h =
  [InsertIncident (auto_incident latitude longitude u h);
   InsertAlerts
     (map (auto_contact_alert store latitude longitude u h incident)
          (c :: cs))].
Proof.
  intros Hin Hl Hu Hp Hi Hc. unfold CheckRiskZone.auto_alert.
  rewrite Hin.
  rewrite (proj2 (RiskLevel_eqb_eq _ _) Hl).
  assert (T : JS.truthy_str (Some u) = true).
  { apply truthy_str_true. exists u. auto. }
  rewrite T. cbn [andb]. rewrite Hp.
  fold (auto_incident latitude longitude u h). rewrite Hi, Hc.
  reflexivity.
Qed.

Lemma filter_authority_auto (store : Store) (latitude longitude : R)
    (u : string) (h : Server.HighestRisk) (incident : Incident.row)
    (cs : list Contact.t) :
  filter is_authority_alert
    (map (auto_contact_alert store latitude longitude u h incident) cs)
  = [].
Proof. induction cs as [ | c cs IH]; simpl; auto. Qed.

(** C6. SOS: once the incident is inserted, the endpoint sends one batch
    of alerts, holding one alert per contact of the user, in order, and
    after them exactly one alert of the authorities ([contact_id] null,
    [sent_to_police] true); every alert carries the id of the incident and
    its location.  Auto risk-zone alert: when the gate is open, the
    incident row is returned and the user has contacts, the risk check
    sends after the incident one batch of alerts, holding one alert per
    contact, in order, and no alert of the authorities, every alert with
    the id of the incident and the evaluated location; and whatever the
    store answers, a batch the block sends is the only one, holds one
    alert per contact, none with [sent_to_police] true or without
    contact. *)
Theorem alert_fan_out :
  (forall (store : Store) (m : string) (body : SOSRequest)
          (incident : Incident.row),
     String.eqb m "OPTIONS" = false ->
     insert_incident store (sos_incident body)
       = mkReply (Some incident) None ->
     exists batch,
       snd (SendSosAlert.handler store (mkRequest m (inl body))) =
         [InsertIncident (sos_incident body); InsertAlerts batch] /\
       batch = map (sos_contact_alert store body incident)
                   (fetched_contacts store (sos_userId body))
               ++ [sos_authority_alert store body incident] /\
       map Alert.contact_id batch =
         map (fun c => Some (Contact.id c))
             (fetched_contacts store (sos_userId body)) ++ [None] /\
       filter is_authority_alert batch =
         [sos_authority_alert store body incident] /\
       Alert.contact_id (sos_authority_alert store body incident) = None /\
       Alert.sent_to_police (sos_authority_alert store body incident) = true
       /\
       Forall (fun a =>
                 Alert.incident_id a = Incident.id incident /\
                 Alert.latitude a = Incident.latitude (sos_incident body) /\
                 Alert.longitude a = Incident.longitude (sos_incident body))
              batch) /\
  (forall (store : Store) (hour : Z) (m : string)
          (body : RiskCheckRequest) (u : string)
          (incident : Incident.row) (c : Contact.t) (cs : list Contact.t),
     String.eqb m "OPTIONS" = false ->
     error (select_risk_zones store) = None ->
     let latitude := rc_latitude body in
     let longitude := rc_longitude body in
     let h := Server.evaluate hour latitude longitude
                              (fetched_zones store) in
     Server.inZone h = true ->
     Server.level h = emergency ->
     rc_userId body = Some u ->
     u <> EmptyString ->
     data (select_auto_alert_on_risk_zone store u) = Some (Some true) ->
     data (insert_incident store (auto_incident latitude longitude u h))
       = Some incident ->
     data (select_emergency_contacts store u) = Some (c :: cs) ->
     exists batch,
       snd (CheckRiskZone.handler store hour (mkRequest m (inl body))) =
         [InsertIncident (auto_incident latitude longitude u h);
          InsertAlerts batch] /\
       batch =
         map (auto_contact_alert store latitude longitude u h incident)
             (c :: cs) /\
       map Alert.contact_id batch =
         map (fun c => Some (Contact.id c)) (c :: cs) /\
       filter is_authority_alert batch = [] /\
       Forall (fun a =>
                 Alert.incident_id a = Incident.id incident /\
                 Alert.sent_to_police a = false /\
                 Alert.latitude a = latitude /\
                 Alert.longitude a = longitude)
              batch) /\
  (forall (store : Store) (latitude longitude : R)
          (userId : option string) (h : Server.HighestRisk)
          (batch : list Alert.fields),
     In batch
        (alert_batches
           (CheckRiskZone.auto_alert store latitude longitude userId h)) ->
     alert_batches
       (CheckRiskZone.auto_alert store latitude longitude userId h)
       = [batch] /\
     (exists u, userId = Some u /\
        map Alert.contact_id batch =
        map (fun c => Some (Contact.id c)) (fetched_contacts store u)) /\
     Forall (fun a =>
               is_authority_alert a = false /\
               Alert.sent_to_police a = false /\
               Alert.latitude a = latitude /\
               Alert.longitude a = longitude)
            batch).
Proof.
  split; [ | split ].
  - intros store m body incident Hm Hi.
    rewrite (sos_handler_ok store m body incident Hm Hi). cbn [snd].
    eexists. split; [ reflexivity | ]. split; [ reflexivity | ].
    split; [ | split; [ | split; [ | split ]]].
    + rewrite map_app, map_map. reflexivity.
    + rewrite filter_app, filter_authority_contacts. reflexivity.
    + reflexivity.
    + reflexivity.
    + apply Forall_app. split.
      * apply Forall_forall. intros a Ha.
        apply in_map_iff in Ha. destruct Ha as (c & <- & _).
        repeat split.
      * constructor; [ repeat split | constructor ].
  - intros store hour m body u incident c cs Hm He latitude longitude h
           Hin Hl Hu Hne Hp Hi Hc.
    rewrite (check_risk_zone_handler_ok store hour m body Hm He).
    cbn [snd]. fold latitude longitude h. rewrite Hu.
    rewrite (auto_alert_sends_batch store latitude longitude u h incident
               c cs Hin Hl Hne Hp Hi Hc).
    eexists. split; [ reflexivity | ]. split; [ reflexivity | ].
    split; [ | split ].
    + rewrite map_map. reflexivity.
    + apply filter_authority_auto.
    + apply Forall_forall. intros a Ha.
      apply in_map_iff in Ha. destruct Ha as (x & <- & _).
      repeat split.
  - intros store latitude longitude userId h batch Hb.
    destruct (auto_alert_batch _ _ _ _ _ _ Hb)
      as (u & incident & message & Hu & Hone & ->).
    split; [ exact Hone | ]. split.
    + exists u. split; [ exact Hu | ]. rewrite map_map. reflexivity.
    + apply Forall_forall. intros a Ha.
      apply in_map_iff in Ha. destruct Ha as (c & <- & _).
      repeat split.
Qed.

(** An SOS of a user with two contacts: three alerts in one batch, the
    last one of the authorities.  A risk check at 22 h from inside
    [industrial] by the same user, whose preference is true: the incident
    and one batch of two alerts, one per contact. *)
Lemma alert_fan_out_witness :
  (String.eqb "POST" "OPTIONS" = false /\
   insert_incident (SampleStore.healthy [])
                   (sos_incident SampleStore.sos_body)
     = mkReply (Some (Incident.mkRow "incident-1")) None /\
   exists batch,
     snd (SendSosAlert.handler (SampleStore.healthy [])
            SampleStore.sos_request) =
       [InsertIncident (sos_incident SampleStore.sos_body);
        InsertAlerts batch] /\
     map Alert.contact_id batch = [Some "c1"; Some "c2"; None]%string) /\
  (Server.evaluate 22 0 0 [Sample.industrial] =
     Server.mkRisk emergency 0.95 (Some Sample.industrial) true /\
   exists f batch,
     snd (CheckRiskZone.handler (SampleStore.healthy [Sample.industrial])
            22 SampleStore.risk_request) =
       [InsertIncident f; InsertAlerts batch] /\
     map Alert.contact_id batch = [Some "c1"; Some "c2"]%string /\
     map Alert.sent_to_police batch = [false; false] /\
     filter is_authority_alert batch = []).
Proof.
  split.
  - split; [ reflexivity | ]. split; [ reflexivity | ].
    destruct (proj1 alert_fan_out (SampleStore.healthy []) "POST"%string
                SampleStore.sos_body (Incident.mkRow "incident-1")
                eq_refl eq_refl)
      as (batch & Hw & _ & Hc & _).
    exists batch. split; [ exact Hw | exact Hc ].
  - split; [ exact evaluate_industrial_night | ].
    assert (E := evaluate_industrial_night).
    destruct (proj1 (proj2 alert_fan_out)
                (SampleStore.healthy [Sample.industrial]) 22%Z "POST"%string
                SampleStore.risk_body SampleStore.user
                (Incident.mkRow "incident-1")
                (Contact.mk "c1" SampleStore.user "Asha" "+91-11-5550-0101")
                [Contact.mk "c2" SampleStore.user "Ravi" "+91-11-5550-0102"]
                eq_refl eq_refl)
      as (batch & Hw & Hb & Hc & Hf & _).
    + change (fetched_zones (SampleStore.healthy [Sample.industrial]))
        with [Sample.industrial].
      change (rc_latitude SampleStore.risk_body) with 0.
      change (rc_longitude SampleStore.risk_body) with 0.
      rewrite E. reflexivity.
    + change (fetched_zones (SampleStore.healthy [Sample.industrial]))
        with [Sample.industrial].
      change (rc_latitude SampleStore.risk_body) with 0.
      change (rc_longitude SampleStore.risk_body) with 0.
      rewrite E. reflexivity.
    + reflexivity.
    + discriminate.
    + reflexivity.
    + reflexivity.
    + reflexivity.
    + eexists _, batch. split; [ exact Hw | ].
      split; [ exact Hc | ]. split; [ | exact Hf ].
      rewrite Hb. reflexivity.
Defined.

(** *** Failing writes *)

(** C7, as stated, fails: the insert of the alert batch is answered with
    an error and the SOS endpoint still answers with success. *)
Lemma failed_alert_write_answered_with_success :
  ~ (forall (store : Store) (req : Request SOSRequest),
       some_write_failed store (snd (SendSosAlert.handler store req)) ->
       is_failure (fst (SendSosAlert.handler store req))).
Proof.
  intro H.
  destruct (H (SampleStore.alerts_down []) SampleStore.sos_request)
    as (msg & Hm).
  - eexists. split; [ right; left; reflexivity | ].
    simpl. discriminate.
  - discriminate Hm.
Qed.

(** The answer at that input. *)
Lemma sos_answer_when_alerts_down :
  fst (SendSosAlert.handler (SampleStore.alerts_down [])
         SampleStore.sos_request) =
  SOSResult (mkSOSBody true "incident-1" 3
                       "Emergency alerts dispatched successfully").
Proof. reflexivity. Qed.

(** In the risk check a failed insert of the incident is not surfaced
    either. *)
Lemma risk_check_answer_when_incidents_down :
  some_write_failed (SampleStore.incidents_down [Sample.industrial])
    (snd (CheckRiskZone.handler
            (SampleStore.incidents_down [Sample.industrial]) 22
            SampleStore.risk_request)) /\
  exists b,
    fst (CheckRiskZone.handler
           (SampleStore.incidents_down [Sample.industrial]) 22
           SampleStore.risk_request) = RiskResult b.
Proof.
  unfold SampleStore.risk_request.
  rewrite (check_risk_zone_handler_ok
             (SampleStore.incidents_down [Sample.industrial]) 22 "POST"
             SampleStore.risk_body eq_refl eq_refl).
  cbn [fst snd]. split; [ | eexists; reflexivity ].
  change (fetched_zones (SampleStore.incidents_down [Sample.industrial]))
    with [Sample.industrial].
  change (rc_latitude SampleStore.risk_body) with 0.
  change (rc_longitude SampleStore.risk_body) with 0.
  rewrite evaluate_industrial_night.
  eexists. split; [ left; reflexivity | ]. simpl. discriminate.
Qed.

Lemma sos_handler_incident_error (store : Store) (m : string)
    (body : SOSRequest) (e : Thrown) :
  String.eqb m "OPTIONS" = false ->
  error (insert_incident store (sos_incident body)) = Some e ->
  SendSosAlert.handler store (mkRequest m (inl body)) =
  (Failure (error_message e), [InsertIncident (sos_incident body)]).
Proof.
  intros Hm He. unfold SendSosAlert.handler. simpl. rewrite Hm.
  fold (sos_incident body). rewrite He. reflexivity.
Qed.

(** C7, amended.  In the SOS endpoint a failed insert of the incident is
    answered with a failure (status 500) and nothing else is written; the
    text of the failure is the message of the error when the error is an
    [Error] and ['Unknown error'] when it is any other value, a plain
    error object included.  The answer and the writes of the SOS endpoint
    do not depend on what the store answers to the insert of the alerts;
    the answer of the risk check does not depend on what the store answers
    to either write. *)
Theorem write_failure_handling (store : Store) :
  (forall (m : string) (body : SOSRequest) (e : Thrown),
     String.eqb m "OPTIONS" = false ->
     error (insert_incident store (sos_incident body)) = Some e ->
     is_failure (fst (SendSosAlert.handler store (mkRequest m (inl body))))
     /\
     snd (SendSosAlert.handler store (mkRequest m (inl body))) =
       [InsertIncident (sos_incident body)] /\
     (e = OtherValue ->
      fst (SendSosAlert.handler store (mkRequest m (inl body))) =
        Failure "Unknown error") /\
     (forall msg, e = ErrorObject msg ->
      fst (SendSosAlert.handler store (mkRequest m (inl body))) =
        Failure msg)) /\
  (forall (req : Request SOSRequest)
          (alerts : list Alert.fields -> Reply unit),
     SendSosAlert.handler
       (with_writes store (insert_incident store) alerts) req =
     SendSosAlert.handler store req) /\
  (forall (hour : Z) (req : Request RiskCheckRequest)
          (incidents : Incident.fields -> Reply Incident.row)
          (alerts : list Alert.fields -> Reply unit),
     fst (CheckRiskZone.handler (with_writes store incidents alerts)
                                hour req) =
     fst (CheckRiskZone.handler store hour req)).
Proof.
  split; [ | split ].
  - intros m body e Hm He.
    rewrite (sos_handler_incident_error store m body e Hm He).
    cbn [fst snd]. split; [ eexists; reflexivity | ].
    split; [ reflexivity | ].
    split; [ intros -> | intros msg -> ]; reflexivity.
  - intros req alerts. reflexivity.
  - intros hour req incidents alerts.
    unfold CheckRiskZone.handler, with_writes. simpl.
    destruct (String.eqb (method req) "OPTIONS"); [ reflexivity | ].
    destruct (json req); [ | reflexivity ].
    destruct (error (select_risk_zones store)); reflexivity.
Qed.

(** An SOS against a store whose insert into [incidents] is answered with
    a plain error object: status 500 with the text ['Unknown error'], and
    no alert written. *)
Lemma write_failure_handling_witness :
  String.eqb "POST" "OPTIONS" = false /\
  error (insert_incident (SampleStore.incidents_rejected [])
                         (sos_incident SampleStore.sos_body))
    = Some OtherValue /\
  SendSosAlert.handler (SampleStore.incidents_rejected [])
    SampleStore.sos_request =
  (Failure "Unknown error",
   [InsertIncident (sos_incident SampleStore.sos_body)]).
Proof.
  split; [ reflexivity | ]. split; [ reflexivity | ].
  destruct (proj1 (write_failure_handling (SampleStore.incidents_rejected []))
              "POST"%string SampleStore.sos_body OtherValue
              eq_refl eq_refl)
    as (_ & Hw & Hu & _).
  apply injective_projections; cbn [fst snd].
  - exact (Hu eq_refl).
  - exact Hw.
Defined.

(** *** The count of zones in the answer *)

(** C10. Whenever the risk check answers with a result, [nearbyZones] is
    the number of zones fetched from the store (0 when the store gave
    [null]), whatever the point. *)
Theorem nearbyZones_counts_fetched_zones (store : Store) (hour : Z)
    (req : Request RiskCheckRequest) (b : RiskBody) (writes : list Write) :
  CheckRiskZone.handler store hour req = (RiskResult b, writes) ->
  nearbyZones b = List.length (fetched_zones store).
Proof.
  unfold CheckRiskZone.handler, fetched_zones.
  destruct (String.eqb (method req) "OPTIONS"); [ discriminate | ].
  destruct (json req) as [body | e]; [ | discriminate ].
  destruct (error (select_risk_zones store)); [ discriminate | ].
  intro H. injection H as <- _.
  destruct (data (select_risk_zones store)); reflexivity.
Qed.

(** Two zones are fetched, the point (0, 180) with no user: the count is
    2. *)
Lemma nearbyZones_counts_fetched_zones_witness :
  exists b writes,
    CheckRiskZone.handler (SampleStore.healthy [Sample.near; Sample.industrial])
      12 (mkRequest "POST" (inl (mkRiskCheckRequest 0 180 None)))
    = (RiskResult b, writes) /\
    nearbyZones b = 2%nat.
Proof.
  eexists _, _.
  assert (E := check_risk_zone_handler_ok
                 (SampleStore.healthy [Sample.near; Sample.industrial]) 12
                 "POST" (mkRiskCheckRequest 0 180 None) eq_refl eq_refl).
  cbv zeta in E. split; [ exact E | ].
  exact (nearbyZones_counts_fetched_zones _ _ _ _ _ E).
Defined.

(** The zone selected at (0, 0) among [near] and [far] is [near]. *)
Lemma selected_zone_is_member_witness :
  Server.zone (Server.evaluate 12 0 0 [Sample.near]) = Some Sample.near /\
  In Sample.near ([Sample.near] ++ [Sample.far]).
Proof.
  assert (E : Server.zone (Server.evaluate 12 0 0 [Sample.near])
              = Some Sample.near).
  { rewrite evaluate_near. reflexivity. }
  split; [ exact E | ].
  exact (proj1 (selected_zone_is_member 12 0 0) _ _ _ E).
Defined.

(** * Further properties of the code *)

(** *** The range of the distance, in real arithmetic *)

Lemma atan2_quadrant (y x : R) :
  0 <= y -> 0 <= x -> 0 <= JS.atan2 y x <= PI / 2.
Proof.
  intros Hy Hx. unfold JS.atan2. pose proof PI_RGT_0 as Hpi.
  destruct (Rlt_dec 0 x) as [Hx1 | Hx1].
  - pose proof (atan_bound (y / x)) as [_ Hb].
    assert (Hq : 0 <= y / x).
    { apply Rmult_le_pos; [ exact Hy | ].
      left. apply Rinv_0_lt_compat. exact Hx1. }
    split; [ | lra ].
    destruct Hq as [Hq | <-]; [ | rewrite atan_0; lra ].
    left. rewrite <- atan_0. apply atan_increasing. exact Hq.
  - destruct (Rlt_dec x 0); [ lra | ].
    destruct (Rlt_dec 0 y); [ lra | ].
    destruct (Rlt_dec y 0); lra.
Qed.

Lemma getDistanceInMeters_range (lat1 lon1 lat2 lon2 : R) :
  0 <= getDistanceInMeters lat1 lon1 lat2 lon2 <= 6371000 * PI.
Proof.
  unfold getDistanceInMeters. cbv zeta.
  match goal with
  | |- 0 <= _ * (2 * JS.atan2 ?y ?x) <= _ =>
      pose proof (atan2_quadrant y x (sqrt_pos _) (sqrt_pos _))
  end.
  lra.
Qed.

Lemma getDistanceFromLatLonInKm_range (lat1 lon1 lat2 lon2 : R) :
  0 <= getDistanceFromLatLonInKm lat1 lon1 lat2 lon2 <= 6371 * PI.
Proof.
  pose proof (getDistanceInMeters_range lat1 lon1 lat2 lon2) as H.
  rewrite <- km_times_1000 in H. lra.
Qed.

(** X2. The distance from a point to itself is 0, in both functions. *)
Theorem distance_to_itself (lat lon : R) :
  getDistanceInMeters lat lon lat lon = 0 /\
  getDistanceFromLatLonInKm lat lon lat lon = 0.
Proof.
  split;
    [ apply getDistanceInMeters_same | apply getDistanceFromLatLonInKm_same ].
Qed.

(** *** What the fold keeps *)

Section Run_facts.
Context {Zone : Type}.
Variables (distance radius_meters risk_score weighted : Zone -> R).
Variable risk_level : Zone -> RiskLevel.

Let step := Spec.step distance radius_meters risk_score weighted risk_level.
Let run := Spec.run distance radius_meters risk_score weighted risk_level.
Let contains := Spec.contains distance radius_meters.
Let approaches := Spec.approaches distance radius_meters.
Let tells := tells_of_zone distance radius_meters risk_score weighted
                           risk_level.
Let idle := without_effect distance radius_meters risk_score weighted.

Lemma step_score_mono (r : Spec.EvaluationResult Zone) (z : Zone) :
  Spec.score r <= Spec.score (step r z).
Proof.
  subst step. unfold Spec.step. destruct r as [l s zo i]. simpl.
  compare_all; destruct l; simpl; lra.
Qed.

Lemma run_score_mono (zs : list Zone) :
  forall r, Spec.score r <= Spec.score (run r zs).
Proof.
  induction zs as [ | z zs IH]; intro r; simpl.
  - lra.
  - apply Rle_trans with (Spec.score (step r z));
      [ apply step_score_mono | apply IH ].
Qed.

Lemma step_dominates (r : Spec.EvaluationResult Zone) (z : Zone) :
  contains z -> weighted z <= Spec.score (step r z).
Proof.
  subst step contains. unfold Spec.step, Spec.contains. intro H.
  destruct (Rle_dec (distance z) (radius_meters z)); [ | contradiction ].
  destruct (Rlt_dec (Spec.score r) (weighted z)); simpl; lra.
Qed.

Lemma run_dominates (zs : list Zone) :
  forall r z, In z zs -> contains z -> weighted z <= Spec.score (run r zs).
Proof.
  induction zs as [ | x zs IH]; intros r z Hin Hc; simpl.
  - contradiction.
  - destruct Hin as [-> | Hin].
    + apply Rle_trans with (Spec.score (step r z));
        [ apply step_dominates; exact Hc | apply run_score_mono ].
    + apply IH; assumption.
Qed.

Lemma tells_score_nonneg (r : Spec.EvaluationResult Zone) :
  tells r -> 0 <= Spec.score r.
Proof.
  subst tells. unfold tells_of_zone.
  destruct (Spec.zone r); intros H; [ lra | ].
  destruct H as (_ & -> & _). lra.
Qed.

Lemma step_tells (r : Spec.EvaluationResult Zone) (z : Zone) :
  tells r -> tells (step r z).
Proof.
  intro H. pose proof (tells_score_nonneg r H) as Hs.
  subst tells step. unfold Spec.step.
  destruct (Rle_dec (distance z) (radius_meters z)) as [C | C].
  - destruct (Rlt_dec (Spec.score r) (weighted z)) as [W | W];
      [ | exact H ].
    unfold tells_of_zone, Spec.contains. simpl.
    split; [ lra | auto ].
  - destruct (Rlt_dec (radius_meters z) (distance z)) as [A | A];
      [ | exact H ].
    destruct (Rle_dec (distance z) (1.5 * radius_meters z)) as [B | B];
      [ | exact H ].
    cbv zeta.
    destruct (Rlt_dec (Spec.score r) (risk_score z * 0.5)) as [W | W];
      [ | exact H ].
    destruct (Spec.level r); try exact H.
    unfold tells_of_zone, Spec.approaches. simpl.
    split; [ lra | auto ].
Qed.

Lemma run_tells (zs : list Zone) :
  forall r, tells r -> tells (run r zs).
Proof.
  induction zs as [ | z zs IH]; intros r H; simpl.
  - exact H.
  - apply IH, step_tells, H.
Qed.

Lemma step_idle (r : Spec.EvaluationResult Zone) (z : Zone) :
  0 <= Spec.score r -> idle z -> step r z = r.
Proof.
  intros Hs [Hc Ha]. subst step idle. unfold Spec.step.
  unfold Spec.contains, Spec.approaches in *.
  destruct (Rle_dec (distance z) (radius_meters z)) as [C | C].
  - specialize (Hc C).
    destruct (Rlt_dec (Spec.score r) (weighted z)); [ lra | reflexivity ].
  - destruct (Rlt_dec (radius_meters z) (distance z)) as [A | A];
      [ | reflexivity ].
    destruct (Rle_dec (distance z) (1.5 * radius_meters z)) as [B | B];
      [ | reflexivity ].
    specialize (Ha (conj A B)). cbv zeta.
    destruct (Rlt_dec (Spec.score r) (risk_score z * 0.5));
      [ lra | reflexivity ].
Qed.

Lemma run_filter (keep : Zone -> bool) (zs : list Zone) :
  (forall z, In z zs -> keep z = false -> idle z) ->
  forall r, 0 <= Spec.score r -> run r (filter keep zs) = run r zs.
Proof.
  induction zs as [ | z zs IH]; intros H r Hr; simpl.
  - reflexivity.
  - assert (H' : forall x, In x zs -> keep x = false -> idle x)
      by (intros x Hx; apply H; right; exact Hx).
    destruct (keep z) eqn:K; simpl.
    + apply IH; [ exact H' | ].
      apply Rle_trans with (Spec.score r);
        [ exact Hr | apply step_score_mono ].
    + fold step. rewrite (step_idle r z Hr (H z (or_introl eq_refl) K)).
      apply IH; assumption.
Qed.

End Run_facts.

Lemma server_result_injective (a b : Server.HighestRisk) :
  Server_spec.result a = Server_spec.result b -> a = b.
Proof.
  destruct a, b. unfold Server_spec.result. simpl. intro H.
  injection H as -> -> -> ->. reflexivity.
Qed.

Lemma server_distance_nonneg (lat lng : R) (z : RiskZoneRow.t) :
  0 <= Server_spec.distance lat lng z.
Proof. apply getDistanceInMeters_range. Qed.

Lemma client_distance_nonneg (lat lng : R) (z : RiskZone.t) :
  0 <= Client_spec.distance lat lng z.
Proof.
  unfold Client_spec.distance. rewrite km_times_1000.
  apply getDistanceInMeters_range.
Qed.

Section Reach.
Context {Zone : Type}.
Variables (distance radius_meters risk_score weighted : Zone -> R).
Hypothesis distance_nonneg : forall z, 0 <= distance z.

Lemma out_of_reach_without_effect (z : Zone) :
  in_reach distance radius_meters z = false ->
  without_effect distance radius_meters risk_score weighted z.
Proof.
  unfold in_reach, without_effect, Spec.contains, Spec.approaches.
  intro H. pose proof (distance_nonneg z) as Hd.
  apply andb_false_iff in H. destruct H as [H | H].
  - apply leb_false in H. split; intros; exfalso; lra.
  - apply leb_false in H. split; intros; exfalso; lra.
Qed.


End Reach.

Lemma server_evaluate_tells (hour : Z) (lat lng : R)
    (zs : list RiskZoneRow.t) :
  tells_of_zone (Server_spec.distance lat lng) RiskZoneRow.radius_meters
    RiskZoneRow.risk_score (Server.timeRisk hour) RiskZoneRow.risk_level
    (Server_spec.result (Server.evaluate hour lat lng zs)).
Proof.
  rewrite server_evaluate_fold.
  apply run_tells. unfold tells_of_zone. simpl. auto.
Qed.

(** X4. The result of either evaluator is the initial one (no zone, safe,
    score 0) or carries a positive score together with the level and score
    its zone gives: for the endpoint, those of containment (the zone
    contains the point, its level, the score the loop resolves for it, [override || base
    score]) when [inZone] is set and those of approach (the zone is approached, [at_risk], half
    its base score) otherwise; for the client, one of the two. *)
Theorem result_tells_of_its_zone (hour : Z) (lat lng : R) :
  (forall zs : list RiskZoneRow.t,
     tells_of_zone (Server_spec.distance lat lng) RiskZoneRow.radius_meters
       RiskZoneRow.risk_score (Server.timeRisk hour) RiskZoneRow.risk_level
       (Server_spec.result (Server.evaluate hour lat lng zs))) /\
  (forall zs : list RiskZone.t,
     let c := Client.checkRiskAtLocation zs hour lat lng in
     match Client.zone c with
     | None => Client.level c = safe /\ Client.score c = 0
     | Some z =>
       0 < Client.score c /\
       ((Client_spec.distance lat lng z <= RiskZone.radius_meters z /\
         Client.level c = RiskZone.risk_level z /\
         Client.score c = Client.timeRisk hour z) \/
        (RiskZone.radius_meters z < Client_spec.distance lat lng z
           <= 1.5 * RiskZone.radius_meters z /\
         Client.level c = at_risk /\
         Client.score c = RiskZone.risk_score z * 0.5))
     end).
Proof.
  split; intro zs.
  - apply server_evaluate_tells.
  - cbv zeta. rewrite client_evaluate_fold.
    assert (T : tells_of_zone (Client_spec.distance lat lng)
                  RiskZone.radius_meters RiskZone.risk_score
                  (Client.timeRisk hour) RiskZone.risk_level
                  (Client_spec.loop_fold hour lat lng zs)).
    { apply run_tells. unfold tells_of_zone. simpl. auto. }
    unfold tells_of_zone in T.
    unfold Client_spec.level_score_zone.
    cbn [Client.zone Client.level Client.score].
    destruct (Spec.zone (Client_spec.loop_fold hour lat lng zs)) as [z | ].
    + destruct T as [Hs T].
      split; [ exact Hs | ].
      destruct (Spec.inside (Client_spec.loop_fold hour lat lng zs));
        [ left | right ]; exact T.
    + destruct T as (Hl & Hs & _). auto.
Qed.

(** X5. In both evaluators the returned score is at least the
    time-weighted score of every zone of the list that contains the
    point. *)
Theorem score_dominates_containing_zones (hour : Z) (lat lng : R) :
  (forall (zs : list RiskZoneRow.t) (z : RiskZoneRow.t),
     In z zs ->
     Server_spec.distance lat lng z <= RiskZoneRow.radius_meters z ->
     Server.timeRisk hour z <= Server.score (Server.evaluate hour lat lng zs))
  /\
  (forall (zs : list RiskZone.t) (z : RiskZone.t),
     In z zs ->
     Client_spec.distance lat lng z <= RiskZone.radius_meters z ->
     Client.timeRisk hour z
     <= Client.score (Client.checkRiskAtLocation zs hour lat lng)).
Proof.
  split; intros zs z Hin Hc.
  - change (Server.score (Server.evaluate hour lat lng zs))
      with (Spec.score (Server_spec.result (Server.evaluate hour lat lng zs))).
    rewrite server_evaluate_fold.
    apply (run_dominates (Server_spec.distance lat lng)); assumption.
  - rewrite client_evaluate_fold.
    apply (run_dominates (Client_spec.distance lat lng)); assumption.
Qed.

(** The score at (0, 0) among [near] and [industrial], by day, is at
    least the 0.6 of [industrial]. *)
Lemma score_dominates_containing_zones_witness :
  In Sample.industrial [Sample.near; Sample.industrial] /\
  Server_spec.distance 0 0 Sample.industrial
    <= RiskZoneRow.radius_meters Sample.industrial /\
  0.6 <= Server.score
           (Server.evaluate 12 0 0 [Sample.near; Sample.industrial]).
Proof.
  assert (I : In Sample.industrial [Sample.near; Sample.industrial])
    by (right; left; reflexivity).
  assert (D : Server_spec.distance 0 0 Sample.industrial
              <= RiskZoneRow.radius_meters Sample.industrial).
  { unfold Sample.industrial. rewrite distance_sample_row. simpl. lra. }
  split; [ exact I | ]. split; [ exact D | ].
  rewrite <- timeRisk_industrial_day.
  exact (proj1 (score_dominates_containing_zones 12 0 0) _ _ I D).
Defined.

(** X6. Zones with a negative radius, and zones the point is farther from
    than 1.5 times their radius, never change the result: either
    evaluator returns the same on the list without them. *)
Theorem zones_out_of_reach_are_ignored (hour : Z) (lat lng : R) :
  (forall zs : list RiskZoneRow.t,
     Server.evaluate hour lat lng
       (filter (in_reach (Server_spec.distance lat lng)
                         RiskZoneRow.radius_meters) zs) =
     Server.evaluate hour lat lng zs) /\
  (forall zs : list RiskZone.t,
     Client.checkRiskAtLocation
       (filter (in_reach (Client_spec.distance lat lng)
                         RiskZone.radius_meters) zs) hour lat lng =
     Client.checkRiskAtLocation zs hour lat lng).
Proof.
  split; intro zs.
  - apply server_result_injective. rewrite !server_evaluate_fold.
    apply run_filter; [ | simpl; lra ].
    intros z _. apply out_of_reach_without_effect.
    apply server_distance_nonneg.
  - rewrite !client_evaluate_fold. f_equal.
    apply run_filter; [ | simpl; lra ].
    intros z _. apply out_of_reach_without_effect.
    apply client_distance_nonneg.
Qed.


(** *** Speed *)

Lemma Math_round_bounds (x : R) :
  IZR (Math_round x) <= x + 0.5 < IZR (Math_round x) + 1.
Proof.
  unfold Math_round. destruct (base_Int_part (x + 0.5)) as [H1 H2]. lra.
Qed.

Lemma Math_round_nonneg (x : R) : 0 <= x -> (0 <= Math_round x)%Z.
Proof.
  intro H. destruct (Math_round_bounds x) as [_ H2].
  assert (H3 : IZR (-1) < IZR (Math_round x)) by (simpl; lra).
  apply lt_IZR in H3. lia.
Qed.

Lemma Math_round_le (x : R) (n : Z) :
  x <= IZR n -> (Math_round x <= n)%Z.
Proof.
  intro H. destruct (Math_round_bounds x) as [H1 _].
  assert (H3 : IZR (Math_round x) < IZR (n + 1)).
  { rewrite plus_IZR. simpl. lra. }
  apply lt_IZR in H3. lia.
Qed.

Lemma Math_round_mono (x y : R) :
  x <= y -> (Math_round x <= Math_round y)%Z.
Proof.
  intro H. destruct (Math_round_bounds x) as [H1 _].
  destruct (Math_round_bounds y) as [_ H2].
  assert (H3 : IZR (Math_round x) < IZR (Math_round y + 1)).
  { rewrite plus_IZR. simpl. lra. }
  apply lt_IZR in H3. lia.
Qed.

Lemma calculateSpeed_nonneg_aux (last : option UseLocation.GeolocationPosition)
    (p : UseLocation.GeolocationPosition) :
  0 <= UseLocation.calculateSpeed last p.
Proof.
  unfold UseLocation.calculateSpeed.
  assert (C : 0 <=
    match last with
    | Some lastPosition =>
      if JS.gtb ((UseLocation.timestamp p
                  - UseLocation.timestamp lastPosition) / 1000) 0
      then
        getDistanceFromLatLonInKm
          (UseLocation.latitude lastPosition)
          (UseLocation.longitude lastPosition)
          (UseLocation.latitude p) (UseLocation.longitude p)
        / ((UseLocation.timestamp p
            - UseLocation.timestamp lastPosition) / 1000) * 3600
      else 0
    | None => 0
    end).
  { destruct last as [l | ]; [ | lra ].
    destruct (JS.gtb _ 0) eqn:G; [ | lra ].
    apply gtb_true in G.
    apply Rmult_le_pos; [ | lra ].
    apply Rmult_le_pos.
    - apply getDistanceFromLatLonInKm_range.
    - left. apply Rinv_0_lt_compat. exact G. }
  destruct (UseLocation.speed p) as [s | ]; [ | exact C ].
  destruct (JS.leb 0 s) eqn:L; [ | exact C ].
  apply leb_true in L. lra.
Qed.

Lemma track_speeds (positions : list UseLocation.GeolocationPosition) :
  forall last,
    Forall (fun l => 0 <= UseLocation.loc_speed l)
           (fst (UseLocation.track last positions)).
Proof.
  induction positions as [ | p rest IH]; intro last; simpl.
  - constructor.
  - specialize (IH (Some p)).
    destruct (UseLocation.track (Some p) rest) as [ls final]. simpl in *.
    constructor; [ apply calculateSpeed_nonneg_aux | exact IH ].
Qed.

(** X8. [calculateSpeed] never returns a negative speed, whatever the
    device reports and whatever the previous position; so every location
    set while positions are delivered has a speed that is not negative,
    and the speed Home shows, rounded, is not negative. *)
Theorem speed_never_negative :
  (forall last p, 0 <= UseLocation.calculateSpeed last p) /\
  (forall last positions,
     Forall (fun l => 0 <= UseLocation.loc_speed l
                      /\ (0 <= SpeedIndicator.displaySpeed
                                 (SpeedIndicator.speed_prop (Some l)))%Z)
            (fst (UseLocation.track last positions))).
Proof.
  split; [ apply calculateSpeed_nonneg_aux | ].
  intros last positions.
  eapply Forall_impl; [ | apply track_speeds ].
  intros l Hl. split; [ exact Hl | ].
  apply Math_round_nonneg. unfold SpeedIndicator.speed_prop. simpl.
  unfold JS.or_else. destruct (Req_dec_T _ 0); lra.
Qed.

(** X9. When the device reports no speed (or a negative one), the speed is
    0 on the first position, 0 when the timestamp did not advance, and 0
    when the coordinates did not change; between two distinct times it is
    the distance in km divided by the elapsed hours. *)
Theorem computed_speed (p q : UseLocation.GeolocationPosition) :
  (forall s, UseLocation.speed q = Some s -> s < 0) ->
  UseLocation.calculateSpeed None q = 0 /\
  (UseLocation.timestamp q <= UseLocation.timestamp p ->
   UseLocation.calculateSpeed (Some p) q = 0) /\
  (UseLocation.latitude q = UseLocation.latitude p ->
   UseLocation.longitude q = UseLocation.longitude p ->
   UseLocation.calculateSpeed (Some p) q = 0) /\
  (UseLocation.timestamp p < UseLocation.timestamp q ->
   UseLocation.calculateSpeed (Some p) q =
   getDistanceFromLatLonInKm
     (UseLocation.latitude p) (UseLocation.longitude p)
     (UseLocation.latitude q) (UseLocation.longitude q)
   / ((UseLocation.timestamp q - UseLocation.timestamp p) / 3600000)).
Proof.
  intro Hs. unfold UseLocation.calculateSpeed.
  assert (E : forall c : R,
            match UseLocation.speed q with
            | Some s => if JS.leb 0 s then s * 3.6 else c
            | None => c
            end = c).
  { intro c. destruct (UseLocation.speed q) as [s | ]; [ | reflexivity ].
    specialize (Hs s eq_refl).
    destruct (JS.leb 0 s) eqn:L; [ | reflexivity ].
    apply leb_true in L. lra. }
  rewrite !E. split; [ reflexivity | ]. split; [ | split ].
  - intro Ht. destruct (JS.gtb _ 0) eqn:G; [ | reflexivity ].
    apply gtb_true in G. lra.
  - intros -> ->. destruct (JS.gtb _ 0) eqn:G; [ | reflexivity ].
    apply gtb_true in G.
    rewrite getDistanceFromLatLonInKm_same. field. lra.
  - intro Ht. destruct (JS.gtb _ 0) eqn:G.
    + field. lra.
    + apply gtb_false in G. lra.
Qed.

(** The device reports no speed at [second], 36 s after [first]. *)
Lemma computed_speed_witness :
  (forall s, UseLocation.speed SamplePosition.second = Some s -> s < 0) /\
  UseLocation.calculateSpeed None SamplePosition.second = 0 /\
  UseLocation.calculateSpeed (Some SamplePosition.first)
                             SamplePosition.second =
  getDistanceFromLatLonInKm 0 0 0.001 0 / ((37000 - 1000) / 3600000).
Proof.
  assert (H : forall s, UseLocation.speed SamplePosition.second = Some s ->
                        s < 0) by (intros s Hs; discriminate Hs).
  destruct (computed_speed SamplePosition.first SamplePosition.second H)
    as (H1 & _ & _ & H4).
  split; [ exact H | ]. split; [ exact H1 | ].
  apply H4. simpl. lra.
Defined.

(** X10. The location [getCurrentPosition] resolves with has the speed the
    device reports, in km/h, when it reports one that is not negative, and
    0 otherwise, whatever the previous position: the second
    [calculateSpeed] compares the position with itself.  The location set
    in the state has the speed computed from the previous position. *)
Theorem getCurrentPosition_speed (last : option UseLocation.GeolocationPosition)
    (p : UseLocation.GeolocationPosition) :
  let '(in_state, returned, _) :=
    UseLocation.getCurrentPosition_success last p in
  UseLocation.loc_speed in_state = UseLocation.calculateSpeed last p /\
  UseLocation.loc_speed returned =
    match UseLocation.speed p with
    | Some s => if JS.leb 0 s then s * 3.6 else 0
    | None => 0
    end.
Proof.
  unfold UseLocation.getCurrentPosition_success, UseLocation.handlePosition.
  cbn [UseLocation.loc_speed]. split; [ reflexivity | ].
  unfold UseLocation.calculateSpeed.
  replace ((UseLocation.timestamp p - UseLocation.timestamp p) / 1000)
    with 0 by field.
  assert (G : JS.gtb 0 0 = false) by (apply gtb_false; lra).
  rewrite G. reflexivity.
Qed.

(** X11. The label of the speed indicator never goes down when the speed
    goes up, and its classes are: below 5 km/h, from 5 to below 15, from
    15 to below 40, and 40 or more. *)
Theorem speed_label_monotone (v w : R) :
  (v <= w ->
   (SpeedIndicator.rank (SpeedIndicator.getSpeedStatus v)
    <= SpeedIndicator.rank (SpeedIndicator.getSpeedStatus w))%nat) /\
  (SpeedIndicator.getSpeedStatus v = SpeedIndicator.Stationary <-> v < 5) /\
  (SpeedIndicator.getSpeedStatus v = SpeedIndicator.Walking
   <-> 5 <= v < 15) /\
  (SpeedIndicator.getSpeedStatus v = SpeedIndicator.Vehicle
   <-> 15 <= v < 40) /\
  (SpeedIndicator.getSpeedStatus v = SpeedIndicator.Fast <-> 40 <= v).
Proof.
  unfold SpeedIndicator.getSpeedStatus.
  split; [ intro H | ];
    repeat match goal with
    | |- context [Rlt_dec ?x ?y] => destruct (Rlt_dec x y)
    end; simpl; try lia; try (exfalso; lra);
    repeat split; intros; try discriminate; try lra.
Qed.

Lemma speed_label_monotone_witness :
  4 <= 20 /\
  (SpeedIndicator.rank (SpeedIndicator.getSpeedStatus 4)
   <= SpeedIndicator.rank (SpeedIndicator.getSpeedStatus 20))%nat.
Proof.
  assert (H : 4 <= 20) by lra.
  split; [ exact H | ].
  exact (proj1 (speed_label_monotone 4 20) H).
Defined.

(** *** Scores and the risk indicator *)

Lemma lookup_in (k : string) (m : TimeOfDayRisk) (v : R) :
  lookup k m = Some v -> exists k', In (k', v) m.
Proof.
  induction m as [ | [k' v'] m IH]; simpl; intro H.
  - discriminate.
  - destruct (String.eqb k k').
    + injection H as ->. exists k'. left. reflexivity.
    + destruct (IH H) as (k0 & H0). exists k0. right. exact H0.
Qed.

Lemma conventional_timeRisk (hour : Z) (z : RiskZoneRow.t) :
  conventional_scores z -> 0 <= Server.timeRisk hour z <= 1.
Proof.
  intros [Hb Hm].
  destruct (server_timeRisk_cases hour z)
    as [(m & v & Em & El & _ & ->) | (_ & ->)]; [ | exact Hb ].
  destruct (lookup_in _ _ _ El) as (k & Hk).
  specialize (Hm m Em). rewrite Forall_forall in Hm.
  exact (Hm (k, v) Hk).
Qed.

(** X12. When the base score of every fetched row and every value of its
    time-of-day object lie between 0 and 1, the score the endpoint's loop
    returns lies between 0 and 1, and the risk indicator shows between 0
    and 100 percent for it. *)
Theorem conventional_scores_stay_in_range (hour : Z) (lat lng : R)
    (zs : list RiskZoneRow.t) :
  Forall conventional_scores zs ->
  0 <= Server.score (Server.evaluate hour lat lng zs) <= 1 /\
  (0 <= RiskIndicator.percentage
          (Server.score (Server.evaluate hour lat lng zs)) <= 100)%Z.
Proof.
  intro H.
  assert (R01 : 0 <= Server.score (Server.evaluate hour lat lng zs) <= 1).
  { pose proof (server_evaluate_tells hour lat lng zs) as T.
    unfold tells_of_zone in T. simpl in T.
    destruct (Server.zone (Server.evaluate hour lat lng zs)) as [z | ] eqn:Ez.
    - destruct T as [Hpos T].
      assert (Hz : conventional_scores z).
      { rewrite Forall_forall in H. apply H.
        destruct (server_fold_zone _ _ _ _ _ _ Ez) as [E | E];
          [ discriminate E | exact E ]. }
      destruct (Server.inZone (Server.evaluate hour lat lng zs)).
      + destruct T as (_ & _ & ->). apply conventional_timeRisk, Hz.
      + destruct T as (_ & _ & ->). destruct Hz as [Hb _]. lra.
    - destruct T as (_ & -> & _). lra. }
  split; [ exact R01 | ].
  unfold RiskIndicator.percentage. split.
  - apply Math_round_nonneg. lra.
  - apply Math_round_le. simpl. lra.
Qed.

(** The sample rows [near] and [industrial] have conventional scores. *)
Lemma conventional_scores_stay_in_range_witness :
  Forall conventional_scores [Sample.near; Sample.industrial] /\
  0 <= Server.score
         (Server.evaluate 22 0 0 [Sample.near; Sample.industrial]) <= 1.
Proof.
  assert (H : Forall conventional_scores [Sample.near; Sample.industrial]).
  { repeat constructor; simpl; try lra;
      intros m Hm; injection Hm as <-; repeat constructor; simpl; lra. }
  split; [ exact H | ].
  exact (proj1 (conventional_scores_stay_in_range 22 0 0 _ H)).
Defined.

(** *** The hour only matters through its bucket *)

Lemma timeRisk_same_bucket (h1 h2 : Z) :
  timeOfDay h1 = timeOfDay h2 ->
  (forall z, Server.timeRisk h1 z = Server.timeRisk h2 z) /\
  (forall z, Client.timeRisk h1 z = Client.timeRisk h2 z).
Proof.
  intro E. unfold Server.timeRisk, Client.timeRisk. rewrite E.
  split; reflexivity.
Qed.

(** X13. Two hours of the same bucket (both in 18..23 or 0..5, or both in
    6..17) give the same evaluation, in the endpoint's loop and in the
    client's. *)
Theorem evaluation_depends_on_bucket_only (h1 h2 : Z) (lat lng : R) :
  timeOfDay h1 = timeOfDay h2 ->
  (forall zs, Server.evaluate h1 lat lng zs = Server.evaluate h2 lat lng zs)
  /\
  (forall zs, Client.checkRiskAtLocation zs h1 lat lng =
              Client.checkRiskAtLocation zs h2 lat lng).
Proof.
  intro E. destruct (timeRisk_same_bucket h1 h2 E) as [Hs Hc].
  split; intro zs.
  - unfold Server.evaluate. generalize (Server.mkRisk safe 0 None false).
    induction zs as [ | z zs IH]; intro h; simpl; [ reflexivity | ].
    rewrite IH. unfold Server.loop_body. rewrite Hs. reflexivity.
  - unfold Client.checkRiskAtLocation. generalize (Client.mkRisk safe 0 None).
    induction zs as [ | z zs IH]; intro c; simpl; [ reflexivity | ].
    rewrite IH. unfold Client.loop_body. rewrite Hc. reflexivity.
Qed.

(** 19 h and 3 h are both night. *)
Lemma evaluation_depends_on_bucket_only_witness :
  timeOfDay 19 = timeOfDay 3 /\
  Server.evaluate 19 0 0 [Sample.industrial] =
  Server.evaluate 3 0 0 [Sample.industrial].
Proof.
  split; [ reflexivity | ].
  exact (proj1 (evaluation_depends_on_bucket_only 19 3 0 0 eq_refl) _).
Defined.

(** *** What the endpoints write and answer *)

Lemma auto_alert_shapes (store : Store) (latitude longitude : R)
    (userId : option string) (h : Server.HighestRisk) :
  let writes := CheckRiskZone.auto_alert store latitude longitude userId h in
  writes = [] \/
  exists f,
    (writes = [InsertIncident f] \/
     exists batch, batch <> [] /\
                   writes = [InsertIncident f; InsertAlerts batch]) /\
    Incident.alert_type f = risk_zone_entry /\
    Incident.status f = pending /\
    Incident.risk_level f = "emergency"%string /\
    Incident.latitude f = latitude /\
    Incident.longitude f = longitude /\
    userId = Some (Incident.user_id f).
Proof.
  cbv zeta. unfold CheckRiskZone.auto_alert.
  destruct (Server.inZone h); simpl; [ | left; reflexivity ].
  destruct (RiskLevel_eqb (Server.level h) emergency) eqn:Hl; simpl;
    [ | left; reflexivity ].
  apply RiskLevel_eqb_eq in Hl.
  destruct (JS.truthy_str userId); [ | left; reflexivity ].
  destruct userId as [u | ]; [ | left; reflexivity ].
  destruct (data (select_auto_alert_on_risk_zone store u))
    as [[[ | ] | ] | ]; try (left; reflexivity).
  right. eexists. split.
  - destruct (data (insert_incident store _)) as [incident | ];
      [ | left; reflexivity ].
    destruct (data (select_emergency_contacts store u)) as [[ | c cs] | ];
      try (left; reflexivity).
    right. eexists. split; [ | reflexivity ]. simpl. discriminate.
  - simpl. rewrite Hl. repeat split; reflexivity.
Qed.

(** X14. A risk check sends nothing to the store, or one insert of an
    incident, or that insert followed by one insert of a non-empty batch
    of alerts, never more; the incident is of type [risk_zone_entry], of
    status [pending] and of level "emergency", at the location and for the
    user of the request. *)
Theorem risk_check_writes (store : Store) (hour : Z)
    (req : Request RiskCheckRequest) :
  let writes := snd (CheckRiskZone.handler store hour req) in
  writes = [] \/
  exists f body,
    json req = inl body /\
    (writes = [InsertIncident f] \/
     exists batch, batch <> [] /\
                   writes = [InsertIncident f; InsertAlerts batch]) /\
    Incident.alert_type f = risk_zone_entry /\
    Incident.status f = pending /\
    Incident.risk_level f = "emergency"%string /\
    Incident.latitude f = rc_latitude body /\
    Incident.longitude f = rc_longitude body /\
    rc_userId body = Some (Incident.user_id f).
Proof.
  cbv zeta. unfold CheckRiskZone.handler.
  destruct (String.eqb (method req) "OPTIONS"); [ left; reflexivity | ].
  destruct (json req) as [body | e]; [ | left; reflexivity ].
  destruct (error (select_risk_zones store)); [ left; reflexivity | ].
  cbn [snd].
  match goal with
  | |- CheckRiskZone.auto_alert ?s ?la ?lo ?u ?h = [] \/ _ =>
      destruct (auto_alert_shapes s la lo u h) as [E | (f & H)]
  end.
  - left. exact E.
  - right. exists f, body. split; [ reflexivity | exact H ].
Qed.

(** X15. A risk check that answers with the preflight response or with a
    failure has sent nothing to the store; a SOS request that does so has
    sent no alert, and a SOS request answered with success has sent
    exactly the insert of the incident and one batch of alerts. *)
Theorem failed_requests_write_no_alert :
  (forall store hour req,
     (fst (CheckRiskZone.handler store hour req) = Preflight \/
      is_failure (fst (CheckRiskZone.handler store hour req))) ->
     snd (CheckRiskZone.handler store hour req) = []) /\
  (forall store req,
     (fst (SendSosAlert.handler store req) = Preflight \/
      is_failure (fst (SendSosAlert.handler store req))) ->
     alert_batches (snd (SendSosAlert.handler store req)) = []) /\
  (forall store req b,
     fst (SendSosAlert.handler store req) = SOSResult b ->
     exists f batch,
       snd (SendSosAlert.handler store req) =
       [InsertIncident f; InsertAlerts batch]).
Proof.
  split; [ | split ].
  - intros store hour req. unfold CheckRiskZone.handler, is_failure.
    destruct (String.eqb (method req) "OPTIONS"); [ reflexivity | ].
    destruct (json req) as [body | e]; [ | reflexivity ].
    destruct (error (select_risk_zones store)); [ reflexivity | ].
    cbn [fst]. intros [H | (m & H)]; discriminate H.
  - intros store req. unfold SendSosAlert.handler, is_failure.
    destruct (String.eqb (method req) "OPTIONS"); [ reflexivity | ].
    destruct (json req) as [body | e]; [ | reflexivity ].
    cbv zeta.
    destruct (error (insert_incident store _)); [ reflexivity | ].
    destruct (data (insert_incident store _)); [ | reflexivity ].
    cbn [fst]. intros [H | (m & H)]; discriminate H.
  - intros store req b. unfold SendSosAlert.handler.
    destruct (String.eqb (method req) "OPTIONS"); [ discriminate | ].
    destruct (json req) as [body | e]; [ | discriminate ].
    cbv zeta.
    destruct (error (insert_incident store _)); [ discriminate | ].
    destruct (data (insert_incident store _)); [ | discriminate ].
    intros _. eexists _, _. reflexivity.
Qed.

(** A SOS against a store whose insert into [incidents] fails. *)
Lemma failed_requests_write_no_alert_witness :
  is_failure (fst (SendSosAlert.handler (SampleStore.incidents_down [])
                     SampleStore.sos_request)) /\
  alert_batches (snd (SendSosAlert.handler (SampleStore.incidents_down [])
                        SampleStore.sos_request)) = [].
Proof.
  assert (F : is_failure
                (fst (SendSosAlert.handler (SampleStore.incidents_down [])
                        SampleStore.sos_request)))
    by (eexists; reflexivity).
  split; [ exact F | ].
  exact (proj1 (proj2 failed_requests_write_no_alert) _ _ (or_intror F)).
Defined.

(** X16. In a successful SOS answer, [incidentId] is the id of the row the
    store returned for the incident and [alertsSent] is the number of the
    user's contacts read plus one (1 when the contacts could not be read),
    which is the size of the batch written. *)
Theorem sos_answer (store : Store) (req : Request SOSRequest) (b : SOSBody)
    (writes : list Write) :
  SendSosAlert.handler store req = (SOSResult b, writes) ->
  exists body incident batch,
    json req = inl body /\
    data (insert_incident store (sos_incident body)) = Some incident /\
    writes = [InsertIncident (sos_incident body); InsertAlerts batch] /\
    success b = true /\
    incidentId b = Incident.id incident /\
    alertsSent b = List.length batch /\
    alertsSent b = S (List.length (fetched_contacts store (sos_userId body))).
Proof.
  unfold SendSosAlert.handler.
  destruct (String.eqb (method req) "OPTIONS"); [ discriminate | ].
  destruct (json req) as [body | e]; [ | discriminate ].
  cbv zeta. fold (sos_incident body).
  destruct (error (insert_incident store (sos_incident body)));
    [ discriminate | ].
  destruct (data (insert_incident store (sos_incident body)))
    as [incident | ] eqn:Ed; [ | discriminate ].
  rewrite sos_alertsToCreate_map.
  intro H. injection H as <- <-.
  exists body, incident. eexists.
  split; [ reflexivity | ]. split; [ exact Ed | ].
  split; [ reflexivity | ]. split; [ reflexivity | ].
  split; [ reflexivity | ]. split; [ reflexivity | ].
  simpl. rewrite length_app, length_map. simpl. lia.
Qed.

Lemma sos_answer_witness :
  exists b writes,
    SendSosAlert.handler (SampleStore.healthy []) SampleStore.sos_request
    = (SOSResult b, writes) /\
    alertsSent b = 3%nat.
Proof.
  eexists _, _.
  assert (E : SendSosAlert.handler (SampleStore.healthy [])
                SampleStore.sos_request
              = (SOSResult _, _)) by reflexivity.
  split; [ exact E | ].
  destruct (sos_answer _ _ _ _ E) as (body & inc & batch & Hb & _ & _ & _ & _
                                      & _ & Hn).
  injection Hb as <-. exact Hn.
Defined.

(** X17. In a risk check's answer the score is never negative; a score of
    0 comes with level safe, [inRiskZone] false and no zone name or
    description; and [inRiskZone] true comes with a positive score and a
    fetched zone that contains the point, whose level, name and description
    ([null] when empty) the answer carries, with the score the loop
    resolves for that zone ([override || base score]). *)
Theorem risk_check_answer (store : Store) (hour : Z)
    (req : Request RiskCheckRequest) (b : RiskBody) (writes : list Write) :
  CheckRiskZone.handler store hour req = (RiskResult b, writes) ->
  exists body,
    json req = inl body /\
    0 <= riskScore b /\
    (riskScore b = 0 ->
     riskLevel b = safe /\ inRiskZone b = false /\
     zoneName b = None /\ zoneDescription b = None) /\
    (inRiskZone b = true ->
     0 < riskScore b /\
     exists z,
       In z (fetched_zones store) /\
       Server_spec.distance (rc_latitude body) (rc_longitude body) z
         <= RiskZoneRow.radius_meters z /\
       riskLevel b = RiskZoneRow.risk_level z /\
       riskScore b = Server.timeRisk hour z /\
       zoneName b = JS.str_or_null (RiskZoneRow.name z) /\
       zoneDescription b = JS.str_or_null (RiskZoneRow.description z)).
Proof.
  unfold CheckRiskZone.handler.
  destruct (String.eqb (method req) "OPTIONS"); [ discriminate | ].
  destruct (json req) as [body | e]; [ | discriminate ].
  destruct (error (select_risk_zones store)); [ discriminate | ].
  cbv zeta. fold (fetched_zones store).
  intro H. injection H as <- _.
  exists body. split; [ reflexivity | ].
  cbn [riskScore riskLevel inRiskZone zoneName zoneDescription].
  set (h := Server.evaluate hour (rc_latitude body) (rc_longitude body)
                            (fetched_zones store)).
  pose proof (server_evaluate_tells hour (rc_latitude body)
                (rc_longitude body) (fetched_zones store)) as T.
  fold h in T. unfold tells_of_zone in T. simpl in T.
  unfold CheckRiskZone.zone_name, CheckRiskZone.zone_description.
  destruct (Server.zone h) as [z | ] eqn:Ez.
  - destruct T as [Hpos T].
    split; [ lra | ]. split; [ intro H0; exfalso; lra | ].
    intro Hin. rewrite Hin in T. destruct T as (Hc & Hl & Hs).
    split; [ exact Hpos | ].
    exists z. repeat split; auto.
    destruct (server_fold_zone _ _ _ _ _ _ Ez) as [E | E];
      [ discriminate E | exact E ].
  - destruct T as (Hl & Hs & Hi).
    split; [ lra | ]. split; [ intros _; auto | ].
    intro Hin. rewrite Hin in Hi. discriminate Hi.
Qed.

(** At 22 h the point (0, 0) is inside [industrial]. *)
Lemma risk_check_answer_witness :
  exists b writes,
    CheckRiskZone.handler (SampleStore.healthy [Sample.industrial]) 22
      SampleStore.risk_request = (RiskResult b, writes) /\
    0 <= riskScore b.
Proof.
  eexists _, _.
  assert (E := check_risk_zone_handler_ok
                 (SampleStore.healthy [Sample.industrial]) 22
                 "POST" SampleStore.risk_body eq_refl eq_refl).
  cbv zeta in E. split; [ exact E | ].
  destruct (risk_check_answer _ _ _ _ _ E) as (body & _ & H & _).
  exact H.
Defined.

(** *** The hook useRiskZones *)


(** X18. After [fetchRiskZones], whatever the query gave, loading is over
    and the zones of the hook are not empty: they are the rows of the
    store when the query succeeded with at least one row, and the two
    sample zones otherwise, never a mixture of both. *)
Theorem fetched_zones_never_empty (now : string)
    (result : Reply (list RiskZone.t) + Thrown) (st : UseRiskZones.State) :
  let st' := UseRiskZones.fetchRiskZones now result st in
  UseRiskZones.isLoading st' = false /\
  UseRiskZones.riskZones st' <> [] /\
  ((exists reply,
      result = inl reply /\ error reply = None /\
      data reply = Some (UseRiskZones.riskZones st')) \/
   (UseRiskZones.riskZones st' = UseRiskZones.sampleRiskZones now /\
    forall reply rows,
      result = inl reply -> error reply = None ->
      data reply = Some rows -> rows = [])).
Proof.
  cbv zeta. unfold UseRiskZones.fetchRiskZones. simpl.
  split; [ reflexivity | ].
  destruct result as [reply | e].
  - destruct (error reply) as [e | ] eqn:Ee.
    + split; [ discriminate | ]. right. split; [ reflexivity | ].
      intros r rows Hr. injection Hr as <-. congruence.
    + destruct (data reply) as [[ | z zs] | ] eqn:Ed.
      * split; [ discriminate | ]. right. split; [ reflexivity | ].
        intros r rows Hr. injection Hr as <-. intros _ H. congruence.
      * split; [ discriminate | ]. left. exists reply. auto.
      * split; [ discriminate | ]. right. split; [ reflexivity | ].
        intros r rows Hr. injection Hr as <-. intros _ H. congruence.
  - split; [ discriminate | ]. right. split; [ reflexivity | ].
    intros r rows Hr. discriminate Hr.
Qed.


(** *** The SOS of the client *)

(** X20. Without a user or without a location [handleSOS] writes nothing,
    shows the toast "Location not available" and ends normally; a click
    on the SOS button then shows, after that toast, the button's own
    "SOS Alert Sent".  A disabled or loading button does nothing at all,
    [onSOS] is not run. *)
Theorem sos_without_location (store : Store) (user : option string)
    (location : option UseLocation.LocationState) (currentRisk : RiskLevel)
    (userName : string) :
  user = None \/ location = None ->
  Home.handleSOS store user location currentRisk userName =
    Home.mkOutcome None [] [Home.LocationNotAvailable] false /\
  Home.handleClick false false
    (fun _ => Home.handleSOS store user location currentRisk userName) =
    ([], [Home.LocationNotAvailable; Home.ButtonAlertSent]) /\
  (forall disabled isLoading onSOS,
     disabled = true \/ isLoading = true ->
     Home.handleClick disabled isLoading onSOS = ([], [])).
Proof.
  intro H.
  assert (E : Home.handleSOS store user location currentRisk userName =
              Home.mkOutcome None [] [Home.LocationNotAvailable] false).
  { unfold Home.handleSOS.
    destruct H as [-> | ->]; [ reflexivity | ].
    destruct user; reflexivity. }
  split; [ exact E | ]. split.
  - unfold Home.handleClick. simpl. rewrite E. reflexivity.
  - intros disabled isLoading onSOS [-> | ->]; unfold Home.handleClick;
      [ reflexivity | rewrite orb_true_r; reflexivity ].
Qed.

Lemma sos_without_location_witness :
  (Some SampleStore.user = None \/
   @None UseLocation.LocationState = None) /\
  Home.handleClick false false
    (fun _ => Home.handleSOS (SampleStore.healthy [])
                (Some SampleStore.user) None safe "Meera") =
    ([], [Home.LocationNotAvailable; Home.ButtonAlertSent]).
Proof.
  assert (H : Some SampleStore.user = None \/
              @None UseLocation.LocationState = None)
    by (right; reflexivity).
  split; [ exact H | ].
  exact (proj1 (proj2 (sos_without_location (SampleStore.healthy [])
                         (Some SampleStore.user) None safe "Meera" H))).
Defined.

(** X21. With a user and a location, [handleSOS] first inserts the
    incident (type [sos], status [active], the current risk level, the
    location).  If that insert is answered with an error or without a row
    it ends with an exception, nothing else is written and the button
    shows its failure toast.  Otherwise it writes one array with an alert
    per contact when there are contacts, then, separately and last, the
    alert of the police (no contact, [sent_to_police] true), and the
    button shows "SOS Alert Sent". *)
Theorem client_sos_writes (store : Store) (user_id : string)
    (l : UseLocation.LocationState) (currentRisk : RiskLevel)
    (userName : string) :
  let o := Home.handleSOS store (Some user_id) (Some l) currentRisk
                          userName in
  let f := Incident.mkFields user_id (UseLocation.loc_latitude l)
             (UseLocation.loc_longitude l) sos
             (RiskLevel_string currentRisk) active None in
  let click := Home.handleClick false false (fun _ => o) in
  (Home.thrown o <> None /\
   Home.writes o = [Home.InsertIncident f] /\
   snd click = [Home.ButtonFailed] /\
   (error (insert_incident store f) <> None \/
    data (insert_incident store f) = None)) \/
  (Home.thrown o = None /\
   error (insert_incident store f) = None /\
   snd click = [Home.SosAlertSent; Home.ButtonAlertSent] /\
   exists incident police,
     data (insert_incident store f) = Some incident /\
     Home.contact_id police = None /\
     Home.sent_to_police police = true /\
     Home.incident_id police = Incident.id incident /\
     (Home.writes o = [Home.InsertIncident f; Home.InsertAlert police] /\
      fetched_contacts store user_id = []
      \/
      fetched_contacts store user_id <> [] /\
      Home.writes o =
      [Home.InsertIncident f;
       Home.InsertAlerts
         (map (fun contact =>
                 Home.mkAlert (Incident.id incident)
                   (Some (Contact.id contact)) false
                   (Home.contactText
                      (JS.str_or_else (Some userName) "SHElytics User")
                      (UseLocation.loc_latitude l)
                      (UseLocation.loc_longitude l))
                   (UseLocation.loc_latitude l)
                   (UseLocation.loc_longitude l))
              (fetched_contacts store user_id));
       Home.InsertAlert police])).
Proof.
  cbv zeta. unfold Home.handleClick, Home.handleSOS, fetched_contacts.
  cbn [orb].
  destruct (error (insert_incident store _)) as [e | ] eqn:Ee.
  - left. simpl. repeat split; try discriminate. left. discriminate.
  - destruct (data (insert_incident store _)) as [incident | ] eqn:Ed.
    + right. cbn [Home.thrown Home.writes Home.toasts snd app].
      split; [ reflexivity | ]. split; [ reflexivity | ].
      split; [ reflexivity | ].
      exists incident,
        (Home.mkAlert (Incident.id incident) None true
           (Home.policeText (JS.str_or_else (Some userName) "User")
              (UseLocation.loc_latitude l) (UseLocation.loc_longitude l))
           (UseLocation.loc_latitude l) (UseLocation.loc_longitude l)).
      split; [ reflexivity | ].
      split; [ reflexivity | ]. split; [ reflexivity | ].
      split; [ reflexivity | ].
      destruct (data (select_emergency_contacts store user_id))
        as [[ | c cs] | ].
      * left. split; reflexivity.
      * right. split; [ discriminate | reflexivity ].
      * left. split; reflexivity.
    + left. simpl. repeat split; try discriminate. right. reflexivity.
Qed.

Lemma client_alerts_addressees (store : Store) (body : SOSRequest)
    (incident : Incident.row) (userName : string)
    (cs : list Contact.t) :
  map Home.addressee
      (map (fun contact =>
              Home.mkAlert (Incident.id incident)
                (Some (Contact.id contact)) false
                (Home.contactText
                   (JS.str_or_else (Some userName) "SHElytics User")
                   (sos_latitude body) (sos_longitude body))
                (sos_latitude body) (sos_longitude body)) cs) =
  map server_addressee (map (sos_contact_alert store body incident) cs).
Proof. rewrite !map_map. reflexivity. Qed.

(** X22. For the same user, location and risk level, and the same answers
    of the store, the client's [handleSOS] and the endpoint send-sos-alert
    address the same alerts: the same incident id, contacts in the same
    order followed by the police, the same flags and the same location;
    the client in up to two writes, the endpoint in one batch. *)
Theorem client_and_endpoint_address_the_same_alerts (store : Store)
    (m : string) (body : SOSRequest) (currentRisk : RiskLevel)
    (accuracy speed time : R) (incident : Incident.row) :
  String.eqb m "OPTIONS" = false ->
  sos_riskLevel body = RiskLevel_string currentRisk ->
  insert_incident store (sos_incident body) = mkReply (Some incident) None ->
  let o :=
    Home.handleSOS store (Some (sos_userId body))
      (Some (UseLocation.mkLocation (sos_latitude body) (sos_longitude body)
                                    speed accuracy time))
      currentRisk (sos_userName body) in
  Home.thrown o = None /\
  map Home.addressee (Home.alerts (Home.writes o)) =
  map server_addressee
      (List.concat (alert_batches
                 (snd (SendSosAlert.handler store (mkRequest m (inl body)))))).
Proof.
  intros Hm Hr Hi. cbv zeta.
  rewrite (sos_handler_ok store m body incident Hm Hi).
  cbn [snd alert_batches flat_map app List.concat]. rewrite app_nil_r.
  unfold Home.handleSOS. cbn [UseLocation.loc_latitude
                              UseLocation.loc_longitude].
  rewrite <- Hr. fold (sos_incident body). rewrite Hi.
  cbn [error data Home.thrown Home.writes].
  split; [ reflexivity | ].
  rewrite map_app. rewrite <- client_alerts_addressees with (userName := sos_userName body).
  unfold fetched_contacts.
  destruct (data (select_emergency_contacts store (sos_userId body)))
    as [[ | c cs] | ]; cbn [Home.alerts flat_map app map];
    rewrite ?app_nil_r; try reflexivity.
  rewrite map_app. reflexivity.
Qed.

Lemma client_and_endpoint_address_the_same_alerts_witness :
  String.eqb "POST" "OPTIONS" = false /\
  sos_riskLevel SampleStore.sos_body = RiskLevel_string emergency /\
  insert_incident (SampleStore.healthy []) (sos_incident SampleStore.sos_body)
    = mkReply (Some (Incident.mkRow "incident-1")) None /\
  map Home.addressee
      (Home.alerts
         (Home.writes
            (Home.handleSOS (SampleStore.healthy [])
               (Some SampleStore.user)
               (Some (UseLocation.mkLocation 0 0 0 10 1000))
               emergency "Meera"))) =
  map server_addressee
      (List.concat (alert_batches
                 (snd (SendSosAlert.handler (SampleStore.healthy [])
                         SampleStore.sos_request)))).
Proof.
  split; [ reflexivity | ]. split; [ reflexivity | ].
  split; [ reflexivity | ].
  exact (proj2 (client_and_endpoint_address_the_same_alerts
                  (SampleStore.healthy []) "POST" SampleStore.sos_body
                  emergency 10 0 1000 (Incident.mkRow "incident-1")
                  eq_refl eq_refl eq_refl)).
Defined.

(** *** Onboarding *)

Lemma without_index_length (index : nat)
    (contacts : list Onboarding.ContactDraft) :
  (index < List.length contacts)%nat ->
  S (List.length (Onboarding.without_index index contacts))
  = List.length contacts.
Proof.
  revert index. induction contacts as [ | c rest IH]; intros index H.
  - simpl in H. lia.
  - destruct index as [ | i]; simpl; [ reflexivity | ].
    rewrite IH; [ reflexivity | simpl in H; lia ].
Qed.

Lemma without_index_beyond (index : nat)
    (contacts : list Onboarding.ContactDraft) :
  (List.length contacts <= index)%nat ->
  Onboarding.without_index index contacts = contacts.
Proof.
  revert index. induction contacts as [ | c rest IH]; intros index H.
  - reflexivity.
  - destruct index as [ | i]; simpl in *; [ lia | ].
    rewrite IH; [ reflexivity | lia ].
Qed.

Lemma without_index_nth (index j : nat)
    (contacts : list Onboarding.ContactDraft) :
  nth_error (Onboarding.without_index index contacts) j =
  nth_error contacts (if (j <? index)%nat then j else S j).
Proof.
  revert index j. induction contacts as [ | c rest IH]; intros index j.
  - simpl. destruct (j <? index)%nat; destruct j; reflexivity.
  - destruct index as [ | i]; simpl.
    + reflexivity.
    + destruct j as [ | j]; simpl; [ reflexivity | ].
      rewrite IH.
      change (S j <? S i)%nat with (j <? i)%nat.
      destruct (j <? i)%nat; reflexivity.
Qed.

Lemma without_index_Forall (P : Onboarding.ContactDraft -> Prop)
    (index : nat) (contacts : list Onboarding.ContactDraft) :
  Forall P contacts -> Forall P (Onboarding.without_index index contacts).
Proof.
  revert index. induction contacts as [ | c rest IH]; intros index H.
  - constructor.
  - inversion H as [ | c' rest' Hc Hrest]; subst.
    destruct index as [ | i]; simpl; [ exact Hrest | ].
    constructor; [ exact Hc | apply IH, Hrest ].
Qed.

(** X23. Removing a contact: with a single contact in the list nothing is
    removed; with more, an index of the list removes exactly that contact
    (the later ones move up by one) and an index beyond the list removes
    nothing. *)
Theorem remove_contact (index : nat)
    (contacts : list Onboarding.ContactDraft) :
  ((List.length contacts <= 1)%nat ->
   Onboarding.removeEmergencyContact index contacts = contacts) /\
  ((1 < List.length contacts)%nat ->
   (index < List.length contacts)%nat ->
   S (List.length (Onboarding.removeEmergencyContact index contacts))
   = List.length contacts /\
   forall j,
     nth_error (Onboarding.removeEmergencyContact index contacts) j =
     nth_error contacts (if (j <? index)%nat then j else S j)) /\
  ((List.length contacts <= index)%nat ->
   Onboarding.removeEmergencyContact index contacts = contacts).
Proof.
  unfold Onboarding.removeEmergencyContact.
  split; [ | split ].
  - intro H. destruct (Nat.ltb_spec 1 (List.length contacts));
      [ lia | reflexivity ].
  - intros H1 H2. destruct (Nat.ltb_spec 1 (List.length contacts));
      [ | lia ].
    split; [ apply without_index_length, H2 | ].
    intro j. apply without_index_nth.
  - intro H. destruct (1 <? List.length contacts)%nat;
      [ apply without_index_beyond, H | reflexivity ].
Qed.

Lemma remove_contact_witness :
  (1 < List.length (Onboarding.addEmergencyContact
                      Onboarding.initialContacts))%nat /\
  (0 < List.length (Onboarding.addEmergencyContact
                      Onboarding.initialContacts))%nat /\
  S (List.length (Onboarding.removeEmergencyContact 0
                    (Onboarding.addEmergencyContact
                       Onboarding.initialContacts))) = 2%nat.
Proof.
  assert (H1 : (1 < List.length (Onboarding.addEmergencyContact
                                   Onboarding.initialContacts))%nat)
    by (simpl; lia).
  assert (H2 : (0 < List.length (Onboarding.addEmergencyContact
                                   Onboarding.initialContacts))%nat)
    by (simpl; lia).
  split; [ exact H1 | ]. split; [ exact H2 | ].
  exact (proj1 (proj1 (proj2 (remove_contact 0 _)) H1 H2)).
Defined.

Lemma update_in_range (index : nat) (field : Onboarding.Field)
    (value : string) (contacts : list Onboarding.ContactDraft) :
  (index < List.length contacts)%nat ->
  exists c contacts',
    nth_error contacts index = Some c /\
    Onboarding.updateEmergencyContact index field value contacts
      = Some contacts' /\
    List.length contacts' = List.length contacts /\
    nth_error contacts' index = Some (Onboarding.set_field field value c) /\
    forall j, j <> index -> nth_error contacts' j = nth_error contacts j.
Proof.
  revert index. induction contacts as [ | c rest IH]; intros index H.
  - simpl in H. lia.
  - destruct index as [ | i]; simpl.
    + exists c. eexists. repeat split.
      intros j Hj. destruct j; [ contradiction | reflexivity ].
    + destruct (IH i) as (d & rest' & Hd & Hu & Hl & Hn & Ho);
        [ simpl in H; lia | ].
      rewrite Hu. exists d. eexists. repeat split; simpl; auto.
      intros j Hj. destruct j as [ | j]; [ reflexivity | ].
      simpl. apply Ho. lia.
Qed.

Lemma update_beyond (index : nat) (field : Onboarding.Field)
    (value : string) (contacts : list Onboarding.ContactDraft) :
  (List.length contacts <= index)%nat ->
  Onboarding.updateEmergencyContact index field value contacts = None.
Proof.
  revert index. induction contacts as [ | c rest IH]; intros index H.
  - reflexivity.
  - destruct index as [ | i]; simpl in *; [ lia | ].
    rewrite IH; [ reflexivity | lia ].
Qed.

(** X24. Updating a field of the contact at an index of the list: that
    contact then holds the new value in that field, its other fields and
    its primary flag are unchanged, the other contacts are unchanged and
    the list keeps its length. *)
Theorem update_contact (index : nat) (field : Onboarding.Field)
    (value : string) (contacts : list Onboarding.ContactDraft) :
  (index < List.length contacts)%nat ->
  exists c c' contacts',
    Onboarding.updateEmergencyContact index field value contacts
      = Some contacts' /\
    List.length contacts' = List.length contacts /\
    nth_error contacts index = Some c /\
    nth_error contacts' index = Some c' /\
    Onboarding.get_field field c' = value /\
    (forall other, other <> field ->
                   Onboarding.get_field other c'
                   = Onboarding.get_field other c) /\
    Onboarding.is_primary c' = Onboarding.is_primary c /\
    forall j, j <> index -> nth_error contacts' j = nth_error contacts j.
Proof.
  intro H.
  destruct (update_in_range index field value contacts H)
    as (c & contacts' & Hc & Hu & Hl & Hn & Ho).
  exists c, (Onboarding.set_field field value c), contacts'.
  repeat split; auto.
  - destruct field; reflexivity.
  - intros other Hne. destruct field, other; try reflexivity; contradiction.
  - destruct field; reflexivity.
Qed.

Lemma update_contact_witness :
  (0 < List.length Onboarding.initialContacts)%nat /\
  Onboarding.updateEmergencyContact 0 Onboarding.phone_field "100"
    Onboarding.initialContacts
  = Some [Onboarding.mkDraft "" "100" "" true].
Proof.
  assert (H : (0 < List.length Onboarding.initialContacts)%nat)
    by (simpl; lia).
  split; [ exact H | ].
  destruct (update_contact 0 Onboarding.phone_field "100"
              Onboarding.initialContacts H) as (c & c' & l' & Hu & _).
  reflexivity.
Defined.

(** The list is not empty and no contact after the first is primary. *)
Lemma edit_keeps_shape (contacts : list Onboarding.ContactDraft)
    (e : Onboarding.Edit) :
  contacts <> [] /\
  Forall (fun c => Onboarding.is_primary c = false) (tl contacts) ->
  Onboarding.edit contacts e <> [] /\
  Forall (fun c => Onboarding.is_primary c = false)
         (tl (Onboarding.edit contacts e)).
Proof.
  intros [Hne Ht]. destruct contacts as [ | c rest]; [ contradiction | ].
  simpl in Ht. destruct e as [ | index | index field value]; simpl.
  - split; [ discriminate | ]. apply Forall_app. split; [ exact Ht | ].
    repeat constructor.
  - unfold Onboarding.removeEmergencyContact.
    destruct rest as [ | d rest']; simpl; [ split; [ discriminate | exact Ht ] | ].
    destruct index as [ | i]; simpl.
    + split; [ discriminate | ]. inversion Ht; assumption.
    + split; [ discriminate | ].
      apply (without_index_Forall _ i (d :: rest')). exact Ht.
  - destruct index as [ | i]; simpl.
    + split; [ discriminate | exact Ht ].
    + destruct (Onboarding.updateEmergencyContact i field value rest)
        as [rest' | ] eqn:Hu; simpl; [ | split; [ discriminate | exact Ht ]].
      split; [ discriminate | ].
      apply Forall_forall. intros x Hx.
      apply In_nth_error in Hx. destruct Hx as (j & Hj).
      assert (Hi : (i < List.length rest)%nat).
      { destruct (Nat.lt_ge_cases i (List.length rest)) as [L | L];
          [ exact L | ].
        rewrite update_beyond in Hu by exact L. discriminate. }
      destruct (update_in_range i field value rest Hi)
        as (c0 & l0 & Hc0 & Hu0 & _ & Hn0 & Ho0).
      rewrite Hu in Hu0. injection Hu0 as <-.
      rewrite Forall_forall in Ht.
      destruct (Nat.eq_dec j i) as [-> | Hne'].
      * rewrite Hn0 in Hj. injection Hj as <-.
        assert (P : Onboarding.is_primary c0 = false)
          by (apply Ht; eapply nth_error_In; exact Hc0).
        destruct field; exact P.
      * rewrite (Ho0 j Hne') in Hj. apply Ht.
        eapply nth_error_In; exact Hj.
Qed.

Lemma edits_keep_shape (edits : list Onboarding.Edit) :
  forall contacts,
    contacts <> [] /\
    Forall (fun c => Onboarding.is_primary c = false) (tl contacts) ->
    fold_left Onboarding.edit edits contacts <> [] /\
    Forall (fun c => Onboarding.is_primary c = false)
           (tl (fold_left Onboarding.edit edits contacts)).
Proof.
  induction edits as [ | e edits IH]; intros contacts H; simpl.
  - exact H.
  - apply IH, edit_keeps_shape, H.
Qed.

Lemma contacts_shape_aux (edits : list Onboarding.Edit) :
  fold_left Onboarding.edit edits Onboarding.initialContacts <> [] /\
  Forall (fun c => Onboarding.is_primary c = false)
         (tl (fold_left Onboarding.edit edits Onboarding.initialContacts)).
Proof.
  apply edits_keep_shape. split; [ discriminate | constructor ].
Qed.

(** X25. Whatever the user adds, removes and updates, the list of
    emergency contacts never becomes empty, and no contact other than the
    first of the list is ever marked primary. *)
Theorem contacts_never_empty (edits : list Onboarding.Edit) :
  let contacts := fold_left Onboarding.edit edits Onboarding.initialContacts in
  contacts <> [] /\
  Forall (fun c => Onboarding.is_primary c = false) (tl contacts).
Proof. apply contacts_shape_aux. Qed.

Lemma update_keeps_no_primary (index : nat) (field : Onboarding.Field)
    (value : string) (contacts contacts' : list Onboarding.ContactDraft) :
  Onboarding.updateEmergencyContact index field value contacts
    = Some contacts' ->
  Forall (fun c => Onboarding.is_primary c = false) contacts ->
  Forall (fun c => Onboarding.is_primary c = false) contacts'.
Proof.
  revert index contacts'.
  induction contacts as [ | c rest IH]; intros index contacts' Hu H.
  - discriminate Hu.
  - inversion H as [ | c0 rest0 Hc Hrest]; subst.
    destruct index as [ | i]; simpl in Hu.
    + injection Hu as <-. constructor; [ | exact Hrest ].
      destruct field; exact Hc.
    + destruct (Onboarding.updateEmergencyContact i field value rest)
        as [rest' | ] eqn:E; [ | discriminate Hu ].
      injection Hu as <-. constructor; [ exact Hc | ].
      apply (IH i rest' E Hrest).
Qed.

Lemma edit_keeps_no_primary (contacts : list Onboarding.ContactDraft)
    (e : Onboarding.Edit) :
  Forall (fun c => Onboarding.is_primary c = false) contacts ->
  Forall (fun c => Onboarding.is_primary c = false)
         (Onboarding.edit contacts e).
Proof.
  intro H. destruct e as [ | index | index field value]; simpl.
  - apply Forall_app. split; [ exact H | repeat constructor ].
  - unfold Onboarding.removeEmergencyContact.
    destruct (1 <? List.length contacts)%nat; [ | exact H ].
    apply without_index_Forall, H.
  - destruct (Onboarding.updateEmergencyContact index field value contacts)
      as [contacts' | ] eqn:E; [ | exact H ].
    exact (update_keeps_no_primary _ _ _ _ _ E H).
Qed.

(** X26. Once the first contact is removed while others remain, no
    contact is primary, and none becomes primary through later edits:
    nothing promotes another contact. *)
Theorem removed_primary_is_not_replaced
    (before after : list Onboarding.Edit) :
  let contacts :=
    fold_left Onboarding.edit before Onboarding.initialContacts in
  (1 < List.length contacts)%nat ->
  Forall (fun c => Onboarding.is_primary c = false)
         (fold_left Onboarding.edit after
                    (Onboarding.removeEmergencyContact 0 contacts)).
Proof.
  cbv zeta. intro Hlen.
  destruct (contacts_shape_aux before) as [Hne Ht].
  set (contacts := fold_left Onboarding.edit before
                             Onboarding.initialContacts) in *.
  assert (H0 : Forall (fun c => Onboarding.is_primary c = false)
                      (Onboarding.removeEmergencyContact 0 contacts)).
  { unfold Onboarding.removeEmergencyContact.
    destruct contacts as [ | c [ | d rest]]; simpl in *; try lia.
    exact Ht. }
  clearbody contacts. clear Hlen Hne Ht.
  revert H0. generalize (Onboarding.removeEmergencyContact 0 contacts).
  induction after as [ | e after IH]; intros l H; simpl.
  - exact H.
  - apply IH, edit_keeps_no_primary, H.
Qed.

(** A second contact is added, then the first one is removed and the
    remaining one is given a name. *)
Lemma removed_primary_is_not_replaced_witness :
  (1 < List.length (fold_left Onboarding.edit [Onboarding.Add]
                              Onboarding.initialContacts))%nat /\
  Forall (fun c => Onboarding.is_primary c = false)
         (fold_left Onboarding.edit
            [Onboarding.Update 0 Onboarding.name_field "Asha"]
            (Onboarding.removeEmergencyContact 0
               (fold_left Onboarding.edit [Onboarding.Add]
                          Onboarding.initialContacts))).
Proof.
  assert (H : (1 < List.length (fold_left Onboarding.edit [Onboarding.Add]
                                          Onboarding.initialContacts))%nat)
    by (simpl; lia).
  split; [ exact H | ].
  exact (removed_primary_is_not_replaced [Onboarding.Add]
           [Onboarding.Update 0 Onboarding.name_field "Asha"] H).
Defined.

Lemma usable_spec (c : Onboarding.ContactDraft) :
  Onboarding.usable c = true <->
  Onboarding.name c <> ""%string /\ Onboarding.phone c <> ""%string.
Proof.
  unfold Onboarding.usable.
  destruct (String.eqb_spec (Onboarding.name c) "");
    destruct (String.eqb_spec (Onboarding.phone c) ""); simpl;
    split; intros; try discriminate; try tauto; auto.
Qed.

(** X27. Step 3 lets the user proceed exactly when the contacts to insert
    at completion are not empty.  The rows to insert are the contacts
    with a name and a phone, in the order of the list, each for the given
    user, with its name, phone and primary flag, and an empty
    relationship turned into [null]. *)
Theorem usable_contacts_are_inserted (user_id : string)
    (contacts : list Onboarding.ContactDraft) :
  (Onboarding.canProceed_contacts contacts = true <->
   Onboarding.contactsToInsert user_id contacts <> []) /\
  Forall (fun r => Onboarding.row_user_id r = user_id /\
                   Onboarding.row_name r <> ""%string /\
                   Onboarding.row_phone r <> ""%string /\
                   Onboarding.row_relationship r <> Some ""%string)
         (Onboarding.contactsToInsert user_id contacts) /\
  map (fun r => (Onboarding.row_name r, Onboarding.row_phone r,
                 Onboarding.row_is_primary r))
      (Onboarding.contactsToInsert user_id contacts) =
  map (fun c => (Onboarding.name c, Onboarding.phone c,
                 Onboarding.is_primary c))
      (filter Onboarding.usable contacts) /\
  (List.length (Onboarding.contactsToInsert user_id contacts)
   <= List.length contacts)%nat.
Proof.
  unfold Onboarding.canProceed_contacts, Onboarding.contactsToInsert.
  split; [ | split; [ | split ]].
  - induction contacts as [ | c rest IH]; simpl.
    + split; [ discriminate | intro H; contradiction ].
    + destruct (Onboarding.usable c); simpl.
      * split; [ discriminate | reflexivity ].
      * exact IH.
  - apply Forall_forall. intros r Hr.
    apply in_map_iff in Hr. destruct Hr as (c & <- & Hc).
    apply filter_In in Hc. destruct Hc as [_ Hu].
    apply usable_spec in Hu. destruct Hu as [Hn Hp]. simpl.
    repeat split; auto.
    destruct (String.eqb_spec (Onboarding.relationship c) "");
      [ discriminate | ].
    intro E. injection E as E. contradiction.
  - rewrite map_map. reflexivity.
  - rewrite length_map. apply filter_length_le.
Qed.

Lemma press_in_range (step : Z) (p : Onboarding.Press) :
  (1 <= step <= 5)%Z -> (1 <= Onboarding.press step p <= 5)%Z.
Proof.
  intro H. destruct p as [failed | ]; simpl.
  - unfold Onboarding.next_step.
    destruct ((step =? 2)%Z && failed); [ exact H | ].
    destruct (Z.ltb_spec step 5); lia.
  - unfold Onboarding.back_step. destruct (Z.ltb_spec 1 step); lia.
Qed.

(** X28. Whatever sequence of Next and Back the user presses from step 1,
    the step stays between 1 and 5, so [steps[step - 1]] is always one of
    the five steps; a failed sign-up on step 2 keeps the user on step 2,
    and Next on step 5 does not leave step 5. *)
Theorem step_stays_in_range (presses : list Onboarding.Press) :
  let step := fold_left Onboarding.press presses 1%Z in
  (1 <= step <= 5)%Z /\
  (exists title, nth_error Onboarding.steps (Z.to_nat (step - 1))
                 = Some title) /\
  Onboarding.press 2 (Onboarding.Next true) = 2%Z /\
  (forall failed, Onboarding.press 5 (Onboarding.Next failed) = 5%Z).
Proof.
  cbv zeta.
  assert (H : (1 <= fold_left Onboarding.press presses 1 <= 5)%Z).
  { assert (G : forall s, (1 <= s <= 5)%Z ->
                          (1 <= fold_left Onboarding.press presses s <= 5)%Z).
    { induction presses as [ | p ps IH]; intros s Hs; simpl;
        [ exact Hs | apply IH, press_in_range, Hs ]. }
    apply G. lia. }
  split; [ exact H | ]. split; [ | split ].
  - set (s := fold_left Onboarding.press presses 1%Z) in *.
    assert (C : (s = 1 \/ s = 2 \/ s = 3 \/ s = 4 \/ s = 5)%Z) by lia.
    destruct C as [-> | [-> | [-> | [-> | ->]]]]; eexists; reflexivity.
  - reflexivity.
  - intros []; reflexivity.
Qed.
